(** * Seat reservation engine of the ride-sharing bot

    Shallow embedding of the booking life cycle implemented in
    [database.py], [booking_module.py] and [handlers.py]: the two tables
    [trips] and [bookings], the callback branches that create, confirm,
    reject and cancel bookings, the trip cancellation cascade and the
    periodic job that expires stale [PENDING] bookings.

    Tables are finite maps from the integer primary key to the row.
    A handler is a function from the committed database to the committed
    database it leaves behind, the answer shown to the caller and the
    notifier calls it makes.  Python integers are [Z]; a [datetime] is the
    number of microseconds on its (naive) time line. *)

From stdpp Require Import gmap list fin_maps strings.
From Stdlib Require Import ZArith Lia.

Local Open Scope Z_scope.

(* ================================================================== *)
(** ** database.py *)
(* ================================================================== *)

(** [class BookingStatus(PyEnum)]; the [status] column only ever receives
    the [.value] of one of these. *)
Inductive BookingStatus : Set :=
  | PENDING
  | CONFIRMED
  | CANCELLED
  | REJECTED
  | EXPIRED.

#[global] Instance BookingStatus_eq_dec : EqDecision BookingStatus.
Proof. solve_decision. Defined.

(** A timestamp as the booking code receives it.  [booking_time] is a
    [Column(DateTime)]: the ORM hands a handler [None] or a [datetime]
    and raises while it loads a stored text that it cannot read.  [DtStr]
    is the text that [_as_utc_datetime] and the confirm branch provide
    for all the same; what is stated about whole tables is stated for
    rows that hold [DtNone] or [DtDatetime] (see [pending_rows_load]). *)
Inductive ColumnDateTime : Set :=
  | DtNone
  | DtDatetime (t : Z)
  | DtStr (s : string).

(** [class Trip(Base)], restricted to the columns the booking code reads
    or writes.  There is no capacity column: only the remaining count. *)
Record Trip : Set := mkTrip {
  driver_id : Z;
  date : Z;
  end_date : option Z;
  seats_available : Z;
  is_active : bool;
}.

(** [class Booking(Base)], without the rating and UI-correlation columns. *)
Record Booking : Set := mkBooking {
  trip_id : Z;
  passenger_id : Z;
  seats_booked : Z;
  booking_time : ColumnDateTime;
  status : BookingStatus;
}.

Record DB : Type := mkDB {
  trips : gmap Z Trip;
  bookings : gmap Z Booking;
}.

Definition set_seats_available (t : Trip) (n : Z) : Trip :=
  mkTrip (driver_id t) (date t) (end_date t) n (is_active t).

Definition set_is_active (t : Trip) (a : bool) : Trip :=
  mkTrip (driver_id t) (date t) (end_date t) (seats_available t) a.

Definition set_status (b : Booking) (s : BookingStatus) : Booking :=
  mkBooking (trip_id b) (passenger_id b) (seats_booked b) (booking_time b) s.

(** [booking.trip]: the relationship follows the foreign key and is [None]
    when no such trip row exists. *)
Definition booking_trip (db : DB) (b : Booking) : option Trip :=
  trips db !! trip_id b.

(** [trip.seats_available += n] on the trip a booking points to. *)
Definition add_seats (ts : gmap Z Trip) (tid : Z) (trip : Trip) (n : Z)
  : gmap Z Trip :=
  <[tid := set_seats_available trip (seats_available trip + n)]> ts.

(** [Booking.status.in_([PENDING, CONFIRMED])]. *)
Definition in_pending_confirmed (s : BookingStatus) : bool :=
  match s with
  | PENDING | CONFIRMED => true
  | _ => false
  end.

(** [status in (CANCELLED, REJECTED, EXPIRED)]: the anti-repeat guard of
    the cancellation branches. *)
Definition in_cancelled_rejected_expired (s : BookingStatus) : bool :=
  match s with
  | CANCELLED | REJECTED | EXPIRED => true
  | _ => false
  end.

(** New rows get the next integer primary key. *)
Definition max_id (bs : gmap Z Booking) : Z :=
  map_fold (λ k _ acc, Z.max k acc) 0 bs.

Definition next_id (bs : gmap Z Booking) : Z := max_id bs + 1.

(** [session.query(Booking).filter(...).all()] and [.first()].  The
    queries carry no [ORDER BY]; the rows are listed in the enumeration
    order of the map, which need not be the order in which SQLite returns
    them, so the notices of a loop over several rows are stated up to
    their order. *)
Definition query_all (P : Booking → bool) (bs : gmap Z Booking)
  : list (Z * Booking) :=
  filter (λ kb, P kb.2 = true) (map_to_list bs).

Definition query_first (P : Booking → bool) (bs : gmap Z Booking)
  : option (Z * Booking) :=
  head (query_all P bs).

(* ================================================================== *)
(** ** Environment of one handler invocation *)
(* ================================================================== *)

(** The clock readings, the configuration value and the behaviour of the
    Telegram client and of the Python runtime's parsers during one call. *)
Record Env : Type := mkEnv {
  now : Z;                            (* datetime.now() *)
  utcnow : Z;                         (* datetime.utcnow() *)
  PENDING_BOOKING_TTL_MINUTES : Z;    (* config.py *)
  has_bot : bool;                     (* getattr(context, "bot", None) is not None *)
  send_message_ok : Z → bool;         (* bot.send_message(chat_id=..) does not raise *)
  strip : string → string;            (* str.strip *)
  fromisoformat : string → option Z;  (* datetime.fromisoformat, None when it raises *)
  strptime : string → string → option Z; (* datetime.strptime s fmt *)
}.

Definition timedelta_minutes (m : Z) : Z := m * 60000000.

(** [int(PENDING_BOOKING_TTL_MINUTES or 15)]. *)
Definition ttl_minutes (env : Env) : Z :=
  if decide (PENDING_BOOKING_TTL_MINUTES env = 0) then 15
  else PENDING_BOOKING_TTL_MINUTES env.

(** [cutoff = datetime.utcnow() - timedelta(minutes=ttl_minutes)]. *)
Definition cutoff (env : Env) : Z :=
  utcnow env - timedelta_minutes (ttl_minutes env).

(** Answers shown to the caller (the alert or card text of each branch). *)
Inductive Reply : Set :=
  | ReplyTripUnavailable        (* "Поездка недоступна." *)
  | ReplyOwnTrip                (* "Нельзя забронировать свою поездку." *)
  | ReplyPastTrip               (* "... на прошедшую поездку." *)
  | ReplyBadQuantity            (* "Недоступное количество мест." *)
  | ReplyDuplicateBooking       (* "Вы уже забронировали место в этой поездке!" *)
  | ReplyRequestSent (booking_id : Z)
  | ReplySeatKeyboard (buttons : list Z)
  | ReplyBookingNotFound        (* "Заявка/Бронирование не найден(а)." *)
  | ReplyAlreadyExpired         (* "Заявка уже истекла." *)
  | ReplyExpiredNow             (* "Заявка истекла. Подтвердить нельзя." *)
  | ReplyConfirmed              (* "БРОНИРОВАНИЕ ПОДТВЕРЖДЕНО!" *)
  | ReplyRejected               (* "Бронирование отклонено." *)
  | ReplyAlreadyCancelled       (* "Уже отменено." *)
  | ReplyCancelled              (* "Бронирование отменено. ..." *)
  | ReplyNotYourTrip            (* "Вы не можете отменять ..." *)
  | ReplyDriverCancelled        (* "Бронирование пассажира отменено." *)
  | ReplyTripDeleted            (* show_trip_deleted_card *)
  | ReplyTripCancelled          (* "Поездка отменена!" *)
  | ReplyNotYourBooking         (* "Это бронирование не принадлежит вам." *)
  | ReplyHandlerError           (* "Произошла ошибка." *)
  | ReplyEmpty.                 (* bare query.answer() *)

#[global] Instance Reply_eq_dec : EqDecision Reply.
Proof. solve_decision. Defined.

(** Calls made to the notifier functions. *)
Inductive Notification : Set :=
  | NotifyDriverNewBooking (driver booking seats passenger : Z)
  | NotifyPassengerBookingConfirmed (passenger booking : Z)
  | NotifyPassengerBookingRejected (passenger booking : Z)
  | NotifyPassengerBookingExpired (passenger booking : Z)
  | NotifyDriverBookingCancelled (booking : Z)
  | NotifyPassengerTripCancelled (passenger booking : Z).

#[global] Instance Notification_eq_dec : EqDecision Notification.
Proof. solve_decision. Defined.

Record Outcome : Type := mkOutcome {
  out_db : DB;
  out_reply : Reply;
  out_notes : list Notification;
}.

(** Exceptions a handler body lets escape. *)
Inductive PyExn : Set :=
  | AttributeError (attr : string).

Definition unchanged (db : DB) (r : Reply) : Outcome := mkOutcome db r [].

(* ================================================================== *)
(** ** booking_module.py *)
(* ================================================================== *)

Definition fmt_seconds : string := "%Y-%m-%d %H:%M:%S".
Definition fmt_micros : string := "%Y-%m-%d %H:%M:%S.%f".

(** [_as_utc_datetime(value)]: best-effort parse of [booking_time]. *)
Definition _as_utc_datetime (env : Env) (value : ColumnDateTime) : option Z :=
  match value with
  | DtNone => None
  | DtDatetime t => Some t
  | DtStr v =>
      let s := strip env v in
      if decide (s = EmptyString) then None
      else
        match fromisoformat env s with
        | Some t => Some t
        | None =>
            match strptime env s fmt_seconds with
            | Some t => Some t
            | None => strptime env s fmt_micros
            end
        end
  end.

(** The test the job applies to one row of its [PENDING] query: the
    timestamp parses and lies strictly before the cutoff (a row with
    [bt >= cutoff] is skipped by [continue]). *)
Definition overdue (env : Env) (b : Booking) : bool :=
  match _as_utc_datetime env (booking_time b) with
  | None => false
  | Some bt =>
      if bool_decide (cutoff env ≤ bt) then false
      else if bool_decide (status b ≠ PENDING) then false
      else
        match _as_utc_datetime env (booking_time b) with
        | None => false
        | Some bt' => negb (bool_decide (cutoff env ≤ bt'))
        end
  end.

(** One iteration of [for b in bookings] in [expire_pending_bookings_job],
    on the session state, the notifier calls made so far and
    [expired_count].  The trip is read through the session, so seats
    given back by an earlier iteration are seen by a later one. *)
Definition expire_one (env : Env) (st : DB * list Notification * Z)
    (kb : Z * Booking) : DB * list Notification * Z :=
  let '(db, notes, expired_count) := st in
  let '(id, b) := kb in
  if overdue env b then
    let ts :=
      match booking_trip db b with
      | Some trip => add_seats (trips db) (trip_id b) trip (seats_booked b)
      | None => trips db
      end in
    (mkDB ts (<[id := set_status b EXPIRED]> (bookings db)),
     if has_bot env
     then notes ++ [NotifyPassengerBookingExpired (passenger_id b) id]
     else notes,
     expired_count + 1)
  else st.

(** The loop of the job over the rows fetched with [status == PENDING]. *)
Definition expire_loop (env : Env) (db : DB) : DB * list Notification * Z :=
  foldl (expire_one env) (db, [], 0)
        (query_all (λ b, bool_decide (status b = PENDING)) (bookings db)).

(** [expire_pending_bookings_job]: after the loop,
    [if expired_count: session.commit()]; a session that is not
    committed is dropped. *)
Definition expire_pending_bookings_job (env : Env) (db : DB)
  : DB * list Notification :=
  let '(session, notes, expired_count) := expire_loop env db in
  (if bool_decide (expired_count ≠ 0) then session else db, notes).

(** Number of [session.commit()] calls of one run of the job. *)
Definition expire_job_commits (env : Env) (db : DB) : nat :=
  if bool_decide ((expire_loop env db).2 ≠ 0) then 1%nat else 0%nat.

(** The duplicate query of [handle_callback] (and of the [book_] branch). *)
Definition existing_booking (db : DB) (tid from_user : Z)
  : option (Z * Booking) :=
  query_first
    (λ b, bool_decide (trip_id b = tid)
          && bool_decide (passenger_id b = from_user)
          && in_pending_confirmed (status b))
    (bookings db).

(** [handle_callback] for [book_qty_{trip_id}_{seats}] once the two
    integers have been read off the callback data. *)
Definition handle_callback (env : Env) (db : DB)
    (tid seats_requested from_user : Z) : Outcome :=
  match trips db !! tid with
  | None => unchanged db ReplyTripUnavailable
  | Some trip =>
      if negb (is_active trip) || bool_decide (seats_available trip ≤ 0)
      then unchanged db ReplyTripUnavailable
      else if bool_decide (driver_id trip = from_user)
      then unchanged db ReplyOwnTrip
      else if bool_decide (date trip < now env)
      then unchanged db ReplyPastTrip
      else if bool_decide (seats_requested < 1)
              || bool_decide (seats_requested > seats_available trip)
      then unchanged db ReplyBadQuantity
      else
        match existing_booking db tid from_user with
        | Some _ => unchanged db ReplyDuplicateBooking
        | None =>
            let booking_id := next_id (bookings db) in
            let new_booking :=
              mkBooking tid from_user seats_requested
                        (DtDatetime (utcnow env)) PENDING in
            let trip' :=
              set_seats_available trip
                (seats_available trip - seats_requested) in
            mkOutcome
              (mkDB (<[tid := trip']> (trips db))
                    (<[booking_id := new_booking]> (bookings db)))
              (ReplyRequestSent booking_id)
              [NotifyDriverNewBooking (driver_id trip) booking_id
                                      seats_requested from_user]
        end
  end.

(* ================================================================== *)
(** ** handlers.py *)
(* ================================================================== *)

(** [trip_end_dt(trip)]: [end_date or date]. *)
Definition trip_end_dt (t : Trip) : Z := default (date t) (end_date t).

(** The quantity keyboard of the [book_] branch: buttons [1 .. max_btn]
    with [max_btn = min(5, int(trip.seats_available))]. *)
Definition seat_buttons (t : Trip) : list Z :=
  let max_btn := Z.min 5 (seats_available t) in
  (λ n : nat, Z.of_nat n + 1) <$> seq 0 (Z.to_nat max_btn).

(** The [book_] branch of [button_callback]: first step of a booking. *)
Definition book_step (env : Env) (db : DB) (tid from_user : Z) : Outcome :=
  match trips db !! tid with
  | None => unchanged db ReplyTripUnavailable
  | Some trip =>
      if bool_decide (seats_available trip ≤ 0) || negb (is_active trip)
      then unchanged db ReplyTripUnavailable
      else if bool_decide (driver_id trip = from_user)
      then unchanged db ReplyOwnTrip
      else if bool_decide (trip_end_dt trip < now env)
      then unchanged db ReplyPastTrip
      else
        match existing_booking db tid from_user with
        | Some _ => unchanged db ReplyDuplicateBooking
        | None => unchanged db (ReplySeatKeyboard (seat_buttons trip))
        end
  end.

(** The inline timestamp parse of the [confirm_booking_] branch. *)
Definition confirm_parse (env : Env) (bt : ColumnDateTime) : option Z :=
  match bt with
  | DtNone => None
  | DtDatetime t => Some t
  | DtStr v =>
      let s := strip env v in
      match fromisoformat env s with
      | Some t => Some t
      | None =>
          match strptime env s fmt_seconds with
          | Some t => Some t
          | None => strptime env s fmt_micros
          end
      end
  end.

(** [is_expired = bt < (datetime.utcnow() - timedelta(minutes=ttl))]. *)
Definition is_expired (env : Env) (b : Booking) : bool :=
  match confirm_parse env (booking_time b) with
  | None => false
  | Some bt => bool_decide (bt < cutoff env)
  end.

(** The [confirm_booking_] branch.  [from_user] is the caller's id; the
    branch never reads it. *)
Definition confirm_booking (env : Env) (db : DB)
    (booking_id from_user : Z) : Outcome :=
  match bookings db !! booking_id with
  | None => unchanged db ReplyBookingNotFound
  | Some booking =>
      match status booking with
      | EXPIRED => unchanged db ReplyAlreadyExpired
      | PENDING =>
          if is_expired env booking then
            let ts :=
              match booking_trip db booking with
              | Some trip =>
                  add_seats (trips db) (trip_id booking) trip
                            (seats_booked booking)
              | None => trips db
              end in
            mkOutcome
              (mkDB ts (<[booking_id := set_status booking EXPIRED]>
                          (bookings db)))
              ReplyExpiredNow
              [NotifyPassengerBookingExpired (passenger_id booking)
                                             booking_id]
          else
            mkOutcome
              (mkDB (trips db)
                    (<[booking_id := set_status booking CONFIRMED]>
                       (bookings db)))
              ReplyConfirmed
              [NotifyPassengerBookingConfirmed (passenger_id booking)
                                               booking_id]
      | _ => unchanged db ReplyEmpty
      end
  end.

(** The [reject_booking_] branch; [booking.trip] being [None] makes
    [trip.seats_available] raise before anything is written. *)
Definition reject_booking (env : Env) (db : DB)
    (booking_id from_user : Z) : PyExn + Outcome :=
  match bookings db !! booking_id with
  | Some booking =>
      if bool_decide (status booking = PENDING) then
        match booking_trip db booking with
        | None => inl (AttributeError "seats_available")
        | Some trip =>
            inr (mkOutcome
                   (mkDB (add_seats (trips db) (trip_id booking) trip
                                    (seats_booked booking))
                         (<[booking_id := set_status booking REJECTED]>
                            (bookings db)))
                   ReplyRejected
                   [NotifyPassengerBookingRejected (passenger_id booking)
                                                   booking_id])
        end
      else inr (unchanged db ReplyEmpty)
  | None => inr (unchanged db ReplyEmpty)
  end.

(** The [confirm_cancel_] branch: [booking.status] is read first. *)
Definition confirm_cancel (env : Env) (db : DB)
    (booking_id from_user : Z) : PyExn + Outcome :=
  match bookings db !! booking_id with
  | None => inl (AttributeError "status")
  | Some booking =>
      if in_cancelled_rejected_expired (status booking)
      then inr (unchanged db ReplyAlreadyCancelled)
      else if bool_decide (passenger_id booking = from_user) then
        match booking_trip db booking with
        | None => inl (AttributeError "seats_available")
        | Some trip =>
            inr (mkOutcome
                   (mkDB (add_seats (trips db) (trip_id booking) trip
                                    (seats_booked booking))
                         (<[booking_id := set_status booking CANCELLED]>
                            (bookings db)))
                   ReplyCancelled
                   [NotifyDriverBookingCancelled booking_id])
        end
      else inr (unchanged db ReplyEmpty)
  end.

(** The [confirm_driver_cancel_] branch; its own [try/except] turns any
    exception into the error alert, with nothing committed. *)
Definition confirm_driver_cancel (env : Env) (db : DB)
    (booking_id from_user : Z) : Outcome :=
  match bookings db !! booking_id with
  | None => unchanged db ReplyBookingNotFound
  | Some booking =>
      if in_cancelled_rejected_expired (status booking)
      then unchanged db ReplyAlreadyCancelled
      else
        match booking_trip db booking with
        | None => unchanged db ReplyHandlerError
        | Some trip =>
            if bool_decide (driver_id trip ≠ from_user)
            then unchanged db ReplyNotYourTrip
            else
              mkOutcome
                (mkDB (add_seats (trips db) (trip_id booking) trip
                                 (seats_booked booking))
                      (<[booking_id := set_status booking CANCELLED]>
                         (bookings db)))
                ReplyDriverCancelled
                [NotifyPassengerBookingRejected (passenger_id booking)
                                                booking_id]
        end
  end.

(** The [exit_trip_] branch ("leave the trip"), a second way for the
    passenger to cancel.  It does not look at the booking's status.  The
    bare [_answer_once()] comes before the texts "Готово." and
    "Бронирование отменено, ...", so the caller sees the empty answer. *)
Definition exit_trip (env : Env) (db : DB) (booking_id from_user : Z)
  : Outcome :=
  match bookings db !! booking_id with
  | None => unchanged db ReplyBookingNotFound
  | Some booking =>
      if bool_decide (passenger_id booking ≠ from_user)
      then unchanged db ReplyNotYourBooking
      else
        let cancelled :=
          <[booking_id := set_status booking CANCELLED]> (bookings db) in
        match booking_trip db booking with
        | None => mkOutcome (mkDB (trips db) cancelled) ReplyEmpty []
        | Some trip =>
            if negb (is_active trip)
            then mkOutcome (mkDB (trips db) cancelled) ReplyEmpty []
            else if bool_decide (date trip > now env)
            then
              mkOutcome
                (mkDB (add_seats (trips db) (trip_id booking) trip
                                 (seats_booked booking))
                      cancelled)
                ReplyEmpty
                [NotifyDriverBookingCancelled booking_id]
            else mkOutcome (mkDB (trips db) cancelled) ReplyEmpty []
        end
  end.

(** One iteration of the loop of [notify_passengers_trip_cancelled]:
    the message is sent first; only when the send returns is the row
    fetched again and set to [CANCELLED].  A failed send is logged and
    the loop goes on to the next booking. *)
Definition cancel_one (env : Env) (st : DB * list Notification)
    (kb : Z * Booking) : DB * list Notification :=
  let '(db, notes) := st in
  let '(id, booking) := kb in
  let notes' := notes ++ [NotifyPassengerTripCancelled (passenger_id booking) id] in
  if send_message_ok env (passenger_id booking) then
    match bookings db !! id with
    | Some db_booking =>
        (mkDB (trips db)
              (<[id := set_status db_booking CANCELLED]> (bookings db)),
         notes')
    | None => (db, notes')
    end
  else (db, notes').

(** [notify_passengers_trip_cancelled(bot, trip)]. *)
Definition notify_passengers_trip_cancelled (env : Env) (db : DB) (tid : Z)
  : DB * list Notification :=
  foldl (cancel_one env) (db, [])
        (query_all (λ b, bool_decide (trip_id b = tid)
                         && in_pending_confirmed (status b))
                   (bookings db)).

(** [cancel_trip(query, context, trip_id)]. *)
Definition cancel_trip (env : Env) (db : DB) (tid from_user : Z) : Outcome :=
  match trips db !! tid with
  | None => unchanged db ReplyTripDeleted
  | Some trip =>
      if negb (is_active trip) then unchanged db ReplyTripDeleted
      else if bool_decide (driver_id trip ≠ from_user)
      then unchanged db ReplyNotYourTrip
      else
        let db1 :=
          mkDB (<[tid := set_is_active trip false]> (trips db))
               (bookings db) in
        let '(db2, notes) := notify_passengers_trip_cancelled env db1 tid in
        mkOutcome db2 ReplyTripCancelled notes
  end.

(** The outer [try/except] of [button_callback]: an escaping exception is
    logged and answered with the error alert; the session that raised is
    closed without a commit. *)
Definition button_try (db : DB) (body : PyExn + Outcome) : Outcome :=
  match body with
  | inl _ => unchanged db ReplyHandlerError
  | inr out => out
  end.

(** The callbacks behind the reservation operations (create, confirm,
    reject, cancel by passenger, cancel by driver, cancel trip), after the
    prefix dispatch of [button_callback], and the periodic job. *)
Inductive Command : Set :=
  | BookQty (tid seats_requested from_user : Z)
  | ConfirmBooking (booking_id from_user : Z)
  | RejectBooking (booking_id from_user : Z)
  | ConfirmCancel (booking_id from_user : Z)
  | ConfirmDriverCancel (booking_id from_user : Z)
  | ConfirmTripCancel (tid from_user : Z)
  | ExpireJob.

Definition step (env : Env) (db : DB) (c : Command) : Outcome :=
  match c with
  | BookQty tid n u => handle_callback env db tid n u
  | ConfirmBooking id u => confirm_booking env db id u
  | RejectBooking id u => button_try db (reject_booking env db id u)
  | ConfirmCancel id u => button_try db (confirm_cancel env db id u)
  | ConfirmDriverCancel id u => confirm_driver_cancel env db id u
  | ConfirmTripCancel tid u => cancel_trip env db tid u
  | ExpireJob =>
      let '(db', notes) := expire_pending_bookings_job env db in
      mkOutcome db' ReplyEmpty notes
  end.

(** A run of the engine: each command with the environment it meets. *)
Definition run (db : DB) (cs : list (Env * Command)) : DB :=
  foldl (λ d ec, out_db (step ec.1 d ec.2)) db cs.

(* ================================================================== *)
(** ** Seat accounting *)
(* ================================================================== *)

(** The seats a booking holds on trip [tid]: [seats_booked] while the
    status is [PENDING] or [CONFIRMED], nothing otherwise. *)
Definition held (tid : Z) (b : Booking) : Z :=
  if bool_decide (trip_id b = tid) && in_pending_confirmed (status b)
  then seats_booked b else 0.

(** [total_booked]: the query
    [func.sum(Booking.seats_booked)] filtered on the trip and on
    [status.in_([PENDING, CONFIRMED])], with [or 0]. *)
Definition total_booked (bs : gmap Z Booking) (tid : Z) : Z :=
  map_fold (λ _ b acc, held tid b + acc) 0 bs.

(** Remaining seats plus held seats of an existing trip: the capacity the
    trip was published with, as long as every operation keeps it. *)
Definition total_seats (db : DB) (tid : Z) : option Z :=
  (λ t, seats_available t + total_booked (bookings db) tid) <$> trips db !! tid.

(** At most one [PENDING]/[CONFIRMED] booking per (trip, passenger). *)
Definition one_active_per_pair (db : DB) : Prop :=
  ∀ k1 k2 b1 b2,
    bookings db !! k1 = Some b1 →
    bookings db !! k2 = Some b2 →
    in_pending_confirmed (status b1) = true →
    in_pending_confirmed (status b2) = true →
    trip_id b1 = trip_id b2 →
    passenger_id b1 = passenger_id b2 →
    k1 = k2.

(** The status changes the reservation callbacks perform. *)
Inductive transition : BookingStatus → BookingStatus → Prop :=
  | tr_confirm : transition PENDING CONFIRMED
  | tr_reject : transition PENDING REJECTED
  | tr_expire : transition PENDING EXPIRED
  | tr_cancel_pending : transition PENDING CANCELLED
  | tr_cancel_confirmed : transition CONFIRMED CANCELLED.

(** [handle_passenger_trip_completed] / [..._not_completed]: defined at
    the end of handlers.py; they overwrite the status of any booking. *)
Definition handle_passenger_trip_completed (db : DB) (booking_id : Z) : DB :=
  match bookings db !! booking_id with
  | Some booking =>
      mkDB (trips db)
           (<[booking_id := set_status booking CONFIRMED]> (bookings db))
  | None => db
  end.

Definition handle_passenger_trip_not_completed (db : DB) (booking_id : Z)
  : DB :=
  match bookings db !! booking_id with
  | Some booking =>
      mkDB (trips db)
           (<[booking_id := set_status booking CANCELLED]> (bookings db))
  | None => db
  end.

(** Between [db] and [db'] every trip kept all its columns except
    [seats_available], which moved by exactly the seats that bookings of
    the trip took or released. *)
Definition seats_follow (db db' : DB) : Prop :=
  ∀ tid,
    trips db' !! tid
    = (λ t, set_seats_available t
              (seats_available t + total_booked (bookings db) tid
               - total_booked (bookings db') tid))
        <$> trips db !! tid.

(** What one run of the expiry job does to a booking row. *)
Definition expire_row (env : Env) (b : Booking) : Booking :=
  if overdue env b then set_status b EXPIRED else b.

(** The notifier call the job makes for an expired row. *)
Definition expired_note (kb : Z * Booking) : Notification :=
  NotifyPassengerBookingExpired (passenger_id kb.2) kb.1.

(** What the trip cancellation cascade does to a booking row. *)
Definition cancel_row (env : Env) (tid : Z) (b : Booking) : Booking :=
  if bool_decide (trip_id b = tid) && in_pending_confirmed (status b)
     && send_message_ok env (passenger_id b)
  then set_status b CANCELLED else b.

(** The notifier call the cascade makes for a booking of the trip. *)
Definition trip_cancelled_note (kb : Z * Booking) : Notification :=
  NotifyPassengerTripCancelled (passenger_id kb.2) kb.1.

(** How a booking row may differ after a callback: not at all, or by a
    status change along [transition]. *)
Definition row_step (b b' : Booking) : Prop :=
  b' = b ∨ ∃ s, b' = set_status b s ∧ transition (status b) s.

(** No booking row appears or disappears and each moves by [row_step]. *)
Definition rows_follow (db db' : DB) : Prop :=
  ∀ k, option_Forall2 row_step (bookings db !! k) (bookings db' !! k).

(** The command is one of the four single-booking callbacks on [id]. *)
Definition targets (c : Command) (id : Z) : Prop :=
  match c with
  | ConfirmBooking k _ | RejectBooking k _
  | ConfirmCancel k _ | ConfirmDriverCancel k _ => k = id
  | _ => False
  end.

Definition is_trip_cancel (c : Command) : Prop :=
  match c with ConfirmTripCancel _ _ => True | _ => False end.

Definition is_book_qty (c : Command) : Prop :=
  match c with BookQty _ _ _ => True | _ => False end.

(** The same invocation with another behaviour of [bot.send_message]. *)
Definition with_send (env : Env) (send : Z → bool) : Env :=
  mkEnv (now env) (utcnow env) (PENDING_BOOKING_TTL_MINUTES env)
        (has_bot env) send (strip env) (fromisoformat env) (strptime env).

(** The answers with which [handle_callback] turns a request down. *)
Definition refusals : list Reply :=
  [ReplyTripUnavailable; ReplyOwnTrip; ReplyPastTrip;
   ReplyBadQuantity; ReplyDuplicateBooking].

(* ================================================================== *)
(** ** Sample data used by the closed examples *)
(* ================================================================== *)

Module Sample.

(** 12:00 UTC on some day, in microseconds, and a TTL of 15 minutes. *)
Definition t_noon : Z := 43200000000.
Definition minutes (m : Z) : Z := timedelta_minutes m.

(** Every send succeeds; the string parsers are never reached because
    every sample row stores a proper [datetime]. *)
Definition env_at (utc : Z) : Env :=
  mkEnv utc utc 15 true (λ _, true) (λ s, s) (λ _, None) (λ _ _, None).

(** The same clock, but the Telegram client fails for chat [p]. *)
Definition env_failing (utc p : Z) : Env :=
  mkEnv utc utc 15 true (λ c, negb (bool_decide (c = p)))
        (λ s, s) (λ _, None) (λ _ _, None).

Definition driver : Z := 100.
Definition alice : Z := 201.
Definition bob : Z := 202.
Definition mallory : Z := 666.

(** A trip with three free seats leaving in two hours. *)
Definition trip3 : Trip :=
  mkTrip driver (t_noon + minutes 120) None 3 true.

Definition db_empty : DB := mkDB {[ 1 := trip3 ]} ∅.

(** Alice has asked for two seats at noon: one [PENDING] booking. *)
Definition db_pending : DB :=
  out_db (handle_callback (env_at t_noon) db_empty 1 2 alice).

(** The driver confirmed one minute later. *)
Definition db_confirmed : DB :=
  out_db (confirm_booking (env_at (t_noon + minutes 1)) db_pending 1 driver).

(** Bob has asked for the remaining seat one minute after Alice. *)
Definition db_two_pending : DB :=
  out_db (handle_callback (env_at (t_noon + minutes 1)) db_pending 1 1 bob).

(** A trip published with five seats. *)
Definition db_five : DB :=
  mkDB {[ 1 := mkTrip driver (t_noon + minutes 120) None 5 true ]} ∅.

(** A trip that has eight free seats. *)
Definition db_eight : DB :=
  mkDB {[ 1 := mkTrip driver (t_noon + minutes 120) None 8 true ]} ∅.

End Sample.

(* ================================================================== *)
(** ** Further invariants of the tables *)
(* ================================================================== *)

(** No trip has a negative number of free seats and every booking is for
    at least one seat. *)
Definition seats_sane (db : DB) : Prop :=
  (∀ tid t, trips db !! tid = Some t → 0 ≤ seats_available t) ∧
  (∀ k b, bookings db !! k = Some b → 1 ≤ seats_booked b).

(** Every booking points to a trip row. *)
Definition no_dangling (db : DB) : Prop :=
  ∀ k b, bookings db !! k = Some b → is_Some (trips db !! trip_id b).

(** Runs made of the callbacks of [Command] only. *)
Definition no_trip_cancel (cs : list (Env * Command)) : Prop :=
  Forall (λ ec, ¬ is_trip_cancel ec.2) cs.

(** The user drives no trip and is the passenger of no booking. *)
Definition stranger (db : DB) (u : Z) : Prop :=
  (∀ tid t, trips db !! tid = Some t → driver_id t ≠ u) ∧
  (∀ k b, bookings db !! k = Some b → passenger_id b ≠ u).

(** The three cancellation callbacks, sent by [u]. *)
Definition cancels_as (c : Command) (u : Z) : Prop :=
  match c with
  | ConfirmCancel _ v | ConfirmDriverCancel _ v | ConfirmTripCancel _ v => v = u
  | _ => False
  end.

(** The guards of the [book_] step on an existing trip. *)
Definition book_guards (env : Env) (db : DB) (tid u : Z) (trip : Trip)
  : Prop :=
  is_active trip = true ∧
  0 < seats_available trip ∧
  driver_id trip ≠ u ∧
  now env ≤ trip_end_dt trip ∧
  existing_booking db tid u = None.

(** A trip under way at noon: it left an hour earlier and ends two hours
    later, with three free seats. *)
Definition trip_under_way : Trip :=
  mkTrip Sample.driver (Sample.t_noon - Sample.minutes 60)
         (Some (Sample.t_noon + Sample.minutes 120)) 3 true.

Definition db_under_way : DB := mkDB {[ 1 := trip_under_way ]} ∅.

(** What the [DateTime] column hands over: [None] or a [datetime]. *)
Definition orm_value (v : ColumnDateTime) : Prop :=
  match v with
  | DtNone | DtDatetime _ => True
  | DtStr _ => False
  end.

(** The query of the expiry job can load every row it asks for: each
    [PENDING] booking holds [None] or a [datetime] in [booking_time]. *)
Definition pending_rows_load (db : DB) : Prop :=
  ∀ k b,
    bookings db !! k = Some b → status b = PENDING →
    orm_value (booking_time b).

(* ================================================================== *)
(** ** handlers.py: editing the seats of a trip *)
(* ================================================================== *)

(** [_trip_has_confirmed_bookings(session, trip_id)]:
    [query.filter(trip_id == .., status == CONFIRMED).count() > 0]. *)
Definition _trip_has_confirmed_bookings (db : DB) (tid : Z) : bool :=
  bool_decide
    (0 < length (query_all (λ b, bool_decide (trip_id b = tid)
                                 && bool_decide (status b = CONFIRMED))
                           (bookings db)))%nat.

(** Answers of the two seat editors. *)
Inductive EditReply : Set :=
  | EditNoAnswer            (* bare [_answer_once()] or a silent [return] *)
  | EditTripDeleted         (* [show_trip_deleted_card] *)
  | EditNotYourTrip
  | EditPastTrip
  | EditHasConfirmed
  | EditBadNumber           (* [int(value)] raised [ValueError] *)
  | EditSeatsNotPositive
  | EditLessThanBooked (seats total_booked : Z)
  | EditMenu.               (* the edit menu redrawn after the commit *)

(** The [edit_seats_pick_{trip_id}_{n}] branch of [button_callback],
    once the two integers have been read off the callback data. *)
Definition edit_seats_pick (env : Env) (db : DB) (tid n from_user : Z)
  : DB * EditReply :=
  if bool_decide (n < 1) || bool_decide (n > 5) then (db, EditNoAnswer)
  else
    match trips db !! tid with
    | None => (db, EditTripDeleted)
    | Some trip =>
        if negb (is_active trip) then (db, EditTripDeleted)
        else if bool_decide (driver_id trip ≠ from_user)
        then (db, EditNotYourTrip)
        else if bool_decide (date trip < now env) then (db, EditPastTrip)
        else if _trip_has_confirmed_bookings db tid
        then (db, EditHasConfirmed)
        else (mkDB (<[tid := set_seats_available trip n]> (trips db))
                   (bookings db),
              EditMenu)
    end.

(** [handle_edit_input] with [editing_field == "seats"].
    [editing_trip_id] is [user_data.get("editing_trip_id")]; [value] is
    [int(update.message.text)], [None] when it raises [ValueError]. *)
Definition handle_edit_input_seats (env : Env) (db : DB)
    (editing_trip_id : option Z) (value : option Z) (from_user : Z)
  : DB * EditReply :=
  match editing_trip_id with
  | None => (db, EditNoAnswer)
  | Some tid =>
      if bool_decide (tid = 0) then (db, EditNoAnswer)
      else
        match trips db !! tid with
        | None => (db, EditNoAnswer)
        | Some trip =>
            if bool_decide (driver_id trip ≠ from_user)
            then (db, EditNoAnswer)
            else if bool_decide (date trip < now env)
            then (db, EditPastTrip)
            else if _trip_has_confirmed_bookings db tid
            then (db, EditHasConfirmed)
            else
              match value with
              | None => (db, EditBadNumber)
              | Some seats =>
                  if bool_decide (seats ≤ 0)
                  then (db, EditSeatsNotPositive)
                  else
                    let total := total_booked (bookings db) tid in
                    if bool_decide (seats < total)
                    then (db, EditLessThanBooked seats total)
                    else
                      (mkDB (<[tid := set_seats_available trip
                                        (seats - total)]> (trips db))
                            (bookings db),
                       EditMenu)
              end
        end
  end.

(* ================================================================== *)
(** ** handlers.py: removing old trips *)
(* ================================================================== *)

Definition timedelta_days (d : Z) : Z := d * 86400000000.

(** [cutoff_date = datetime.now() - timedelta(days=7)]. *)
Definition cutoff_date (env : Env) : Z := now env - timedelta_days 7.

(** [func.coalesce(Trip.end_date, Trip.date) < cutoff_date]. *)
Definition is_old (env : Env) (t : Trip) : bool :=
  bool_decide (trip_end_dt t < cutoff_date env).

(** The query for [old_trips]. *)
Definition old_trips (env : Env) (ts : gmap Z Trip) : list (Z * Trip) :=
  filter (λ kt, is_old env kt.2 = true) (map_to_list ts).

(** One iteration of [for trip in old_trips]: the bookings of the trip
    are deleted, whatever their status, then the trip. *)
Definition cleanup_one (db : DB) (kt : Z * Trip) : DB :=
  mkDB (delete kt.1 (trips db))
       (filter (λ kb, trip_id kb.2 ≠ kt.1) (bookings db)).

(** [cleanup_old_trips()]. *)
Definition cleanup_old_trips (env : Env) (db : DB) : DB :=
  foldl cleanup_one db (old_trips env (trips db)).

(** The booking of a trip that [cleanup_old_trips] keeps. *)
Definition survives (env : Env) (db : DB) (b : Booking) : bool :=
  match trips db !! trip_id b with
  | Some t => negb (is_old env t)
  | None => true
  end.

(** What a seat editor may do to the tables: nothing, or write a
    non-negative number of free seats into one existing trip. *)
Definition seats_set (db db' : DB) : Prop :=
  db' = db ∨
  ∃ tid trip m,
    trips db !! tid = Some trip ∧ 0 ≤ m ∧
    db' = mkDB (<[tid := set_seats_available trip m]> (trips db))
               (bookings db).

(* ================================================================== *)
(** ** handlers.py: the dispatch of [button_callback] *)
(* ================================================================== *)

From Stdlib Require Import Ascii.
From Stdlib Require DecimalString DecimalPos DecimalZ.

(** [str(n)] of a Python integer, as the f-strings of the keyboards
    write it: decimal digits, with a minus sign for a negative number. *)
Definition str (n : Z) : string :=
  DecimalString.NilZero.string_of_int (Z.to_int n).

(** [data.split("_")]. *)
Fixpoint str_split (s : string) : list string :=
  match s with
  | EmptyString => [EmptyString]
  | String c r =>
      if Ascii.eqb c "_"%char then EmptyString :: str_split r
      else
        match str_split r with
        | h :: t => String c h :: t
        | [] => [String c EmptyString]
        end
  end.

Definition data_eq (s data : string) : bool := String.eqb data s.
(** [data.startswith(p)]. *)
Fixpoint startswith (p data : string) : bool :=
  match p with
  | EmptyString => true
  | String a p' =>
      match data with
      | EmptyString => false
      | String b data' => Ascii.eqb a b && startswith p' data'
      end
  end.
Definition either (a b : string → bool) (data : string) : bool :=
  a data || b data.

(** [settings_module.can_handle_callback(data)]. *)
Definition settings_can_handle_callback (data : string) : bool :=
  negb (String.eqb data EmptyString)
  && (startswith "settings_" data || startswith "sf_" data
      || startswith "notify_" data).

(** [booking_module.can_handle_callback(data)]. *)
Definition can_handle_callback (data : string) : bool :=
  startswith "book_qty_" data || startswith "book_choose_" data.

(** The branches of [button_callback] that the model follows further;
    any other branch is named by the line of its test in [handlers.py]. *)
Inductive Branch : Set :=
  | BrSettingsModule
  | BrBookingModule
  | BrExitTrip
  | BrBook
  | BrConfirmBooking
  | BrRejectBooking
  | BrCancelBooking
  | BrConfirmCancel
  | BrEditSeatsPick
  | BrCancelTrip
  | BrConfirmTripCancel
  | BrCancelDriverBooking
  | BrConfirmDriverCancel
  | BrLine (line : nat).

(** Where [button_callback] takes a callback: one of the reservation
    callbacks of [step], one of the other modelled branches, a branch
    outside the model, or no branch at all.  [BadCommand] is the answer of
    [booking_module.handle_callback] to data it cannot read; [Raised]
    stands for a [ValueError] or [IndexError] of the branch's own reading
    of the data. *)
Inductive Routed : Set :=
  | RunCommand (c : Command)
  | RunExitTrip (booking_id from_user : Z)
  | RunBookStep (tid from_user : Z)
  | RunEditSeatsPick (tid n from_user : Z)
  | RunOther (b : Branch)
  | BadCommand
  | NoAnswer
  | Raised
  | NoBranch.

Section dispatch.

(** Python's [int(s)], [None] when it raises [ValueError], and
    [s.isdigit()]. *)
Variable int : string → option Z.
Variable isdigit : string → bool.

(** The test of the [edit_trip_{id}] branch. *)
Definition is_edit_trip (data : string) : bool :=
  startswith "edit_trip_" data
  && bool_decide (3 ≤ length (str_split data))%nat
  && match str_split data !! 2%nat with
     | Some p => isdigit p
     | None => false
     end.

(** The tests of [button_callback] in the order in which they are made,
    each with its branch. *)
Definition button_callback_tests : list (Branch * (string → bool)) :=
  [
    (BrSettingsModule, settings_can_handle_callback);
    (BrLine 2164, data_eq "help_close");
    (BrLine 2174, data_eq "driver_open_my_trips");
    (BrBookingModule, can_handle_callback);
    (BrLine 2200, startswith "passenger_open_trip_rating_");
    (BrExitTrip, startswith "exit_trip_");
    (BrLine 2348, startswith "passenger_trip_completed_");
    (BrLine 2391, startswith "passenger_trip_not_completed_");
    (BrLine 2434, startswith "passenger_rate_driver_");
    (BrLine 2487, startswith "close_passenger_rate_driver_");
    (BrLine 2497, startswith "s_detail_");
    (BrLine 2532, startswith "s_back_");
    (BrLine 2564, startswith "settings_profile");
    (BrLine 2586, startswith "settings_search_filter");
    (BrLine 2604, startswith "sf_toggle_");
    (BrLine 2638, either (startswith "sf_set_dep_")
                         (startswith "sf_set_dest_"));
    (BrLine 2665, startswith "sf_pick_");
    (BrLine 2721, startswith "sf_clear_");
    (BrLine 2741, startswith "sf_show_allowed_");
    (BrLine 2759, startswith "sf_back_input_");
    (BrLine 2784, startswith "settings_back");
    (BrLine 2801, startswith "settings_close_");
    (BrLine 2827, startswith "close_no_active_trips_");
    (BrLine 2851, startswith "close_no_bookings_");
    (BrLine 2876, startswith "close_my_booking_card_");
    (BrLine 2900, data_eq "back_to_my_trips");
    (BrLine 2916, data_eq "close_trip_created");
    (BrLine 2931, data_eq "close_booking_request");
    (BrLine 2973, startswith "close_booking_saved_");
    (BrLine 2992, data_eq "close_booking_request");
    (BrLine 3000, data_eq "close_edit_menu");
    (BrLine 3008, startswith "search_back_");
    (BrLine 3024, data_eq "close_driver_cancel_notice");
    (BrLine 3032, startswith "close_booking_cancelled_");
    (BrLine 3101, data_eq "close_trip_details");
    (BrLine 3131, data_eq "noop");
    (BrLine 3137, either (data_eq "close_search_results")
                         (startswith "close_search_results_"));
    (BrLine 3176, data_eq "close_date_error");
    (BrLine 3203, data_eq "settings_profile");
    (BrLine 3207, data_eq "settings_back");
    (BrLine 3211, data_eq "settings_back_main");
    (BrBook, startswith "book_");
    (BrLine 3311, either (data_eq "close_deleted_trip")
                         (startswith "close_deleted_trip_"));
    (BrLine 3337, data_eq "show_allowed_departure");
    (BrLine 3350, data_eq "back_to_departure_input");
    (BrLine 3366, data_eq "show_allowed_destination");
    (BrLine 3378, data_eq "back_to_destination_input");
    (BrLine 3393, startswith "close_trip_canceled_");
    (BrLine 3418, startswith "close_my_trip_card_");
    (BrLine 3443, startswith "close_new_booking_");
    (BrLine 3452, startswith "close_driver_cancel_notice_");
    (BrLine 3462, startswith "trip_done_");
    (BrLine 3497, startswith "trip_failed_");
    (BrLine 3547, startswith "close_rate_passenger_");
    (BrLine 3555, startswith "rate_passenger_");
    (BrLine 3592, data_eq "clear_understood");
    (BrLine 3596, data_eq "show_all_my_trips_blocked");
    (BrLine 3600, data_eq "cancel_trip_creation");
    (BrLine 3604, startswith "date_");
    (BrConfirmBooking, startswith "confirm_booking_");
    (BrLine 3715, data_eq "close_driver_booking_notice");
    (BrLine 3723, data_eq "close_booking_expired_notice");
    (BrRejectBooking, startswith "reject_booking_");
    (BrCancelBooking, startswith "cancel_booking_");
    (BrConfirmCancel, startswith "confirm_cancel_");
    (BrLine 3853, startswith "keep_booking_");
    (BrLine 3929, startswith "trip_bookings_");
    (BrLine 3937, is_edit_trip);
    (BrLine 3980, startswith "edit_trip_date_");
    (BrLine 4034, startswith "edit_trip_time_slot_");
    (BrLine 4088, startswith "edit_trip_time_exact_");
    (BrEditSeatsPick, startswith "edit_seats_pick_");
    (BrLine 4147, startswith "edit_departure_");
    (BrLine 4180, startswith "edit_destination_");
    (BrLine 4210, either (startswith "edit_pick_dep_")
                         (startswith "edit_pick_dst_"));
    (BrLine 4260, startswith "edit_date_");
    (BrLine 4299, startswith "edit_seats_");
    (BrLine 4331, startswith "edit_price_");
    (BrLine 4360, startswith "edit_back_");
    (BrLine 4366, startswith "edit_exit_");
    (BrCancelTrip, startswith "cancel_trip_");
    (BrLine 4455, either (startswith "trip_done_")
                         (startswith "trip_failed_"));
    (BrConfirmTripCancel, startswith "confirm_trip_cancel_");
    (BrLine 4503, startswith "rate_star_");
    (BrLine 4527, startswith "close_rate_card_");
    (BrLine 4537, startswith "keep_trip_");
    (BrLine 4553, startswith "contact_passenger_");
    (BrLine 4560, startswith "copy_id_");
    (BrCancelDriverBooking, startswith "cancel_driver_booking_");
    (BrLine 4614, startswith "contact_driver_");
    (BrLine 4621, startswith "show_my_trips_blocked_");
    (BrLine 4649, data_eq "show_my_trips_blocked");
    (BrConfirmDriverCancel, startswith "confirm_driver_cancel_");
    (BrLine 4701, startswith "close_cancelled_booking_card_");
    (BrLine 4710, startswith "add_cancel_reason_");
    (BrLine 4715, startswith "keep_driver_booking_");
    (BrLine 4787, data_eq "search_new_trips");
    (BrLine 4791, data_eq "back_to_main");
    (BrLine 4800, startswith "s_detail_");
    (BrLine 4839, startswith "s_back_");
    (BrLine 4864, startswith "trip_details_");
    (BrLine 4869, data_eq "create_new_from_search")
  ].

(** The branch of the first test that the data passes. *)
Definition first_match (data : string) : option Branch :=
  fst <$> List.find (λ bt, bt.2 data) button_callback_tests.

(** [int(parts[i])]. *)
Definition int_part (parts : list string) (i : nat) : option Z :=
  parts !! i ≫= int.

(** [int(parts[i]) if len(parts) > i and parts[i].isdigit() else 0],
    [None] when [int] raises. *)
Definition trigger_part (parts : list string) (i : nat) : option Z :=
  match parts !! i with
  | Some p => if isdigit p then int p else Some 0
  | None => Some 0
  end.

(** The reading of the callback data at the head of the modelled
    branches. *)
Definition route (data : string) (from_user : Z) : Routed :=
  let parts := str_split data in
  match first_match data with
  | None => NoBranch
  | Some BrBookingModule =>
      match int_part parts 2 with
      | Some tid =>
          match int_part parts 3 with
          | Some n => RunCommand (BookQty tid n from_user)
          | None => BadCommand
          end
      | None => BadCommand
      end
  | Some BrExitTrip =>
      match last parts ≫= int with
      | Some id => RunExitTrip id from_user
      | None => Raised
      end
  | Some BrBook =>
      match int_part parts 1 with
      | Some tid => RunBookStep tid from_user
      | None => Raised
      end
  | Some BrConfirmBooking =>
      match int_part parts 2 with
      | Some id => RunCommand (ConfirmBooking id from_user)
      | None => Raised
      end
  | Some BrRejectBooking =>
      match int_part parts 2 with
      | Some id => RunCommand (RejectBooking id from_user)
      | None => Raised
      end
  | Some BrConfirmCancel =>
      match int_part parts 2 with
      | Some id => RunCommand (ConfirmCancel id from_user)
      | None => Raised
      end
  | Some BrEditSeatsPick =>
      if bool_decide (length parts < 5)%nat then NoAnswer
      else
        match int_part parts 3 with
        | Some tid =>
            match int_part parts 4 with
            | Some n => RunEditSeatsPick tid n from_user
            | None => Raised
            end
        | None => Raised
        end
  | Some BrConfirmTripCancel =>
      match int_part parts 3 with
      | Some tid =>
          match trigger_part parts 4 with
          | Some _ => RunCommand (ConfirmTripCancel tid from_user)
          | None => Raised
          end
      | None => Raised
      end
  | Some BrConfirmDriverCancel =>
      match int_part parts 3 with
      | Some id => RunCommand (ConfirmDriverCancel id from_user)
      | None => Raised
      end
  | Some b => RunOther b
  end.

End dispatch.

(** The callback data that the keyboards attach to the buttons of the
    reservation callbacks. *)
Definition callback_data (c : Command) (trigger_id : Z) : option string :=
  match c with
  | BookQty tid n _ => Some ("book_qty_" +:+ str tid +:+ "_" +:+ str n)
  | ConfirmBooking id _ => Some ("confirm_booking_" +:+ str id)
  | RejectBooking id _ => Some ("reject_booking_" +:+ str id)
  | ConfirmCancel id _ => Some ("confirm_cancel_" +:+ str id)
  | ConfirmDriverCancel id _ => Some ("confirm_driver_cancel_" +:+ str id)
  | ConfirmTripCancel tid _ =>
      Some ("confirm_trip_cancel_" +:+ str tid +:+ "_" +:+ str trigger_id)
  | ExpireJob => None
  end.

(** The user a command comes from. *)
Definition from_user_of (c : Command) : Z :=
  match c with
  | BookQty _ _ u | ConfirmBooking _ u | RejectBooking _ u
  | ConfirmCancel _ u | ConfirmDriverCancel _ u | ConfirmTripCancel _ u => u
  | ExpireJob => 0
  end.

(** A reader of decimal numerals: what [int] does on the output of
    [str]. *)
Definition int_decimal (s : string) : option Z :=
  Z.of_int <$> DecimalString.NilZero.int_of_string s.

(* ================================================================== *)
(** ** handlers.py: the cancellation dialogue of the passenger *)
(* ================================================================== *)

Definition yes_words : list string :=
  ["да"; "yes"; "ок"; "ok"; "подтвердить"].
Definition no_words : list string := ["нет"; "no"; "не"; "отмена"].

Inductive DialogueReply : Set :=
  | DenyBookingNotFound
  | DenyNotYourBooking
  | DenyTripNotFound
  | DenyPastTrip
  | DenyAlreadyCancelled
  | DenyNotYourTrip
  | DenyTripDeleted
  | DialogueError
  | AskConfirmation (yes_data no_data : string)
  | TextCancelled
  | TextError
  | TextKept
  | TextAskAgain
  | TextNothing.

(** The [cancel_booking_] branch of [button_callback], the first step of
    the dialogue.  [user_data] is [context.user_data] as far as the key
    [cancelling_booking_id] goes.  The status of the booking is not
    looked at. *)
Definition cancel_booking (env : Env) (db : DB) (user_data : option Z)
    (booking_id from_user : Z) : option Z * DialogueReply :=
  match bookings db !! booking_id with
  | None => (user_data, DenyBookingNotFound)
  | Some booking =>
      if bool_decide (passenger_id booking ≠ from_user)
      then (user_data, DenyNotYourBooking)
      else
        match booking_trip db booking with
        | None => (user_data, DenyTripNotFound)
        | Some trip =>
            if bool_decide (trip_end_dt trip < now env)
            then (user_data, DenyPastTrip)
            else (Some booking_id,
                  AskConfirmation ("confirm_cancel_" +:+ str booking_id)
                                  ("keep_booking_" +:+ str booking_id))
        end
  end.

(** What the text branch leaves behind. *)
Record Said : Type := mkSaid {
  said_db : DB;
  said_user_data : option Z;
  said_reply : DialogueReply;
  said_notes : list Notification;
}.

(** The branch of [handle_message] taken while [cancelling_booking_id]
    is in [user_data]; [text_lower] is [text.lower()].  A missing trip
    makes [trip.seats_available] raise, which the branch's [except]
    answers with an error, the session closed without a commit. *)
Definition handle_message_cancelling (env : Env) (db : DB)
    (user_data : option Z) (text_lower : string) (from_user : Z) : Said :=
  match user_data with
  | None => mkSaid db None TextNothing []
  | Some booking_id =>
      if bool_decide (text_lower ∈ yes_words) then
        match bookings db !! booking_id with
        | None => mkSaid db None TextNothing []
        | Some booking =>
            if bool_decide (passenger_id booking = from_user) then
              match booking_trip db booking with
              | None => mkSaid db None TextError []
              | Some trip =>
                  mkSaid
                    (mkDB (add_seats (trips db) (trip_id booking) trip
                                     (seats_booked booking))
                          (<[booking_id := set_status booking CANCELLED]>
                             (bookings db)))
                    None TextCancelled
                    [NotifyDriverBookingCancelled booking_id]
              end
            else mkSaid db None TextNothing []
        end
      else if bool_decide (text_lower ∈ no_words)
      then mkSaid db None TextKept []
      else mkSaid db (Some booking_id) TextAskAgain []
  end.

(* ================================================================== *)
(** ** ui_render.py *)
(* ================================================================== *)

(** [_seats_word_ru(n)]: the form of the word for "seat" after a count. *)
Definition _seats_word_ru (n : Z) : string :=
  let n := Z.abs n in
  if bool_decide (11 ≤ n `mod` 100 ≤ 14) then "мест"
  else
    let last := n `mod` 10 in
    if bool_decide (last = 1) then "место"
    else if bool_decide (2 ≤ last ≤ 4) then "места"
    else "мест".

(** The [cancel_driver_booking_] branch, the first step of the driver's
    cancellation of a booking.  A missing trip makes [trip.driver_id]
    raise, which the branch's [except] answers with an error. *)
Definition cancel_driver_booking (env : Env) (db : DB)
    (booking_id from_user : Z) : DialogueReply :=
  match bookings db !! booking_id with
  | None => DenyBookingNotFound
  | Some booking =>
      if in_cancelled_rejected_expired (status booking)
      then DenyAlreadyCancelled
      else
        match booking_trip db booking with
        | None => DialogueError
        | Some trip =>
            if bool_decide (driver_id trip ≠ from_user)
            then DenyNotYourTrip
            else if bool_decide (trip_end_dt trip < now env)
            then DenyPastTrip
            else AskConfirmation
                   ("confirm_driver_cancel_" +:+ str booking_id)
                   ("keep_driver_booking_" +:+ str booking_id)
        end
  end.

(** The [cancel_trip_{trip_id}_{trigger_id}] branch, the first step of
    the cancellation of a trip, once the two integers have been read off
    the callback data. *)
Definition cancel_trip_ask (env : Env) (db : DB)
    (tid trigger_id from_user : Z) : DialogueReply :=
  match trips db !! tid with
  | None => DenyTripDeleted
  | Some trip =>
      if negb (is_active trip) then DenyTripDeleted
      else if bool_decide (driver_id trip ≠ from_user)
      then DenyNotYourTrip
      else if bool_decide (trip_end_dt trip < now env)
      then DenyPastTrip
      else AskConfirmation
             ("confirm_trip_cancel_" +:+ str tid +:+ "_" +:+ str trigger_id)
             ("keep_trip_" +:+ str tid +:+ "_" +:+ str trigger_id)
  end.

(* ================================================================== *)
(** ** Lemmas on the tables *)
(* ================================================================== *)

Section tables.
Implicit Types (bs : gmap Z Booking) (b : Booking) (k tid : Z).

Lemma total_booked_empty tid : total_booked ∅ tid = 0.
Proof. unfold total_booked. by rewrite map_fold_empty. Qed.

Lemma total_booked_insert_new bs k b tid :
  bs !! k = None →
  total_booked (<[k := b]> bs) tid = held tid b + total_booked bs tid.
Proof.
  intros Hk. unfold total_booked.
  rewrite map_fold_insert_L; [done | | done].
  intros; lia.
Qed.

Lemma total_booked_delete bs k b tid :
  bs !! k = Some b →
  total_booked bs tid = held tid b + total_booked (delete k bs) tid.
Proof.
  intros Hk. unfold total_booked.
  rewrite (map_fold_delete_L _ _ k b bs); [done | | done].
  intros; lia.
Qed.

Lemma total_booked_update bs k b b' tid :
  bs !! k = Some b →
  total_booked (<[k := b']> bs) tid
  = total_booked bs tid - held tid b + held tid b'.
Proof.
  intros Hk.
  rewrite <- (insert_delete_eq bs k b').
  rewrite total_booked_insert_new by apply lookup_delete_eq.
  rewrite (total_booked_delete bs k b tid Hk). lia.
Qed.

Lemma max_id_ge bs k b : bs !! k = Some b → k ≤ max_id bs.
Proof.
  unfold max_id.
  induction bs as [|i x m Hi Hfirst IH] using map_first_key_ind.
  - by rewrite lookup_empty.
  - rewrite map_fold_insert_first_key by done.
    destruct (decide (i = k)) as [->|Hne].
    + intros _. lia.
    + rewrite lookup_insert_ne by done. intros H%IH. lia.
Qed.

Lemma next_id_fresh bs : bs !! next_id bs = None.
Proof.
  destruct (bs !! next_id bs) as [b|] eqn:E; [|done].
  apply max_id_ge in E. unfold next_id in E. lia.
Qed.

Lemma elem_of_query_all (P : Booking → bool) bs k b :
  (k, b) ∈ query_all P bs ↔ bs !! k = Some b ∧ P b = true.
Proof.
  unfold query_all. rewrite list_elem_of_filter, elem_of_map_to_list.
  simpl. tauto.
Qed.

Lemma NoDup_fst_query_all (P : Booking → bool) bs :
  NoDup (query_all P bs).*1.
Proof.
  unfold query_all.
  pose proof (NoDup_fst_map_to_list bs) as Hnd.
  induction (map_to_list bs) as [|[k b] l IH]; [constructor|].
  simpl in Hnd. apply NoDup_cons in Hnd as [Hk Hnd].
  rewrite filter_cons. simpl. case_decide.
  - simpl. apply NoDup_cons. split; [|by apply IH].
    intros Hin. apply Hk.
    apply list_elem_of_fmap in Hin as [[k' b'] [-> Hin]].
    apply list_elem_of_filter in Hin as [_ Hin].
    apply list_elem_of_fmap. by exists (k', b').
  - by apply IH.
Qed.

Lemma query_first_None (P : Booking → bool) bs :
  query_first P bs = None ↔ ∀ k b, bs !! k = Some b → P b = false.
Proof.
  unfold query_first. split.
  - intros Hhd k b Hk. destruct (P b) eqn:HP; [|done].
    assert ((k, b) ∈ query_all P bs) as Hin by by apply elem_of_query_all.
    destruct (query_all P bs); [by apply elem_of_nil in Hin | done].
  - intros Hall. destruct (query_all P bs) as [|[k b] l] eqn:E; [done|].
    assert ((k, b) ∈ query_all P bs) as Hin by (rewrite E; left).
    apply elem_of_query_all in Hin as [Hk HP].
    rewrite (Hall _ _ Hk) in HP. done.
Qed.

End tables.

(* ================================================================== *)
(** ** Loops over a query result *)
(* ================================================================== *)

Section loops.
Context {S : Type} (dbof : S → DB).
Context (f : S → Z * Booking → S).
Context (g : Booking → Booking).
Context (R : DB → DB → Prop).
Hypothesis f_other : ∀ st id b k,
  k ≠ id → bookings (dbof (f st (id, b))) !! k = bookings (dbof st) !! k.
Hypothesis f_same : ∀ st id b,
  bookings (dbof st) !! id = Some b →
  bookings (dbof (f st (id, b))) !! id = Some (g b).
Hypothesis R_refl : ∀ db, R db db.
Hypothesis R_trans : ∀ d1 d2 d3, R d1 d2 → R d2 d3 → R d1 d3.
Hypothesis f_R : ∀ st id b,
  bookings (dbof st) !! id = Some b → R (dbof st) (dbof (f st (id, b))).

(** A loop whose body rewrites only the row it visits rewrites exactly
    the visited rows, each once, and keeps any relation every single
    iteration keeps. *)
Lemma foldl_rows l : ∀ st,
  NoDup l.*1 →
  (∀ k b, (k, b) ∈ l → bookings (dbof st) !! k = Some b) →
  R (dbof st) (dbof (foldl f st l)) ∧
  ∀ k, bookings (dbof (foldl f st l)) !! k
       = (λ b, if bool_decide (k ∈ l.*1) then g b else b)
           <$> bookings (dbof st) !! k.
Proof.
  induction l as [|[id b] l IH]; intros st Hnd Hl.
  - simpl. split; [apply R_refl|].
    intros k. by destruct (bookings (dbof st) !! k).
  - simpl in Hnd. apply NoDup_cons in Hnd as [Hid Hnd].
    assert (bookings (dbof st) !! id = Some b) as Hb by (apply Hl; left).
    destruct (IH (f st (id, b)) Hnd) as [HR Hrows].
    { intros k b' Hin. rewrite f_other; [apply Hl; by right|].
      intros ->. apply Hid. apply list_elem_of_fmap. by exists (id, b'). }
    simpl. split.
    + eapply R_trans; [by apply f_R | exact HR].
    + intros k. rewrite Hrows. destruct (decide (k = id)) as [->|Hne].
      * rewrite (f_same _ _ _ Hb), Hb. simpl.
        rewrite bool_decide_eq_false_2 by done.
        rewrite bool_decide_eq_true_2 by left. done.
      * rewrite f_other by done.
        destruct (bookings (dbof st) !! k) as [bk|]; [simpl|done].
        repeat case_bool_decide; try done; exfalso.
        -- match goal with H : ¬ _ |- _ => apply H end. by right.
        -- match goal with H : _ ∈ _ :: _ |- _ =>
             apply elem_of_cons in H as [?|?] end; done.
Qed.

End loops.

(* ================================================================== *)
(** ** Seat accounting of the single updates *)
(* ================================================================== *)

Lemma set_seats_available_id t : set_seats_available t (seats_available t) = t.
Proof. by destruct t. Qed.

Lemma seats_follow_refl db : seats_follow db db.
Proof.
  intros tid. destruct (trips db !! tid) as [t|]; [simpl|done].
  f_equal. rewrite <- (set_seats_available_id t) at 1. f_equal. lia.
Qed.

Lemma seats_follow_trans d1 d2 d3 :
  seats_follow d1 d2 → seats_follow d2 d3 → seats_follow d1 d3.
Proof.
  intros H12 H23 tid. rewrite H23, H12.
  destruct (trips d1 !! tid) as [t|]; [simpl|done].
  unfold set_seats_available. simpl. do 2 f_equal. lia.
Qed.

Lemma seats_follow_total_seats db db' tid :
  seats_follow db db' → total_seats db' tid = total_seats db tid.
Proof.
  intros H. unfold total_seats. rewrite H.
  destruct (trips db !! tid) as [t|]; [simpl|done]. f_equal. lia.
Qed.

Lemma held_same_trip b s :
  held (trip_id b) (set_status b s)
  = if in_pending_confirmed s then seats_booked b else 0.
Proof. unfold held. simpl. by rewrite bool_decide_eq_true_2 by done. Qed.

Lemma held_other_trip b tid : trip_id b ≠ tid → held tid b = 0.
Proof. intros H. unfold held. by rewrite bool_decide_eq_false_2 by done. Qed.

(** Releasing a booking: the row leaves [PENDING]/[CONFIRMED] and its
    seats are added to its trip, when that trip exists. *)
Lemma seats_follow_release db id b s :
  bookings db !! id = Some b →
  in_pending_confirmed (status b) = true →
  in_pending_confirmed s = false →
  seats_follow db
    (mkDB (match booking_trip db b with
           | Some trip => add_seats (trips db) (trip_id b) trip (seats_booked b)
           | None => trips db
           end)
          (<[id := set_status b s]> (bookings db))).
Proof.
  intros Hb Hact Hs tid. simpl.
  rewrite (total_booked_update _ _ _ _ _ Hb).
  destruct (decide (trip_id b = tid)) as [<-|Hne].
  - rewrite held_same_trip, Hs. unfold held.
    rewrite bool_decide_eq_true_2, Hact by done. simpl.
    unfold booking_trip.
    destruct (trips db !! trip_id b) as [trip|] eqn:Ht.
    + unfold add_seats. rewrite lookup_insert_eq. simpl. do 2 f_equal. lia.
    + by rewrite Ht.
  - rewrite !held_other_trip by done.
    assert (trips db !! tid
            = (λ t, set_seats_available t
                      (seats_available t + total_booked (bookings db) tid
                       - (total_booked (bookings db) tid - 0 + 0)))
                <$> trips db !! tid) as Hid.
    { destruct (trips db !! tid) as [t|]; [simpl|done]. f_equal.
      rewrite <- (set_seats_available_id t) at 1. f_equal. lia. }
    destruct (booking_trip db b) as [trip|]; [|done].
    unfold add_seats. by rewrite lookup_insert_ne.
Qed.

(** A status change inside [PENDING]/[CONFIRMED] moves no seats. *)
Lemma seats_follow_keep db id b s :
  bookings db !! id = Some b →
  in_pending_confirmed (status b) = in_pending_confirmed s →
  seats_follow db (mkDB (trips db) (<[id := set_status b s]> (bookings db))).
Proof.
  intros Hb Hs tid. simpl.
  rewrite (total_booked_update _ _ _ _ _ Hb).
  assert (held tid (set_status b s) = held tid b) as ->.
  { unfold held. simpl. by rewrite Hs. }
  destruct (trips db !! tid) as [t|]; [simpl|done]. f_equal.
  rewrite <- (set_seats_available_id t) at 1. f_equal. lia.
Qed.

(** Creating a [PENDING] booking takes its seats from the trip. *)
Lemma seats_follow_create db id tid trip u n bt :
  bookings db !! id = None →
  trips db !! tid = Some trip →
  seats_follow db
    (mkDB (<[tid := set_seats_available trip (seats_available trip - n)]>
             (trips db))
          (<[id := mkBooking tid u n bt PENDING]> (bookings db))).
Proof.
  intros Hid Ht tid'. simpl.
  rewrite total_booked_insert_new by done.
  destruct (decide (tid = tid')) as [<-|Hne].
  - rewrite lookup_insert_eq, Ht. simpl. unfold held. simpl.
    rewrite bool_decide_eq_true_2 by done. simpl.
    unfold set_seats_available. simpl. do 2 f_equal. lia.
  - rewrite lookup_insert_ne by done.
    rewrite held_other_trip by done.
    destruct (trips db !! tid') as [t|]; [simpl|done]. f_equal.
    rewrite <- (set_seats_available_id t) at 1. f_equal. lia.
Qed.

(* ================================================================== *)
(** ** The expiry job *)
(* ================================================================== *)

Lemma overdue_spec env b :
  overdue env b = true ↔
  status b = PENDING ∧
  ∃ bt, _as_utc_datetime env (booking_time b) = Some bt ∧ bt < cutoff env.
Proof.
  unfold overdue.
  destruct (_as_utc_datetime env (booking_time b)) as [bt|].
  - repeat case_bool_decide; simpl; split; try done.
    + intros [_ (bt' & [= <-] & Hlt)]. lia.
    + intros [? _]. done.
    + intros _. split; [by destruct (decide (status b = PENDING))|].
      exists bt. split; [done|lia].
  - split; [done|]. by intros [_ (bt & ? & _)].
Qed.

Lemma overdue_pending env b : overdue env b = true → status b = PENDING.
Proof. intros H. by apply overdue_spec in H as [? _]. Qed.

Lemma expire_one_other env st id b k :
  k ≠ id →
  bookings (expire_one env st (id, b)).1.1 !! k = bookings st.1.1 !! k.
Proof.
  intros Hne. destruct st as [[db notes] n]. unfold expire_one.
  destruct (overdue env b); [simpl|done]. by rewrite lookup_insert_ne.
Qed.

Lemma expire_one_same env st id b :
  bookings st.1.1 !! id = Some b →
  bookings (expire_one env st (id, b)).1.1 !! id = Some (expire_row env b).
Proof.
  intros Hb. destruct st as [[db notes] n]. unfold expire_one, expire_row.
  destruct (overdue env b); [simpl|done]. by rewrite lookup_insert_eq.
Qed.

Lemma expire_one_seats env st id b :
  bookings st.1.1 !! id = Some b →
  seats_follow st.1.1 (expire_one env st (id, b)).1.1.
Proof.
  intros Hb. destruct st as [[db notes] n]. unfold expire_one.
  destruct (overdue env b) eqn:Ho; [simpl|apply seats_follow_refl].
  apply seats_follow_release; [done| |done].
  by rewrite (overdue_pending _ _ Ho).
Qed.

Lemma expire_fold_notes env l : ∀ db notes n,
  (foldl (expire_one env) (db, notes, n) l).1.2
  = notes ++ (if has_bot env
              then expired_note <$> filter (λ kb, overdue env kb.2 = true) l
              else []).
Proof.
  induction l as [|[id b] l IH]; intros db notes n.
  - simpl. destruct (has_bot env); by rewrite app_nil_r.
  - simpl. rewrite filter_cons. simpl.
    destruct (overdue env b) eqn:Ho.
    + rewrite decide_True by done. rewrite IH.
      destruct (has_bot env); [|done].
      by rewrite <- app_assoc.
    + rewrite decide_False by done. by rewrite IH.
Qed.

(** [expired_count] never decreases, and a loop that leaves it where it
    was has written nothing into the session. *)
Lemma expire_fold_count env l : ∀ st,
  st.2 ≤ (foldl (expire_one env) st l).2 ∧
  ((foldl (expire_one env) st l).2 = st.2 →
   (foldl (expire_one env) st l).1.1 = st.1.1).
Proof.
  induction l as [|[id b] l IH]; intros [[db notes] n]; [done|].
  simpl. destruct (overdue env b).
  - destruct (IH (mkDB (match booking_trip db b with
                        | Some trip =>
                            add_seats (trips db) (trip_id b) trip
                                      (seats_booked b)
                        | None => trips db
                        end)
                       (<[id := set_status b EXPIRED]> (bookings db)),
                  if has_bot env
                  then notes ++ [NotifyPassengerBookingExpired
                                   (passenger_id b) id]
                  else notes,
                  n + 1)) as [Hle _].
    simpl in *. split; [lia|]. intros Heq. lia.
  - apply (IH (db, notes, n)).
Qed.

(** The job commits what its loop left in the session. *)
Lemma expire_job_session env db :
  (expire_pending_bookings_job env db).1 = (expire_loop env db).1.1 ∧
  (expire_pending_bookings_job env db).2 = (expire_loop env db).1.2.
Proof.
  unfold expire_pending_bookings_job.
  pose proof (expire_fold_count env
                (query_all (λ b, bool_decide (status b = PENDING))
                           (bookings db)) (db, [], 0)) as [_ Hsame].
  fold (expire_loop env db) in Hsame.
  destruct (expire_loop env db) as [[session notes] n]. simpl in *.
  split; [|done]. case_bool_decide as Hn; [done|].
  symmetry. apply Hsame.
  by destruct (decide (n = 0)).
Qed.

(** One run of the job: every row becomes [expire_row] of itself, the
    trips follow the released seats, and the passenger of every expired
    row is notified when a bot is at hand.  Send failures play no part. *)
Lemma expire_job_spec env db :
  seats_follow db (expire_pending_bookings_job env db).1 ∧
  bookings (expire_pending_bookings_job env db).1
  = expire_row env <$> bookings db ∧
  (expire_pending_bookings_job env db).2
  = if has_bot env
    then expired_note <$>
           query_all (λ b, bool_decide (status b = PENDING) && overdue env b)
                     (bookings db)
    else [].
Proof.
  destruct (expire_job_session env db) as [-> ->].
  unfold expire_loop.
  set (P := λ b : Booking, bool_decide (status b = PENDING)).
  destruct (foldl_rows (λ st : DB * list Notification * Z, st.1.1)
              (expire_one env) (expire_row env) seats_follow
              (expire_one_other env) (expire_one_same env)
              seats_follow_refl seats_follow_trans (expire_one_seats env)
              (query_all P (bookings db)) (db, [], 0)) as [Hseats Hrows].
  { apply NoDup_fst_query_all. }
  { intros k b Hin. by apply elem_of_query_all in Hin as [? _]. }
  split; [exact Hseats|]. split.
  - apply map_eq. intros k. rewrite Hrows, lookup_fmap. simpl.
    destruct (bookings db !! k) as [b|] eqn:Hb; [simpl|done]. f_equal.
    case_bool_decide as Hin; [done|].
    unfold expire_row. destruct (overdue env b) eqn:Ho; [|done].
    exfalso. apply Hin. apply list_elem_of_fmap. exists (k, b).
    split; [done|]. apply elem_of_query_all. split; [done|].
    unfold P. apply bool_decide_eq_true_2. by eapply overdue_pending.
  - rewrite expire_fold_notes. simpl.
    destruct (has_bot env); [|done]. f_equal.
    unfold query_all. rewrite list_filter_filter.
    apply list_filter_iff. intros [k b]. simpl. unfold P.
    rewrite andb_true_iff. tauto.
Qed.

(** However many bookings expire, the session is committed at most once
    per run. *)
Lemma expire_job_commits_le env db : (expire_job_commits env db ≤ 1)%nat.
Proof. unfold expire_job_commits. case_bool_decide; lia. Qed.

(* ================================================================== *)
(** ** The trip cancellation cascade *)
(* ================================================================== *)

Lemma cancel_one_other env st id b k :
  k ≠ id → bookings (cancel_one env st (id, b)).1 !! k = bookings st.1 !! k.
Proof.
  intros Hne. destruct st as [db notes]. unfold cancel_one.
  destruct (send_message_ok env (passenger_id b)); [|done].
  destruct (bookings db !! id); [simpl|done]. by rewrite lookup_insert_ne.
Qed.

Lemma cancel_one_same env st id b :
  bookings st.1 !! id = Some b →
  bookings (cancel_one env st (id, b)).1 !! id
  = Some (if send_message_ok env (passenger_id b)
          then set_status b CANCELLED else b).
Proof.
  intros Hb. destruct st as [db notes]. unfold cancel_one. simpl in Hb.
  destruct (send_message_ok env (passenger_id b)); [|done].
  rewrite Hb. simpl. by rewrite lookup_insert_eq.
Qed.

Lemma cancel_one_trips env st id b :
  trips (cancel_one env st (id, b)).1 = trips st.1.
Proof.
  destruct st as [db notes]. unfold cancel_one.
  destruct (send_message_ok env (passenger_id b)); [|done].
  by destruct (bookings db !! id).
Qed.

Lemma cancel_fold_notes env l : ∀ db notes,
  (foldl (cancel_one env) (db, notes) l).2
  = notes ++ (trip_cancelled_note <$> l).
Proof.
  induction l as [|[id b] l IH]; intros db notes.
  - simpl. by rewrite app_nil_r.
  - simpl.
    destruct (send_message_ok env (passenger_id b));
      [destruct (bookings db !! id)|]; rewrite IH, <- app_assoc; done.
Qed.

(** The cascade leaves the trips table alone, sets to [CANCELLED] exactly
    the [PENDING]/[CONFIRMED] bookings of the trip whose passenger could be
    messaged, and calls the notifier once per such booking, reached or
    not. *)
Lemma notify_passengers_trip_cancelled_spec env db tid :
  trips (notify_passengers_trip_cancelled env db tid).1 = trips db ∧
  bookings (notify_passengers_trip_cancelled env db tid).1
  = cancel_row env tid <$> bookings db ∧
  (notify_passengers_trip_cancelled env db tid).2
  = trip_cancelled_note <$>
      query_all (λ b, bool_decide (trip_id b = tid)
                      && in_pending_confirmed (status b))
                (bookings db).
Proof.
  unfold notify_passengers_trip_cancelled.
  set (P := λ b : Booking,
              bool_decide (trip_id b = tid) && in_pending_confirmed (status b)).
  destruct (foldl_rows (λ st : DB * list Notification, st.1)
              (cancel_one env)
              (λ b, if send_message_ok env (passenger_id b)
                    then set_status b CANCELLED else b)
              (λ d d', trips d' = trips d)
              (cancel_one_other env) (cancel_one_same env)
              (λ _, eq_refl)
              (λ d1 d2 d3 H12 H23, eq_trans H23 H12)
              (λ st id b _, cancel_one_trips env st id b)
              (query_all P (bookings db)) (db, [])) as [Htrips Hrows].
  { apply NoDup_fst_query_all. }
  { intros k b Hin. by apply elem_of_query_all in Hin as [? _]. }
  split; [exact Htrips|]. split.
  - apply map_eq. intros k. rewrite Hrows, lookup_fmap. simpl.
    destruct (bookings db !! k) as [b|] eqn:Hb; [simpl|done]. f_equal.
    unfold cancel_row. fold (P b).
    case_bool_decide as Hin.
    + apply list_elem_of_fmap in Hin as [[k' b'] [Hk Hin]]. simpl in Hk.
      subst k'. apply elem_of_query_all in Hin as [Hb' HP].
      assert (b' = b) as -> by congruence. by rewrite HP.
    + destruct (P b) eqn:HP; [|done].
      exfalso. apply Hin. apply list_elem_of_fmap. exists (k, b).
      split; [done|]. by apply elem_of_query_all.
  - by rewrite cancel_fold_notes.
Qed.

(* ================================================================== *)
(** ** Row evolution of the callbacks *)
(* ================================================================== *)

Lemma rows_follow_same db db' : bookings db' = bookings db → rows_follow db db'.
Proof.
  intros H k. rewrite H. destruct (bookings db !! k); constructor. by left.
Qed.

Lemma rows_follow_update db ts id b s :
  bookings db !! id = Some b →
  transition (status b) s →
  rows_follow db (mkDB ts (<[id := set_status b s]> (bookings db))).
Proof.
  intros Hb Htr k. simpl. destruct (decide (k = id)) as [->|Hne].
  - rewrite lookup_insert_eq, Hb. constructor. right. by exists s.
  - rewrite lookup_insert_ne by done.
    destruct (bookings db !! k); constructor. by left.
Qed.

Lemma rows_follow_fmap db db' (g : Booking → Booking) :
  (∀ b, row_step b (g b)) →
  bookings db' = g <$> bookings db →
  rows_follow db db'.
Proof.
  intros Hg H k. rewrite H, lookup_fmap.
  destruct (bookings db !! k); constructor. apply Hg.
Qed.

Lemma expire_row_step env b : row_step b (expire_row env b).
Proof.
  unfold expire_row. destruct (overdue env b) eqn:Ho; [|by left].
  right. exists EXPIRED. split; [done|].
  rewrite (overdue_pending _ _ Ho). constructor.
Qed.

Lemma cancel_row_step env tid b : row_step b (cancel_row env tid b).
Proof.
  unfold cancel_row.
  destruct (bool_decide (trip_id b = tid)); [simpl|by left].
  destruct (in_pending_confirmed (status b)) eqn:Hs; [simpl|by left].
  destruct (send_message_ok env (passenger_id b)); [|by left].
  right. exists CANCELLED. split; [done|].
  destruct (status b); try done; constructor.
Qed.

(** What [cancel_trip] commits when the caller is the driver of an
    active trip. *)
Lemma cancel_trip_spec env db tid u trip :
  trips db !! tid = Some trip →
  is_active trip = true →
  driver_id trip = u →
  trips (out_db (cancel_trip env db tid u))
  = <[tid := set_is_active trip false]> (trips db) ∧
  bookings (out_db (cancel_trip env db tid u))
  = cancel_row env tid <$> bookings db ∧
  out_notes (cancel_trip env db tid u)
  = trip_cancelled_note <$>
      query_all (λ b, bool_decide (trip_id b = tid)
                      && in_pending_confirmed (status b))
                (bookings db) ∧
  out_reply (cancel_trip env db tid u) = ReplyTripCancelled.
Proof.
  intros Ht Hact Hu. unfold cancel_trip. rewrite Ht, Hact. simpl.
  rewrite bool_decide_eq_false_2 by (intros ?; done).
  set (db1 := mkDB _ _).
  destruct (notify_passengers_trip_cancelled_spec env db1 tid)
    as (Htrips & Hrows & Hnotes).
  destruct (notify_passengers_trip_cancelled env db1 tid) as [db2 notes].
  simpl in *. done.
Qed.

Lemma cancel_trip_rows env db tid u :
  rows_follow db (out_db (cancel_trip env db tid u)).
Proof.
  unfold cancel_trip.
  destruct (trips db !! tid) as [trip|] eqn:Ht; [|by apply rows_follow_same].
  destruct (is_active trip) eqn:Hact; [simpl|by apply rows_follow_same].
  case_bool_decide as Hu; [by apply rows_follow_same|].
  set (db1 := mkDB _ _).
  destruct (notify_passengers_trip_cancelled_spec env db1 tid)
    as (_ & Hrows & _).
  destruct (notify_passengers_trip_cancelled env db1 tid) as [db2 notes].
  simpl in *. eapply rows_follow_fmap; [apply cancel_row_step | exact Hrows].
Qed.

Lemma expire_job_rows env db :
  rows_follow db (expire_pending_bookings_job env db).1.
Proof.
  destruct (expire_job_spec env db) as (_ & Hrows & _).
  eapply rows_follow_fmap; [apply expire_row_step | exact Hrows].
Qed.

Lemma confirm_booking_rows env db id u :
  rows_follow db (out_db (confirm_booking env db id u)).
Proof.
  unfold confirm_booking.
  destruct (bookings db !! id) as [b|] eqn:Hb; [|by apply rows_follow_same].
  destruct (status b) eqn:Hs; try by apply rows_follow_same.
  destruct (is_expired env b); simpl;
    apply rows_follow_update; try done; rewrite Hs; constructor.
Qed.

Lemma reject_booking_rows env db id u :
  rows_follow db (out_db (button_try db (reject_booking env db id u))).
Proof.
  unfold reject_booking.
  destruct (bookings db !! id) as [b|] eqn:Hb; [|by apply rows_follow_same].
  case_bool_decide as Hs; [|by apply rows_follow_same].
  destruct (booking_trip db b); [simpl|by apply rows_follow_same].
  apply rows_follow_update; [done|]. rewrite Hs. constructor.
Qed.

Lemma confirm_cancel_rows env db id u :
  rows_follow db (out_db (button_try db (confirm_cancel env db id u))).
Proof.
  unfold confirm_cancel.
  destruct (bookings db !! id) as [b|] eqn:Hb; [|by apply rows_follow_same].
  destruct (in_cancelled_rejected_expired (status b)) eqn:Hs;
    [by apply rows_follow_same|].
  case_bool_decide; [|by apply rows_follow_same].
  destruct (booking_trip db b); [simpl|by apply rows_follow_same].
  apply rows_follow_update; [done|].
  destruct (status b); try done; constructor.
Qed.

Lemma confirm_driver_cancel_rows env db id u :
  rows_follow db (out_db (confirm_driver_cancel env db id u)).
Proof.
  unfold confirm_driver_cancel.
  destruct (bookings db !! id) as [b|] eqn:Hb; [|by apply rows_follow_same].
  destruct (in_cancelled_rejected_expired (status b)) eqn:Hs;
    [by apply rows_follow_same|].
  destruct (booking_trip db b); [|by apply rows_follow_same].
  case_bool_decide; [by apply rows_follow_same|simpl].
  apply rows_follow_update; [done|].
  destruct (status b); try done; constructor.
Qed.

(** Every callback but the creation of a booking keeps the set of rows
    and moves each row along [transition] at most. *)
Lemma step_rows_follow env db c :
  ¬ is_book_qty c → rows_follow db (out_db (step env db c)).
Proof.
  destruct c; simpl; intros Hc; try done.
  - apply confirm_booking_rows.
  - apply reject_booking_rows.
  - apply confirm_cancel_rows.
  - apply confirm_driver_cancel_rows.
  - apply cancel_trip_rows.
  - pose proof (expire_job_rows env db) as H.
    by destruct (expire_pending_bookings_job env db).
Qed.

(** [handle_callback] either changes nothing or adds one [PENDING] row
    under a fresh key, for a passenger without a [PENDING]/[CONFIRMED]
    booking on the trip, taking the seats from the trip. *)
Lemma handle_callback_cases env db tid n u :
  (out_db (handle_callback env db tid n u) = db ∧
   out_notes (handle_callback env db tid n u) = [] ∧
   out_reply (handle_callback env db tid n u) ∈ refusals) ∨
  (∃ trip,
     trips db !! tid = Some trip ∧
     is_active trip = true ∧
     driver_id trip ≠ u ∧
     now env ≤ date trip ∧
     1 ≤ n ≤ seats_available trip ∧
     existing_booking db tid u = None ∧
     out_db (handle_callback env db tid n u)
     = mkDB (<[tid := set_seats_available trip (seats_available trip - n)]>
               (trips db))
            (<[next_id (bookings db)
               := mkBooking tid u n (DtDatetime (utcnow env)) PENDING]>
               (bookings db)) ∧
     out_reply (handle_callback env db tid n u)
     = ReplyRequestSent (next_id (bookings db)) ∧
     out_notes (handle_callback env db tid n u)
     = [NotifyDriverNewBooking (driver_id trip) (next_id (bookings db)) n u]).
Proof.
  unfold handle_callback, refusals.
  destruct (trips db !! tid) as [trip|] eqn:Ht;
    [|left; simpl; repeat split; set_solver].
  destruct (is_active trip) eqn:Hact; simpl;
    [|left; repeat split; set_solver].
  case_bool_decide as Hav; [left; simpl; repeat split; set_solver|].
  case_bool_decide as Hown; [left; simpl; repeat split; set_solver|].
  case_bool_decide as Hpast; [left; simpl; repeat split; set_solver|].
  case_bool_decide as Hlo; simpl; [left; simpl; repeat split; set_solver|].
  case_bool_decide as Hhi; simpl; [left; simpl; repeat split; set_solver|].
  destruct (existing_booking db tid u) eqn:Hex;
    [left; simpl; repeat split; set_solver|].
  right. exists trip. simpl. repeat split; try done; lia.
Qed.

(* ================================================================== *)
(** ** Seat accounting of the callbacks *)
(* ================================================================== *)

Lemma active_or_final s :
  in_cancelled_rejected_expired s = negb (in_pending_confirmed s).
Proof. by destruct s. Qed.

Lemma confirm_booking_seats env db id u :
  seats_follow db (out_db (confirm_booking env db id u)).
Proof.
  unfold confirm_booking.
  destruct (bookings db !! id) as [b|] eqn:Hb; [|apply seats_follow_refl].
  destruct (status b) eqn:Hs; try apply seats_follow_refl.
  destruct (is_expired env b); simpl.
  - apply seats_follow_release; [done| by rewrite Hs | done].
  - apply seats_follow_keep; [done | by rewrite Hs].
Qed.

Lemma reject_booking_seats env db id u :
  seats_follow db (out_db (button_try db (reject_booking env db id u))).
Proof.
  unfold reject_booking.
  destruct (bookings db !! id) as [b|] eqn:Hb; [|apply seats_follow_refl].
  case_bool_decide as Hs; [|apply seats_follow_refl].
  pose proof (seats_follow_release db id b REJECTED Hb) as Hrel.
  destruct (booking_trip db b); [simpl|apply seats_follow_refl].
  apply Hrel; [by rewrite Hs | done].
Qed.

Lemma confirm_cancel_seats env db id u :
  seats_follow db (out_db (button_try db (confirm_cancel env db id u))).
Proof.
  unfold confirm_cancel.
  destruct (bookings db !! id) as [b|] eqn:Hb; [|apply seats_follow_refl].
  destruct (in_cancelled_rejected_expired (status b)) eqn:Hs;
    [apply seats_follow_refl|].
  case_bool_decide; [|apply seats_follow_refl].
  pose proof (seats_follow_release db id b CANCELLED Hb) as Hrel.
  destruct (booking_trip db b); [simpl|apply seats_follow_refl].
  apply Hrel; [|done]. rewrite active_or_final in Hs.
  by destruct (in_pending_confirmed (status b)).
Qed.

Lemma confirm_driver_cancel_seats env db id u :
  seats_follow db (out_db (confirm_driver_cancel env db id u)).
Proof.
  unfold confirm_driver_cancel.
  destruct (bookings db !! id) as [b|] eqn:Hb; [|apply seats_follow_refl].
  destruct (in_cancelled_rejected_expired (status b)) eqn:Hs;
    [apply seats_follow_refl|].
  pose proof (seats_follow_release db id b CANCELLED Hb) as Hrel.
  destruct (booking_trip db b); [|apply seats_follow_refl].
  case_bool_decide; [apply seats_follow_refl|simpl].
  apply Hrel; [|done]. rewrite active_or_final in Hs.
  by destruct (in_pending_confirmed (status b)).
Qed.

Lemma handle_callback_seats env db tid n u :
  seats_follow db (out_db (handle_callback env db tid n u)).
Proof.
  destruct (handle_callback_cases env db tid n u)
    as [(-> & _) | (trip & Ht & _ & _ & _ & _ & _ & -> & _)].
  - apply seats_follow_refl.
  - apply seats_follow_create; [apply next_id_fresh | done].
Qed.

(** Every callback but the trip cancellation moves [seats_available] of
    each trip by exactly the seats its bookings took or released. *)
Lemma step_seats_follow env db c :
  ¬ is_trip_cancel c → seats_follow db (out_db (step env db c)).
Proof.
  destruct c; simpl; intros Hc; try done.
  - apply handle_callback_seats.
  - apply confirm_booking_seats.
  - apply reject_booking_seats.
  - apply confirm_cancel_seats.
  - apply confirm_driver_cancel_seats.
  - destruct (expire_job_spec env db) as (H & _).
    by destruct (expire_pending_bookings_job env db).
Qed.

(** Remaining plus held seats of every trip is kept by every callback
    other than the trip cancellation. *)
Lemma step_total_seats env db c tid :
  ¬ is_trip_cancel c →
  total_seats (out_db (step env db c)) tid = total_seats db tid.
Proof. intros Hc. by apply seats_follow_total_seats, step_seats_follow. Qed.

(* ================================================================== *)
(** ** One active booking per trip and passenger *)
(* ================================================================== *)

Lemma row_step_keys b b' :
  row_step b b' →
  trip_id b' = trip_id b ∧ passenger_id b' = passenger_id b ∧
  (in_pending_confirmed (status b') = true →
   in_pending_confirmed (status b) = true).
Proof.
  intros [->|(s & -> & Htr)]; [done|]. simpl.
  repeat split. intros _. by destruct Htr.
Qed.

Lemma rows_follow_one_active db db' :
  rows_follow db db' → one_active_per_pair db → one_active_per_pair db'.
Proof.
  intros Hrows Hinv k1 k2 b1' b2' H1 H2 Ha1 Ha2 Ht Hp.
  pose proof (Hrows k1) as Hr1. pose proof (Hrows k2) as Hr2.
  rewrite H1 in Hr1. rewrite H2 in Hr2.
  inversion Hr1 as [b1 ? Hs1 Hb1|]; subst.
  inversion Hr2 as [b2 ? Hs2 Hb2|]; subst.
  apply row_step_keys in Hs1 as (Ht1 & Hp1 & Hact1).
  apply row_step_keys in Hs2 as (Ht2 & Hp2 & Hact2).
  apply (Hinv k1 k2 b1 b2); auto; congruence.
Qed.

Lemma existing_booking_None db tid u k b :
  existing_booking db tid u = None →
  bookings db !! k = Some b →
  trip_id b = tid → passenger_id b = u →
  in_pending_confirmed (status b) = false.
Proof.
  unfold existing_booking. intros Hnone Hb Ht Hp.
  rewrite query_first_None in Hnone. specialize (Hnone k b Hb).
  rewrite !bool_decide_eq_true_2 in Hnone by done. done.
Qed.

Lemma existing_booking_Some db tid u k b :
  bookings db !! k = Some b →
  trip_id b = tid → passenger_id b = u →
  in_pending_confirmed (status b) = true →
  is_Some (existing_booking db tid u).
Proof.
  intros Hb Ht Hp Hs.
  destruct (existing_booking db tid u) eqn:E; [done|].
  rewrite (existing_booking_None db tid u k b E Hb Ht Hp) in Hs. done.
Qed.

Lemma handle_callback_one_active env db tid n u :
  one_active_per_pair db →
  one_active_per_pair (out_db (handle_callback env db tid n u)).
Proof.
  intros Hinv.
  destruct (handle_callback_cases env db tid n u)
    as [(-> & _) | (trip & _ & _ & _ & _ & _ & Hex & -> & _)]; [done|].
  pose proof (next_id_fresh (bookings db)) as Hfresh.
  intros k1 k2 b1 b2. simpl.
  destruct (decide (k1 = next_id (bookings db))) as [->|Hn1];
    destruct (decide (k2 = next_id (bookings db))) as [->|Hn2]; [done|..].
  - rewrite lookup_insert_eq, lookup_insert_ne by done.
    intros [= <-] H2 _ Ha2 Ht Hp. simpl in *.
    by rewrite (existing_booking_None db tid u k2 b2 Hex H2) in Ha2.
  - rewrite lookup_insert_eq, lookup_insert_ne by done.
    intros H1 [= <-] Ha1 _ Ht Hp. simpl in *.
    by rewrite (existing_booking_None db tid u k1 b1 Hex H1) in Ha1.
  - rewrite !lookup_insert_ne by done. apply Hinv.
Qed.

Lemma step_one_active env db c :
  one_active_per_pair db → one_active_per_pair (out_db (step env db c)).
Proof.
  intros Hinv.
  destruct c;
    try (eapply rows_follow_one_active;
         [apply step_rows_follow; by intros [] | done]).
  by apply handle_callback_one_active.
Qed.

(* ================================================================== *)
(** ** Who may call, and what a failed send changes *)
(* ================================================================== *)

(** Neither driver callback looks at the caller. *)
Lemma confirm_booking_any_caller env db id u u' :
  confirm_booking env db id u = confirm_booking env db id u'.
Proof. reflexivity. Qed.

Lemma reject_booking_any_caller env db id u u' :
  reject_booking env db id u = reject_booking env db id u'.
Proof. reflexivity. Qed.

(** Outside the trip cancellation, what is committed, answered and
    notified does not depend on whether messages can be delivered. *)
Lemma step_send_irrelevant env send db c :
  ¬ is_trip_cancel c → step (with_send env send) db c = step env db c.
Proof. destruct c; simpl; intros Hc; try done. Qed.

Lemma expire_job_send_irrelevant env send db :
  expire_pending_bookings_job (with_send env send) db
  = expire_pending_bookings_job env db.
Proof. reflexivity. Qed.

(** Rows that hold no seat of a trip add up to nothing. *)
Lemma total_booked_zero (bs : gmap Z Booking) tid :
  (∀ k b, bs !! k = Some b → held tid b = 0) → total_booked bs tid = 0.
Proof.
  induction bs as [|i x m Hi Hfirst IH] using map_first_key_ind; intros Hall.
  - apply total_booked_empty.
  - rewrite total_booked_insert_new by done.
    rewrite (Hall i x) by apply lookup_insert_eq.
    rewrite IH; [done|]. intros k b Hk. apply (Hall k b).
    rewrite lookup_insert_ne; [done|]. intros ->. congruence.
Qed.

(** When every passenger can be messaged, a trip cancellation by the
    driver leaves no held seat on the trip and leaves [seats_available]
    as it was: remaining plus held seats drops by what was held. *)
Lemma cancel_trip_total_seats env db tid u trip :
  trips db !! tid = Some trip →
  is_active trip = true →
  driver_id trip = u →
  (∀ p, send_message_ok env p = true) →
  total_seats db tid
  = Some (seats_available trip + total_booked (bookings db) tid) ∧
  total_seats (out_db (cancel_trip env db tid u)) tid
  = Some (seats_available trip).
Proof.
  intros Ht Hact Hu Hsend.
  destruct (cancel_trip_spec env db tid u trip Ht Hact Hu)
    as (Htrips & Hrows & _).
  unfold total_seats. rewrite Ht, Htrips, Hrows, lookup_insert_eq. simpl.
  split; [done|]. f_equal.
  rewrite total_booked_zero; [lia|].
  intros k b'. rewrite lookup_fmap.
  destruct (bookings db !! k) as [b|]; [simpl|done]. intros [= <-].
  unfold cancel_row, held. rewrite Hsend, andb_true_r.
  destruct (bool_decide (trip_id b = tid) && in_pending_confirmed (status b))
    eqn:E; simpl; [by rewrite andb_false_r|].
  by rewrite E.
Qed.

(* ================================================================== *)
(** ** Runs of the engine *)
(* ================================================================== *)

Lemma run_snoc db cs env c :
  run db (cs ++ [(env, c)]) = out_db (step env (run db cs) c).
Proof. unfold run. by rewrite foldl_app. Qed.

(** The uniqueness of active bookings holds along every run that starts
    in a state where it holds, such as a database without bookings. *)
Lemma run_one_active db cs :
  one_active_per_pair db → one_active_per_pair (run db cs).
Proof.
  intros Hinv. induction cs as [|[env c] cs IH] using rev_ind; [done|].
  rewrite run_snoc. by apply step_one_active.
Qed.

(** Along a run without trip cancellation every trip keeps the sum of
    its remaining and held seats. *)
Lemma run_total_seats db cs tid :
  Forall (λ ec, ¬ is_trip_cancel ec.2) cs →
  total_seats (run db cs) tid = total_seats db tid.
Proof.
  induction cs as [|[env c] cs IH] using rev_ind; intros Hcs; [done|].
  apply Forall_app in Hcs as [Hcs Hc]. rewrite Forall_singleton in Hc.
  rewrite run_snoc. rewrite step_total_seats by exact Hc. by apply IH.
Qed.

(** Two more writers of [status], outside [Command]: the [exit_trip_]
    branch gives the seats of an already cancelled booking back a second
    time; [handle_passenger_trip_completed] revives a cancelled booking
    without taking its seats again and [..._not_completed] cancels one
    without giving its seats back. *)
Lemma exit_trip_returns_seats_again :
  let env := Sample.env_at (Sample.t_noon + Sample.minutes 5) in
  let db := out_db (step env Sample.db_confirmed
                         (ConfirmCancel 1 Sample.alice)) in
  let db' := out_db (exit_trip env db 1 Sample.alice) in
  status <$> bookings db !! 1 = Some CANCELLED ∧
  total_seats db 1 = Some 3 ∧
  status <$> bookings db' !! 1 = Some CANCELLED ∧
  total_seats db' 1 = Some 5.
Proof. vm_compute. repeat split; done. Qed.

Lemma trip_completed_revives_booking :
  let env := Sample.env_at (Sample.t_noon + Sample.minutes 5) in
  let db := out_db (step env Sample.db_confirmed
                         (ConfirmCancel 1 Sample.alice)) in
  let db' := handle_passenger_trip_completed db 1 in
  let db'' := handle_passenger_trip_not_completed Sample.db_confirmed 1 in
  status <$> bookings db !! 1 = Some CANCELLED ∧
  total_seats db 1 = Some 3 ∧
  status <$> bookings db' !! 1 = Some CONFIRMED ∧
  total_seats db' 1 = Some 5 ∧
  total_seats Sample.db_confirmed 1 = Some 3 ∧
  status <$> bookings db'' !! 1 = Some CANCELLED ∧
  total_seats db'' 1 = Some 1.
Proof. vm_compute. repeat split; done. Qed.

(* ================================================================== *)
(** ** The seat total across a trip cancellation (C1, C2, C6) *)
(* ================================================================== *)

(** C1.  The claim: after any of the engine's operations, remaining
    seats plus the seats of the trip's [PENDING]/[CONFIRMED] bookings
    equals the trip's capacity.  Here the code is run on a trip of
    capacity 3 on which one passenger holds a [PENDING] booking of 2
    seats: before the driver cancels the trip the total is 3, afterwards
    the booking is [CANCELLED], [seats_available] is still 1 and the total
    is 1.  (Every other callback keeps the total: [step_total_seats].) *)
Theorem cancel_trip_breaks_seat_total :
  total_seats Sample.db_pending 1 = Some 3 ∧
  total_seats
    (out_db (step (Sample.env_at (Sample.t_noon + Sample.minutes 5))
                  Sample.db_pending
                  (ConfirmTripCancel 1 Sample.driver))) 1
  = Some 1.
Proof. vm_compute. done. Qed.

(** C2.  The claim: cancelling a trip sets [is_active] to false and, for
    every [PENDING]/[CONFIRMED] booking, performs the [CANCELLED]
    transition, which gives the booked seats back to the trip, and
    notifies each affected passenger.  Run on the trip of capacity 3 with
    one [CONFIRMED] booking of 2 seats, the code deactivates the trip,
    cancels the booking and notifies the passenger, but
    [seats_available] stays at 1 instead of becoming 3. *)
Theorem cancel_trip_returns_no_seats :
  let db := Sample.db_confirmed in
  let o := step (Sample.env_at (Sample.t_noon + Sample.minutes 5)) db
                (ConfirmTripCancel 1 Sample.driver) in
  status <$> bookings db !! 1 = Some CONFIRMED ∧
  seats_booked <$> bookings db !! 1 = Some 2 ∧
  seats_available <$> trips db !! 1 = Some 1 ∧
  is_active <$> trips (out_db o) !! 1 = Some false ∧
  status <$> bookings (out_db o) !! 1 = Some CANCELLED ∧
  out_notes o = [NotifyPassengerTripCancelled Sample.alice 1] ∧
  seats_available <$> trips (out_db o) !! 1 = Some 1.
Proof. vm_compute. done. Qed.

(** C6.  The claim: a failed notification never prevents or undoes the
    status and seat changes of the operation.  In the trip cancellation
    the booking is only set to [CANCELLED] after its message went out:
    with a reachable passenger the booking ends [CANCELLED], with an
    unreachable one the same call leaves it [CONFIRMED] on a trip that is
    no longer active.  (For all other callbacks delivery plays no part:
    [step_send_irrelevant].) *)
Theorem failed_send_blocks_cancellation :
  let db := Sample.db_confirmed in
  let t := Sample.t_noon + Sample.minutes 5 in
  let delivered :=
    step (Sample.env_at t) db (ConfirmTripCancel 1 Sample.driver) in
  let failed :=
    step (Sample.env_failing t Sample.alice) db
         (ConfirmTripCancel 1 Sample.driver) in
  status <$> bookings (out_db delivered) !! 1 = Some CANCELLED ∧
  status <$> bookings (out_db failed) !! 1 = Some CONFIRMED ∧
  is_active <$> trips (out_db failed) !! 1 = Some false ∧
  out_reply failed = ReplyTripCancelled.
Proof. vm_compute. done. Qed.

(* ================================================================== *)
(** ** Callers of confirm and reject (C7) *)
(* ================================================================== *)

(** C7.  The claim: confirm and reject succeed only for the driver of
    the booking's trip, any other caller being refused without a change.
    The two branches never compare the caller with [trip.driver_id]: a
    user who is not the driver confirms the [PENDING] booking, and
    likewise rejects it, which also moves the seat count from 1 to 3. *)
Theorem stranger_confirms_and_rejects :
  let db := Sample.db_pending in
  let env := Sample.env_at (Sample.t_noon + Sample.minutes 1) in
  let confirmed := step env db (ConfirmBooking 1 Sample.mallory) in
  let rejected := step env db (RejectBooking 1 Sample.mallory) in
  driver_id <$> trips db !! 1 = Some Sample.driver ∧
  Sample.mallory ≠ Sample.driver ∧
  status <$> bookings db !! 1 = Some PENDING ∧
  seats_available <$> trips db !! 1 = Some 1 ∧
  status <$> bookings (out_db confirmed) !! 1 = Some CONFIRMED ∧
  out_reply confirmed = ReplyConfirmed ∧
  status <$> bookings (out_db rejected) !! 1 = Some REJECTED ∧
  seats_available <$> trips (out_db rejected) !! 1 = Some 3 ∧
  out_reply rejected = ReplyRejected.
Proof. vm_compute. repeat split; done. Qed.

(* ================================================================== *)
(** ** A cancellation confirmed for a missing booking (C10) *)
(* ================================================================== *)

(** C10.  When [confirm_cancel_] arrives with a booking id that matches
    no row, the branch reads [booking.status] before any existence test:
    the body raises [AttributeError], the callback answers with the
    generic error instead of "not found", and the database is left as it
    was, with no notification. *)
Theorem confirm_cancel_missing_booking env db id u :
  bookings db !! id = None →
  confirm_cancel env db id u = inl (AttributeError "status") ∧
  out_reply (step env db (ConfirmCancel id u)) = ReplyHandlerError ∧
  out_reply (step env db (ConfirmCancel id u)) ≠ ReplyBookingNotFound ∧
  out_db (step env db (ConfirmCancel id u)) = db ∧
  out_notes (step env db (ConfirmCancel id u)) = [].
Proof.
  intros Hid. simpl. unfold confirm_cancel. rewrite Hid. simpl. done.
Qed.

(** The missing booking 7 in the sample database. *)
Lemma confirm_cancel_missing_booking_witness :
  bookings Sample.db_pending !! 7 = None ∧
  confirm_cancel (Sample.env_at Sample.t_noon) Sample.db_pending 7
                 Sample.alice
  = inl (AttributeError "status") ∧
  out_db (step (Sample.env_at Sample.t_noon) Sample.db_pending
               (ConfirmCancel 7 Sample.alice))
  = Sample.db_pending.
Proof.
  assert (bookings Sample.db_pending !! 7 = None) as H by reflexivity.
  split; [exact H|].
  destruct (confirm_cancel_missing_booking (Sample.env_at Sample.t_noon)
              Sample.db_pending 7 Sample.alice H) as (H1 & _ & _ & H4 & _).
  split; [exact H1 | exact H4].
Defined.

(* ================================================================== *)
(** ** Bookings that are final (C3) *)
(* ================================================================== *)

(** C3, the claim refuted.  The claim counts [CONFIRMED] among the
    terminal statuses on which every later event is a no-op.  A passenger
    who confirms the cancellation of a [CONFIRMED] booking of 2 seats
    moves it to [CANCELLED], the trip's seat count goes from 1 to 3 and
    the answer is the cancellation notice.  A reject that then arrives
    for the cancelled booking is a no-op, but gets the empty answer. *)
Lemma confirmed_booking_is_cancelled :
  let db := Sample.db_confirmed in
  let o := step (Sample.env_at (Sample.t_noon + Sample.minutes 5)) db
                (ConfirmCancel 1 Sample.alice) in
  status <$> bookings db !! 1 = Some CONFIRMED ∧
  seats_available <$> trips db !! 1 = Some 1 ∧
  status <$> bookings (out_db o) !! 1 = Some CANCELLED ∧
  seats_available <$> trips (out_db o) !! 1 = Some 3 ∧
  out_reply o = ReplyCancelled ∧
  out_reply (step (Sample.env_at (Sample.t_noon + Sample.minutes 6))
                  (out_db o) (RejectBooking 1 Sample.driver))
  = ReplyEmpty.
Proof. vm_compute. repeat split; done. Qed.

Lemma transition_from_final s s' :
  in_cancelled_rejected_expired s = true → ¬ transition s s'.
Proof. intros Hs Htr. by destruct Htr. Qed.

Lemma rows_follow_final db db' id b :
  rows_follow db db' →
  bookings db !! id = Some b →
  in_cancelled_rejected_expired (status b) = true →
  bookings db' !! id = Some b.
Proof.
  intros Hrows Hb Hfin. specialize (Hrows id). rewrite Hb in Hrows.
  inversion Hrows as [? b' [->|(s & _ & Htr)] Hx Hy|]; [done|].
  by apply transition_from_final in Htr.
Qed.

(** C3, amended.  For a booking whose status is [REJECTED], [CANCELLED]
    or [EXPIRED]: no reservation callback and no run of the expiry job
    changes the row; a confirm, reject, passenger-cancel or driver-cancel
    callback on it commits nothing and notifies nobody; the two cancel
    callbacks answer "already cancelled", confirm answers "already
    expired" on an [EXPIRED] booking and gives the empty answer
    otherwise, and reject gives the empty answer.  [CONFIRMED] is not
    final: the cancel confirmation of its passenger and that of the trip's
    driver move a [CONFIRMED] booking to [CANCELLED] and add its seats to
    the trip. *)
Theorem final_rows_stay env db c id b :
  bookings db !! id = Some b →
  (in_cancelled_rejected_expired (status b) = true →
   bookings (out_db (step env db c)) !! id = Some b ∧
   (targets c id →
    out_db (step env db c) = db ∧
    out_notes (step env db c) = [] ∧
    out_reply (step env db c)
    = match c with
      | ConfirmCancel _ _ | ConfirmDriverCancel _ _ => ReplyAlreadyCancelled
      | ConfirmBooking _ _ =>
          if decide (status b = EXPIRED) then ReplyAlreadyExpired
          else ReplyEmpty
      | _ => ReplyEmpty
      end)) ∧
  (status b = CONFIRMED →
   ∀ trip,
     booking_trip db b = Some trip →
     out_db (step env db (ConfirmCancel id (passenger_id b)))
     = mkDB (add_seats (trips db) (trip_id b) trip (seats_booked b))
            (<[id := set_status b CANCELLED]> (bookings db)) ∧
     out_db (step env db (ConfirmDriverCancel id (driver_id trip)))
     = mkDB (add_seats (trips db) (trip_id b) trip (seats_booked b))
            (<[id := set_status b CANCELLED]> (bookings db))).
Proof.
  intros Hb. split.
  - intros Hfin. split.
    + destruct c as [t n u| | | | | |];
        try (apply (rows_follow_final db); [|done|done];
             apply step_rows_follow; by intros []).
      simpl.
      destruct (handle_callback_cases env db t n u)
        as [(-> & _) | (trip & _ & _ & _ & _ & _ & _ & -> & _)]; [done|].
      simpl. rewrite lookup_insert_ne; [done|].
      intros <-. by rewrite next_id_fresh in Hb.
    + destruct c as [| k u | k u | k u | k u | |]; simpl; try done;
        intros ->.
      * unfold confirm_booking. rewrite Hb.
        destruct (status b); try done.
      * unfold reject_booking. rewrite Hb.
        rewrite bool_decide_eq_false_2; [done|].
        intros Hs. by rewrite Hs in Hfin.
      * unfold confirm_cancel. by rewrite Hb, Hfin.
      * unfold confirm_driver_cancel. by rewrite Hb, Hfin.
  - intros Hs trip Htrip. simpl.
    unfold confirm_cancel, confirm_driver_cancel.
    rewrite Hb, Hs, Htrip. simpl.
    rewrite bool_decide_eq_true_2 by done.
    rewrite bool_decide_eq_false_2 by (intros H; by apply H). done.
Qed.

(** A rejected booking whose passenger then confirms a cancellation. *)
Lemma final_rows_stay_witness :
  let db :=
    out_db (step (Sample.env_at (Sample.t_noon + Sample.minutes 1))
                 Sample.db_pending (RejectBooking 1 Sample.driver)) in
  let env := Sample.env_at (Sample.t_noon + Sample.minutes 2) in
  out_db (step env db (ConfirmCancel 1 Sample.alice)) = db ∧
  out_reply (step env db (ConfirmCancel 1 Sample.alice))
  = ReplyAlreadyCancelled.
Proof.
  intros db env.
  destruct (final_rows_stay env db (ConfirmCancel 1 Sample.alice) 1
              (mkBooking 1 Sample.alice 2 (DtDatetime Sample.t_noon) REJECTED))
    as [H _]; [reflexivity|].
  destruct (H eq_refl) as [_ H'].
  destruct (H' eq_refl) as (H1 & _ & H3). split; [exact H1 | exact H3].
Defined.

(* ================================================================== *)
(** ** Confirm and reject on an overdue booking (C4) *)
(* ================================================================== *)

(** C4, the claim refuted.  The claim has both confirm and reject commit
    [EXPIRED] for a [PENDING] booking whose TTL has passed.  Sixteen
    minutes after the request (TTL 15 minutes) the booking is overdue for
    the confirm branch, yet a reject commits [REJECTED] and sends the
    rejection notice, not the expiry notice. *)
Lemma reject_ignores_ttl :
  let db := Sample.db_pending in
  let env := Sample.env_at (Sample.t_noon + Sample.minutes 16) in
  let o := step env db (RejectBooking 1 Sample.driver) in
  status <$> bookings db !! 1 = Some PENDING ∧
  is_expired env <$> bookings db !! 1 = Some true ∧
  status <$> bookings (out_db o) !! 1 = Some REJECTED ∧
  out_notes o = [NotifyPassengerBookingRejected Sample.alice 1] ∧
  out_reply o = ReplyRejected.
Proof. vm_compute. repeat split; done. Qed.

(** C4, amended.  For a [PENDING] booking whose [booking_time] reads as
    an instant strictly before [utcnow - TTL]: a confirm commits
    [EXPIRED] instead of [CONFIRMED], adds the booked seats to the trip
    when the trip row exists, sends the expiry notice and answers that the
    request has expired; a reject performs no TTL check: on any
    [PENDING] booking whose trip row exists it commits [REJECTED], adds
    the booked seats to the trip and sends the rejection notice. *)
Theorem overdue_confirm_expires_reject_rejects env db id u b :
  bookings db !! id = Some b →
  status b = PENDING →
  (∀ bt,
     confirm_parse env (booking_time b) = Some bt →
     bt < cutoff env →
     out_db (step env db (ConfirmBooking id u))
     = mkDB (match booking_trip db b with
             | Some trip =>
                 add_seats (trips db) (trip_id b) trip (seats_booked b)
             | None => trips db
             end)
            (<[id := set_status b EXPIRED]> (bookings db)) ∧
     out_reply (step env db (ConfirmBooking id u)) = ReplyExpiredNow ∧
     out_notes (step env db (ConfirmBooking id u))
     = [NotifyPassengerBookingExpired (passenger_id b) id]) ∧
  (∀ trip,
     booking_trip db b = Some trip →
     out_db (step env db (RejectBooking id u))
     = mkDB (add_seats (trips db) (trip_id b) trip (seats_booked b))
            (<[id := set_status b REJECTED]> (bookings db)) ∧
     out_reply (step env db (RejectBooking id u)) = ReplyRejected ∧
     out_notes (step env db (RejectBooking id u))
     = [NotifyPassengerBookingRejected (passenger_id b) id]).
Proof.
  intros Hb Hs. split.
  - intros bt Hbt Hlt. simpl.
    unfold confirm_booking, is_expired. rewrite Hb, Hs, Hbt.
    rewrite bool_decide_eq_true_2 by done. done.
  - intros trip Htrip. simpl. unfold reject_booking. rewrite Hb.
    rewrite bool_decide_eq_true_2 by done. rewrite Htrip. done.
Qed.

(** The sample booking confirmed sixteen minutes after the request. *)
Lemma overdue_confirm_expires_reject_rejects_witness :
  let db := Sample.db_pending in
  let env := Sample.env_at (Sample.t_noon + Sample.minutes 16) in
  out_reply (step env db (ConfirmBooking 1 Sample.driver)) = ReplyExpiredNow ∧
  out_notes (step env db (ConfirmBooking 1 Sample.driver))
  = [NotifyPassengerBookingExpired Sample.alice 1].
Proof.
  intros db env.
  destruct (overdue_confirm_expires_reject_rejects env db 1 Sample.driver
              (mkBooking 1 Sample.alice 2 (DtDatetime Sample.t_noon) PENDING))
    as [H _]; [reflexivity | reflexivity |].
  destruct (H Sample.t_noon) as (_ & H2 & H3); [reflexivity | |].
  - vm_compute. reflexivity.
  - split; [exact H2 | exact H3].
Defined.

(* ================================================================== *)
(** ** The expiry job (C5) *)
(* ================================================================== *)

(** C5, the claim refuted.  The claim expires a booking as soon as
    [now - booking_time] is at least the TTL.  Exactly fifteen minutes
    after the request, with a TTL of fifteen minutes, the job leaves the
    booking [PENDING], returns no seat and notifies nobody. *)
Lemma job_keeps_booking_at_exact_ttl :
  let db := Sample.db_pending in
  let env := Sample.env_at (Sample.t_noon + Sample.minutes 15) in
  let o := step env db ExpireJob in
  booking_time <$> bookings db !! 1 = Some (DtDatetime Sample.t_noon) ∧
  timedelta_minutes (ttl_minutes env) ≤ utcnow env - Sample.t_noon ∧
  status <$> bookings db !! 1 = Some PENDING ∧
  status <$> bookings (out_db o) !! 1 = Some PENDING ∧
  out_db o = db ∧
  out_notes o = [].
Proof. vm_compute. repeat split; done. Qed.

(** Two overdue bookings of one trip: one run expires both, gives all
    three seats back and commits once. *)
Lemma job_commits_once_for_two :
  let db := Sample.db_two_pending in
  let env := Sample.env_at (Sample.t_noon + Sample.minutes 30) in
  let o := step env db ExpireJob in
  seats_available <$> trips db !! 1 = Some 0 ∧
  status <$> bookings (out_db o) !! 1 = Some EXPIRED ∧
  status <$> bookings (out_db o) !! 2 = Some EXPIRED ∧
  seats_available <$> trips (out_db o) !! 1 = Some 3 ∧
  out_notes o ≡ₚ [NotifyPassengerBookingExpired Sample.alice 1;
                  NotifyPassengerBookingExpired Sample.bob 2] ∧
  expire_job_commits env db = 1%nat.
Proof.
  vm_compute. repeat split; try done.
  apply (Permutation_swap _ _ []).
Qed.

(** The one booking of the sample table. *)
Lemma db_pending_bookings :
  bookings Sample.db_pending
  = {[ 1 := mkBooking 1 Sample.alice 2 (DtDatetime Sample.t_noon) PENDING ]}.
Proof. vm_compute. reflexivity. Qed.

Lemma pending_rows_load_db_pending : pending_rows_load Sample.db_pending.
Proof.
  intros k b Hb _. rewrite db_pending_bookings in Hb.
  apply lookup_singleton_Some in Hb as [_ <-]. exact I.
Qed.

(** C5, amended.  On a table whose [PENDING] rows hold [None] or a
    [datetime] in [booking_time], one run of the job rewrites exactly the
    [PENDING] bookings whose [booking_time] is an instant strictly before
    [utcnow - TTL]: each becomes [EXPIRED]; a booking that is not
    [PENDING], that has no timestamp, or whose timestamp is not before
    the cutoff is left as it is, and no row appears or disappears.
    Each trip's [seats_available] grows by exactly the seats of its
    expired bookings, the passenger of every expired booking is notified
    when a bot is at hand (in no stated order), and a failing delivery
    changes nothing of this.  The session is committed at most once per
    run, after the loop. *)
Theorem expire_job_amended env db :
  pending_rows_load db →
  let r := expire_pending_bookings_job env db in
  (∀ k b,
     bookings db !! k = Some b →
     (∀ bt, status b = PENDING →
            booking_time b = DtDatetime bt →
            bt < cutoff env →
            bookings r.1 !! k = Some (set_status b EXPIRED)) ∧
     (status b ≠ PENDING → bookings r.1 !! k = Some b) ∧
     (booking_time b = DtNone → bookings r.1 !! k = Some b) ∧
     (∀ bt, booking_time b = DtDatetime bt →
            cutoff env ≤ bt →
            bookings r.1 !! k = Some b) ∧
     (bookings r.1 !! k ≠ Some b →
      status b = PENDING ∧
      ∃ bt, booking_time b = DtDatetime bt ∧ bt < cutoff env)) ∧
  (∀ k, bookings db !! k = None → bookings r.1 !! k = None) ∧
  seats_follow db r.1 ∧
  r.2 ≡ₚ (if has_bot env
          then expired_note <$>
                 query_all (λ b, bool_decide (status b = PENDING)
                                 && overdue env b)
                           (bookings db)
          else []) ∧
  (∀ send, expire_pending_bookings_job (with_send env send) db = r) ∧
  (expire_job_commits env db ≤ 1)%nat.
Proof.
  intros Hload r.
  destruct (expire_job_spec env db) as (Hseats & Hrows & Hnotes).
  fold r in Hseats, Hrows, Hnotes.
  assert (∀ k b, bookings db !! k = Some b →
                 bookings r.1 !! k = Some (expire_row env b)) as Hrow.
  { intros k b Hb. by rewrite Hrows, lookup_fmap, Hb. }
  split; [|split; [|split; [done|split; [by rewrite Hnotes|split; [done|]]]]];
    [| |apply expire_job_commits_le].
  - intros k b Hb. rewrite (Hrow _ _ Hb). unfold expire_row.
    split; [|split; [|split; [|split]]].
    + intros bt Hs Hbt Hlt.
      assert (overdue env b = true) as ->; [|done].
      apply overdue_spec. split; [done|]. exists bt. by rewrite Hbt.
    + intros Hs. destruct (overdue env b) eqn:Ho; [|done].
      by apply overdue_pending in Ho.
    + intros Hnone. destruct (overdue env b) eqn:Ho; [|done].
      apply overdue_spec in Ho as (_ & bt & Hbt & _).
      by rewrite Hnone in Hbt.
    + intros bt Hbt Hge. destruct (overdue env b) eqn:Ho; [|done].
      apply overdue_spec in Ho as (_ & bt' & Hbt' & Hlt).
      rewrite Hbt in Hbt'. simpl in Hbt'.
      assert (bt' = bt) by congruence. lia.
    + intros Hchanged. destruct (overdue env b) eqn:Ho; [|done].
      apply overdue_spec in Ho as (Hs & bt & Hbt & Hlt).
      split; [done|]. pose proof (Hload k b Hb Hs) as Hval.
      destruct (booking_time b) as [|t|v]; simpl in *; [done| |done].
      exists t. split; [done|]. congruence.
  - intros k Hk. by rewrite Hrows, lookup_fmap, Hk.
Qed.

(** The sample booking swept sixteen minutes after the request. *)
Lemma expire_job_amended_witness :
  let db := Sample.db_pending in
  let env := Sample.env_at (Sample.t_noon + Sample.minutes 16) in
  bookings (expire_pending_bookings_job env db).1 !! 1
  = Some (mkBooking 1 Sample.alice 2 (DtDatetime Sample.t_noon) EXPIRED).
Proof.
  intros db env.
  destruct (expire_job_amended env db pending_rows_load_db_pending)
    as (Hrows & _).
  destruct (Hrows 1 (mkBooking 1 Sample.alice 2 (DtDatetime Sample.t_noon)
                               PENDING) eq_refl) as (Hexp & _).
  apply (Hexp Sample.t_noon); [reflexivity | reflexivity |].
  vm_compute. reflexivity.
Defined.

(* ================================================================== *)
(** ** Seat quantity of a request (C8) *)
(* ================================================================== *)

(** C8, the claim refuted.  The claim accepts a request only if the seat
    count does not exceed 5.  On a trip with eight free seats a request
    for seven seats is accepted: a [PENDING] booking for 7 seats is
    stored and the trip is left with one free seat. *)
Lemma seven_seats_accepted :
  let db := Sample.db_eight in
  let o := step (Sample.env_at Sample.t_noon) db (BookQty 1 7 Sample.alice) in
  seats_available <$> trips db !! 1 = Some 8 ∧
  bookings db = ∅ ∧
  out_reply o = ReplyRequestSent 1 ∧
  seats_booked <$> bookings (out_db o) !! 1 = Some 7 ∧
  status <$> bookings (out_db o) !! 1 = Some PENDING ∧
  seats_available <$> trips (out_db o) !! 1 = Some 1.
Proof. vm_compute. repeat split; done. Qed.

(** Eight free seats on a trip published with five: the passenger books
    three seats and leaves the trip twice through [exit_trip_]; a request
    for seven seats is then accepted. *)
Lemma seven_seats_after_leaving_twice :
  let env := Sample.env_at Sample.t_noon in
  let db1 := out_db (step env Sample.db_five (BookQty 1 3 Sample.alice)) in
  let db2 := out_db (exit_trip env db1 1 Sample.alice) in
  let db3 := out_db (exit_trip env db2 1 Sample.alice) in
  let o := step env db3 (BookQty 1 7 Sample.bob) in
  seats_available <$> trips db1 !! 1 = Some 2 ∧
  seats_available <$> trips db2 !! 1 = Some 5 ∧
  seats_available <$> trips db3 !! 1 = Some 8 ∧
  out_reply o = ReplyRequestSent 2 ∧
  seats_booked <$> bookings (out_db o) !! 2 = Some 7.
Proof. vm_compute. repeat split; done. Qed.

Lemma elem_of_seat_buttons t m :
  m ∈ seat_buttons t ↔ 1 ≤ m ≤ 5 ∧ m ≤ seats_available t.
Proof.
  unfold seat_buttons. rewrite list_elem_of_fmap. split.
  - intros (i & -> & Hi). apply elem_of_seq in Hi. lia.
  - intros [H1 H2]. exists (Z.to_nat (m - 1)). split; [lia|].
    apply elem_of_seq. lia.
Qed.

Lemma refusal_not_sent r id : r ∈ refusals → r ≠ ReplyRequestSent id.
Proof.
  unfold refusals. intros Hr ->.
  repeat (apply elem_of_cons in Hr as [Hr|Hr]; [discriminate|]).
  by apply elem_of_nil in Hr.
Qed.

(** C8, amended.  A booking request is accepted only when the seat count
    is at least 1 and at most the trip's [seats_available]; every other
    request is turned down with the database unchanged and no notice
    sent.  The bound of 5 is not tested on the request: it comes from the
    quantity keyboard, which offers exactly the counts from 1 to
    [min(5, seats_available)]. *)
Theorem quantity_within_available env db tid n u :
  (∀ id, out_reply (step env db (BookQty tid n u)) = ReplyRequestSent id →
         ∃ trip, trips db !! tid = Some trip ∧
                 1 ≤ n ≤ seats_available trip ∧
                 bookings db !! id = None ∧
                 bookings (out_db (step env db (BookQty tid n u))) !! id
                 = Some (mkBooking tid u n (DtDatetime (utcnow env)) PENDING)) ∧
  ((∀ id, out_reply (step env db (BookQty tid n u)) ≠ ReplyRequestSent id) →
   out_db (step env db (BookQty tid n u)) = db ∧
   out_notes (step env db (BookQty tid n u)) = []) ∧
  (∀ trip, trips db !! tid = Some trip →
           ¬ (1 ≤ n ≤ seats_available trip) →
           out_reply (step env db (BookQty tid n u)) ∈ refusals ∧
           out_db (step env db (BookQty tid n u)) = db) ∧
  (∀ trip m, m ∈ seat_buttons trip ↔ 1 ≤ m ≤ 5 ∧ m ≤ seats_available trip).
Proof.
  simpl.
  destruct (handle_callback_cases env db tid n u)
    as [(Hdb & Hnotes & Hreply)
       | (trip & Ht & _ & _ & _ & Hn & _ & Hdb & Hreply & _)].
  - split; [|split; [|split]].
    + intros id Hid. exfalso. by apply (refusal_not_sent _ id) in Hreply.
    + done.
    + done.
    + intros. apply elem_of_seat_buttons.
  - split; [|split; [|split]].
    + intros id Hid. rewrite Hreply in Hid. injection Hid as <-.
      exists trip. split; [done|]. split; [lia|].
      split; [apply next_id_fresh|].
      rewrite Hdb. simpl. by rewrite lookup_insert_eq.
    + intros Hno. by specialize (Hno _ Hreply).
    + intros trip' Ht' Hbad. exfalso. apply Hbad.
      assert (trip' = trip) as -> by congruence. lia.
    + intros. apply elem_of_seat_buttons.
Qed.

(** Four seats asked of a trip with three free seats. *)
Lemma quantity_within_available_witness :
  let db := Sample.db_empty in
  let env := Sample.env_at Sample.t_noon in
  out_reply (step env db (BookQty 1 4 Sample.alice)) ∈ refusals ∧
  out_db (step env db (BookQty 1 4 Sample.alice)) = db.
Proof.
  intros db env.
  destruct (quantity_within_available env db 1 4 Sample.alice)
    as (_ & _ & H & _).
  apply (H Sample.trip3); [reflexivity|].
  vm_compute. intros [_ Hle]. apply Hle. reflexivity.
Defined.

(* ================================================================== *)
(** ** One active booking per trip and passenger (C9) *)
(* ================================================================== *)

(** The first step of a booking ([book_]) writes nothing, and answers a
    passenger who holds a [PENDING]/[CONFIRMED] booking on the trip with
    the duplicate-booking condition once its own earlier guards pass. *)
Lemma book_step_duplicate env db tid u k b trip :
  bookings db !! k = Some b →
  trip_id b = tid →
  passenger_id b = u →
  in_pending_confirmed (status b) = true →
  trips db !! tid = Some trip →
  is_active trip = true →
  0 < seats_available trip →
  driver_id trip ≠ u →
  now env ≤ trip_end_dt trip →
  book_step env db tid u = unchanged db ReplyDuplicateBooking.
Proof.
  intros Hb Ht Hp Hs Htrip Hact Hfree Hown Hdate.
  destruct (existing_booking_Some db tid u k b Hb Ht Hp Hs) as [kb Hex].
  unfold book_step. rewrite Htrip, Hact, Hex. simpl.
  repeat case_bool_decide; simpl; try done; lia.
Qed.

(** C9, the claim refuted.  The claim answers every request of a
    passenger who already holds a [PENDING]/[CONFIRMED] booking on the
    trip with the duplicate-booking condition.  The quantity guard comes
    first: the holder of a [PENDING] booking who asks for 2 seats while 1
    is free is told that the quantity is unavailable. *)
Lemma duplicate_answered_as_bad_quantity :
  let db := Sample.db_pending in
  let o := step (Sample.env_at (Sample.t_noon + Sample.minutes 1)) db
                (BookQty 1 2 Sample.alice) in
  (trip_id <$> bookings db !! 1 = Some 1 ∧
   passenger_id <$> bookings db !! 1 = Some Sample.alice ∧
   status <$> bookings db !! 1 = Some PENDING) ∧
  out_reply o = ReplyBadQuantity ∧
  out_reply o ≠ ReplyDuplicateBooking.
Proof. vm_compute. repeat split; done. Qed.

(** C9, amended.  Along every run of the reservation callbacks and the
    expiry job a (trip, passenger) pair keeps at most one booking in
    [PENDING] or [CONFIRMED].  A booking request by a passenger who holds
    such a booking on the trip stores nothing, changes no seat count,
    sends no notice and is turned down; the answer is the
    duplicate-booking condition whenever the request passes the guards
    that come first (trip active with a free seat, not the caller's own
    trip, not in the past, quantity between 1 and the free seats), and
    otherwise it is the answer of the first of these guards that fails:
    trip unavailable, own trip, past trip or unavailable quantity. *)
Theorem one_active_booking_per_pair env db tid n u :
  (one_active_per_pair db → ∀ cs, one_active_per_pair (run db cs)) ∧
  (∀ k b,
     bookings db !! k = Some b →
     trip_id b = tid →
     passenger_id b = u →
     in_pending_confirmed (status b) = true →
     out_db (step env db (BookQty tid n u)) = db ∧
     out_notes (step env db (BookQty tid n u)) = [] ∧
     out_reply (step env db (BookQty tid n u)) ∈ refusals ∧
     (∀ trip,
        trips db !! tid = Some trip →
        is_active trip = true →
        0 < seats_available trip →
        driver_id trip ≠ u →
        now env ≤ date trip →
        1 ≤ n ≤ seats_available trip →
        out_reply (step env db (BookQty tid n u)) = ReplyDuplicateBooking) ∧
     (trips db !! tid = None →
      out_reply (step env db (BookQty tid n u)) = ReplyTripUnavailable) ∧
     (∀ trip,
        trips db !! tid = Some trip →
        (is_active trip = false ∨ seats_available trip ≤ 0 →
         out_reply (step env db (BookQty tid n u)) = ReplyTripUnavailable) ∧
        (is_active trip = true → 0 < seats_available trip →
         driver_id trip = u →
         out_reply (step env db (BookQty tid n u)) = ReplyOwnTrip) ∧
        (is_active trip = true → 0 < seats_available trip →
         driver_id trip ≠ u → date trip < now env →
         out_reply (step env db (BookQty tid n u)) = ReplyPastTrip) ∧
        (is_active trip = true → 0 < seats_available trip →
         driver_id trip ≠ u → now env ≤ date trip →
         ¬ 1 ≤ n ≤ seats_available trip →
         out_reply (step env db (BookQty tid n u)) = ReplyBadQuantity))).
Proof.
  split; [intros Hinv cs; by apply run_one_active|].
  intros k b Hb Ht Hp Hs. simpl.
  destruct (existing_booking_Some db tid u k b Hb Ht Hp Hs) as [kb Hex].
  destruct (handle_callback_cases env db tid n u)
    as [(Hdb & Hnotes & Hreply) | (trip & _ & _ & _ & _ & _ & Hnone & _)];
    [|congruence].
  split; [done|]. split; [done|]. split; [done|].
  split; [|split].
  - intros trip Htrip Hact Hfree Hown Hdate Hn.
    unfold handle_callback. rewrite Htrip, Hact, Hex. simpl.
    repeat case_bool_decide; simpl; try done; lia.
  - intros Htrip. unfold handle_callback. by rewrite Htrip.
  - intros trip Htrip. unfold handle_callback. rewrite Htrip.
    split; [|split; [|split]].
    + intros [Hact|Hfull].
      * by rewrite Hact.
      * rewrite (bool_decide_eq_true_2 _ Hfull). by rewrite orb_true_r.
    + intros Hact Hfree Hown. rewrite Hact. simpl.
      rewrite (bool_decide_eq_false_2 (seats_available trip ≤ 0)) by lia.
      by rewrite (bool_decide_eq_true_2 _ Hown).
    + intros Hact Hfree Hown Hpast. rewrite Hact. simpl.
      rewrite (bool_decide_eq_false_2 (seats_available trip ≤ 0)) by lia.
      rewrite (bool_decide_eq_false_2 _ Hown).
      by rewrite (bool_decide_eq_true_2 _ Hpast).
    + intros Hact Hfree Hown Hdate Hn. rewrite Hact. simpl.
      rewrite (bool_decide_eq_false_2 (seats_available trip ≤ 0)) by lia.
      rewrite (bool_decide_eq_false_2 _ Hown).
      rewrite (bool_decide_eq_false_2 (date trip < now env)) by lia.
      repeat case_bool_decide; simpl; try done; lia.
Qed.

(** A second request of one seat by the holder of a pending booking, a
    request of two seats by the same holder while one seat is free, and
    the run in which the first two requests are made on the fresh trip. *)
Lemma one_active_booking_per_pair_witness :
  let db := Sample.db_pending in
  let env := Sample.env_at (Sample.t_noon + Sample.minutes 1) in
  one_active_per_pair
    (run Sample.db_empty
         [(Sample.env_at Sample.t_noon, BookQty 1 2 Sample.alice);
          (env, BookQty 1 1 Sample.alice)]) ∧
  out_reply (step env db (BookQty 1 1 Sample.alice)) = ReplyDuplicateBooking ∧
  out_reply (step env db (BookQty 1 2 Sample.alice)) = ReplyBadQuantity.
Proof.
  intros db env. split; [|split].
  - destruct (one_active_booking_per_pair env Sample.db_empty 1 1 Sample.alice)
      as [H _].
    apply H. intros k1 k2 b1 b2 H1. simpl in H1.
    rewrite lookup_empty in H1. discriminate H1.
  - destruct (one_active_booking_per_pair env db 1 1 Sample.alice) as [_ H].
    destruct (H 1 (mkBooking 1 Sample.alice 2 (DtDatetime Sample.t_noon)
                             PENDING)
                eq_refl eq_refl eq_refl eq_refl) as (_ & _ & _ & Hdup & _).
    apply (Hdup (mkTrip Sample.driver (Sample.t_noon + Sample.minutes 120)
                        None 1 true)); try reflexivity; vm_compute; done.
  - destruct (one_active_booking_per_pair env db 1 2 Sample.alice) as [_ H].
    destruct (H 1 (mkBooking 1 Sample.alice 2 (DtDatetime Sample.t_noon)
                             PENDING)
                eq_refl eq_refl eq_refl eq_refl) as (_ & _ & _ & _ & _ & Hother).
    destruct (Hother (mkTrip Sample.driver
                             (Sample.t_noon + Sample.minutes 120) None 1 true)
                eq_refl) as (_ & _ & _ & Hqty).
    apply Hqty; try reflexivity; vm_compute; try done.
    intros [_ Hle]. by apply Hle.
Defined.

(* ================================================================== *)
(** ** Invariants along runs *)
(* ================================================================== *)

Section invariant_principle.
Context (I : DB → Prop).
Hypothesis I_create : ∀ db tid trip id n u bt,
  I db →
  trips db !! tid = Some trip →
  bookings db !! id = None →
  1 ≤ n ≤ seats_available trip →
  I (mkDB (<[tid := set_seats_available trip (seats_available trip - n)]>
             (trips db))
          (<[id := mkBooking tid u n bt PENDING]> (bookings db))).
Hypothesis I_release : ∀ db id b s,
  I db →
  bookings db !! id = Some b →
  I (mkDB (match booking_trip db b with
           | Some trip => add_seats (trips db) (trip_id b) trip (seats_booked b)
           | None => trips db
           end)
          (<[id := set_status b s]> (bookings db))).
Hypothesis I_status : ∀ db id b s,
  I db →
  bookings db !! id = Some b →
  I (mkDB (trips db) (<[id := set_status b s]> (bookings db))).
Hypothesis I_deactivate : ∀ db tid trip,
  I db →
  trips db !! tid = Some trip →
  I (mkDB (<[tid := set_is_active trip false]> (trips db)) (bookings db)).

Lemma I_release_trip db id b s trip :
  I db →
  bookings db !! id = Some b →
  booking_trip db b = Some trip →
  I (mkDB (add_seats (trips db) (trip_id b) trip (seats_booked b))
          (<[id := set_status b s]> (bookings db))).
Proof.
  intros HI Hb Htrip. pose proof (I_release db id b s HI Hb) as H.
  by rewrite Htrip in H.
Qed.

Lemma I_same db db' : db' = db → I db → I db'.
Proof. by intros ->. Qed.

Lemma cancel_one_keeps env st id b :
  bookings st.1 !! id = Some b → I st.1 → I (cancel_one env st (id, b)).1.
Proof.
  destruct st as [d notes]. simpl. intros Hb HI. unfold cancel_one.
  destruct (send_message_ok env (passenger_id b)); [|done].
  rewrite Hb. simpl. by apply I_status.
Qed.

Lemma expire_one_keeps env st id b :
  bookings st.1.1 !! id = Some b →
  I st.1.1 → I (expire_one env st (id, b)).1.1.
Proof.
  destruct st as [[d notes] n]. simpl. intros Hb HI. unfold expire_one.
  destruct (overdue env b); [simpl|done]. by apply I_release.
Qed.

Lemma cancel_cascade_keeps env db tid :
  I db → I (notify_passengers_trip_cancelled env db tid).1.
Proof.
  unfold notify_passengers_trip_cancelled.
  set (P := λ b : Booking,
              bool_decide (trip_id b = tid) && in_pending_confirmed (status b)).
  destruct (foldl_rows (λ st : DB * list Notification, st.1)
              (cancel_one env)
              (λ b, if send_message_ok env (passenger_id b)
                    then set_status b CANCELLED else b)
              (λ d d', I d → I d')
              (cancel_one_other env) (cancel_one_same env)
              (λ _ H, H)
              (λ d1 d2 d3 H12 H23 H, H23 (H12 H))
              (cancel_one_keeps env)
              (query_all P (bookings db)) (db, [])) as [H _].
  - apply NoDup_fst_query_all.
  - intros k b Hin. by apply elem_of_query_all in Hin as [? _].
  - exact H.
Qed.

Lemma expire_job_keeps env db :
  I db → I (expire_pending_bookings_job env db).1.
Proof.
  destruct (expire_job_session env db) as [-> _].
  unfold expire_loop.
  set (P := λ b : Booking, bool_decide (status b = PENDING)).
  destruct (foldl_rows (λ st : DB * list Notification * Z, st.1.1)
              (expire_one env) (expire_row env)
              (λ d d', I d → I d')
              (expire_one_other env) (expire_one_same env)
              (λ _ H, H)
              (λ d1 d2 d3 H12 H23 H, H23 (H12 H))
              (expire_one_keeps env)
              (query_all P (bookings db)) (db, [], 0)) as [H _].
  - apply NoDup_fst_query_all.
  - intros k b Hin. by apply elem_of_query_all in Hin as [? _].
  - exact H.
Qed.

(** Every callback of [Command] is built from four table updates: a new
    [PENDING] row paid from the trip, a release of a row's seats, a bare
    status change, and a trip deactivation.  A property kept by the four
    is kept by every callback. *)
Lemma step_keeps env db c : I db → I (out_db (step env db c)).
Proof.
  intros HI. destruct c as [t n u|id u|id u|id u|id u|t u|]; simpl.
  - destruct (handle_callback_cases env db t n u)
      as [(-> & _) | (trip & Ht & _ & _ & _ & Hn & _ & -> & _)]; [done|].
    apply I_create; [done|done|apply next_id_fresh|done].
  - unfold confirm_booking.
    destruct (bookings db !! id) as [b|] eqn:Hb; [|done].
    destruct (status b); try done.
    destruct (is_expired env b); simpl; [by apply I_release|by apply I_status].
  - unfold reject_booking.
    destruct (bookings db !! id) as [b|] eqn:Hb; [|done].
    case_bool_decide; [|done].
    destruct (booking_trip db b) eqn:Htrip; [simpl|done].
    by apply I_release_trip.
  - unfold confirm_cancel.
    destruct (bookings db !! id) as [b|] eqn:Hb; [|done].
    destruct (in_cancelled_rejected_expired (status b)); [done|].
    case_bool_decide; [|done].
    destruct (booking_trip db b) eqn:Htrip; [simpl|done].
    by apply I_release_trip.
  - unfold confirm_driver_cancel.
    destruct (bookings db !! id) as [b|] eqn:Hb; [|done].
    destruct (in_cancelled_rejected_expired (status b)); [done|].
    destruct (booking_trip db b) eqn:Htrip; [|done].
    case_bool_decide; [done|simpl].
    by apply I_release_trip.
  - unfold cancel_trip.
    destruct (trips db !! t) as [trip|] eqn:Ht; [|done].
    destruct (is_active trip); [simpl|done].
    case_bool_decide; [done|].
    pose proof (cancel_cascade_keeps env
                  (mkDB (<[t := set_is_active trip false]> (trips db))
                        (bookings db)) t
                  (I_deactivate db t trip HI Ht)) as Hkeep.
    by destruct (notify_passengers_trip_cancelled env _ t).
  - pose proof (expire_job_keeps env db HI) as Hkeep.
    by destruct (expire_pending_bookings_job env db).
Qed.

Lemma run_keeps db cs : I db → I (run db cs).
Proof.
  intros HI. induction cs as [|[env c] cs IH] using rev_ind; [done|].
  rewrite run_snoc. by apply step_keeps.
Qed.

End invariant_principle.

(** X1.  Along every run of the reservation callbacks and the expiry job
    that contains no trip cancellation, each trip keeps all its columns
    but [seats_available], which moves by exactly the seats its bookings
    took or released: the sum of its free seats and of the seats of its
    [PENDING]/[CONFIRMED] bookings stays what it was. *)
Theorem seats_follow_along_runs db cs :
  no_trip_cancel cs →
  seats_follow db (run db cs) ∧
  ∀ tid, total_seats (run db cs) tid = total_seats db tid.
Proof.
  intros Hcs.
  assert (seats_follow db (run db cs)) as H.
  { induction cs as [|[env c] cs IH] using rev_ind;
      [apply seats_follow_refl|].
    apply Forall_app in Hcs as [Hcs Hc]. rewrite Forall_singleton in Hc.
    rewrite run_snoc. eapply seats_follow_trans; [by apply IH|].
    by apply step_seats_follow. }
  split; [exact H|]. intros tid. by apply seats_follow_total_seats.
Qed.

(** A request, a confirmation, a second request, a driver's cancellation
    and a sweep on the three-seat trip. *)
Lemma seats_follow_along_runs_witness :
  total_seats
    (run Sample.db_empty
         [(Sample.env_at Sample.t_noon, BookQty 1 2 Sample.alice);
          (Sample.env_at (Sample.t_noon + Sample.minutes 1),
           ConfirmBooking 1 Sample.driver);
          (Sample.env_at (Sample.t_noon + Sample.minutes 2),
           BookQty 1 1 Sample.bob);
          (Sample.env_at (Sample.t_noon + Sample.minutes 3),
           ConfirmDriverCancel 1 Sample.driver);
          (Sample.env_at (Sample.t_noon + Sample.minutes 30), ExpireJob)]) 1
  = Some 3.
Proof.
  match goal with |- total_seats (run ?d ?l) _ = _ =>
    destruct (seats_follow_along_runs d l) as [_ H] end.
  - unfold no_trip_cancel. repeat constructor; simpl; tauto.
  - rewrite H. reflexivity.
Defined.

(** X2.  No overbooking: along every run of the reservation callbacks and
    the expiry job, trip cancellation included, no trip's
    [seats_available] becomes negative and every booking is for at least
    one seat, provided this holds at the start. *)
Theorem seats_sane_along_runs db cs : seats_sane db → seats_sane (run db cs).
Proof.
  apply run_keeps.
  - intros d tid trip id n u bt [Ht Hb] Htrip Hid Hn. split; simpl.
    + intros tid' t'. destruct (decide (tid = tid')) as [<-|Hne].
      * rewrite lookup_insert_eq. intros [= <-]. simpl. lia.
      * rewrite lookup_insert_ne by done. apply Ht.
    + intros k b. destruct (decide (id = k)) as [<-|Hne].
      * rewrite lookup_insert_eq. intros [= <-]. simpl. lia.
      * rewrite lookup_insert_ne by done. apply Hb.
  - intros d id b s [Ht Hb] Hid. split; simpl.
    + intros tid' t'. unfold booking_trip, add_seats.
      destruct (trips d !! trip_id b) as [trip|] eqn:Htrip; [|apply Ht].
      destruct (decide (trip_id b = tid')) as [<-|Hne].
      * rewrite lookup_insert_eq. intros [= <-]. simpl.
        specialize (Ht _ _ Htrip). specialize (Hb _ _ Hid). lia.
      * rewrite lookup_insert_ne by done. apply Ht.
    + intros k b'. destruct (decide (id = k)) as [<-|Hne].
      * rewrite lookup_insert_eq. intros [= <-]. simpl. by apply (Hb id).
      * rewrite lookup_insert_ne by done. apply Hb.
  - intros d id b s [Ht Hb] Hid. split; simpl; [done|].
    intros k b'. destruct (decide (id = k)) as [<-|Hne].
    + rewrite lookup_insert_eq. intros [= <-]. simpl. by apply (Hb id).
    + rewrite lookup_insert_ne by done. apply Hb.
  - intros d tid trip [Ht Hb] Htrip. split; simpl; [|done].
    intros tid' t'. destruct (decide (tid = tid')) as [<-|Hne].
    + rewrite lookup_insert_eq. intros [= <-]. simpl. by apply (Ht tid).
    + rewrite lookup_insert_ne by done. apply Ht.
Qed.

Lemma seats_sane_db_empty : seats_sane Sample.db_empty.
Proof.
  split; simpl.
  - intros tid t Ht. apply lookup_singleton_Some in Ht as [_ <-].
    vm_compute. discriminate.
  - intros k b Hb. by rewrite lookup_empty in Hb.
Qed.

(** The last seat asked twice on the three-seat trip. *)
Lemma seats_sane_along_runs_witness :
  seats_sane
    (run Sample.db_empty
         [(Sample.env_at Sample.t_noon, BookQty 1 3 Sample.alice);
          (Sample.env_at Sample.t_noon, BookQty 1 1 Sample.bob)]).
Proof. apply seats_sane_along_runs, seats_sane_db_empty. Defined.

(** X3.  Every booking keeps pointing to a trip row: no callback and no
    run of the expiry job creates a booking for a missing trip or removes
    a trip. *)
Theorem no_dangling_along_runs db cs : no_dangling db → no_dangling (run db cs).
Proof.
  apply run_keeps.
  - intros d tid trip id n u bt Hd Htrip Hid Hn k b. simpl.
    destruct (decide (id = k)) as [<-|Hne].
    + rewrite lookup_insert_eq. intros [= <-]. simpl.
      rewrite lookup_insert_eq; by eexists.
    + rewrite lookup_insert_ne by done. intros Hb.
      destruct (decide (tid = trip_id b)) as [<-|Hnt].
      * rewrite lookup_insert_eq; by eexists.
      * rewrite lookup_insert_ne by done. by apply (Hd k).
  - intros d id b s Hd Hid k b'. simpl.
    assert (is_Some (trips d !! trip_id b') →
            is_Some (match booking_trip d b with
                     | Some trip =>
                         add_seats (trips d) (trip_id b) trip (seats_booked b)
                     | None => trips d
                     end !! trip_id b')) as Hkeep.
    { destruct (booking_trip d b); [|done]. unfold add_seats.
      destruct (decide (trip_id b = trip_id b')) as [<-|Hnt].
      - rewrite lookup_insert_eq; by eexists.
      - by rewrite lookup_insert_ne by done. }
    destruct (decide (id = k)) as [<-|Hne].
    + rewrite lookup_insert_eq. intros [= <-]. apply Hkeep.
      exact (Hd id b Hid).
    + rewrite lookup_insert_ne by done. intros Hb. apply Hkeep.
      by apply (Hd k).
  - intros d id b s Hd Hid k b'. simpl.
    destruct (decide (id = k)) as [<-|Hne].
    + rewrite lookup_insert_eq. intros [= <-]. exact (Hd id b Hid).
    + rewrite lookup_insert_ne by done. apply Hd.
  - intros d tid trip Hd Htrip k b Hb. simpl.
    destruct (decide (tid = trip_id b)) as [<-|Hnt].
    + rewrite lookup_insert_eq; by eexists.
    + rewrite lookup_insert_ne by done. by apply (Hd k).
Qed.

(** A request and a trip cancellation on the three-seat trip. *)
Lemma no_dangling_along_runs_witness :
  no_dangling
    (run Sample.db_empty
         [(Sample.env_at Sample.t_noon, BookQty 1 2 Sample.alice);
          (Sample.env_at Sample.t_noon, ConfirmTripCancel 1 Sample.driver)]).
Proof.
  apply no_dangling_along_runs.
  intros k b Hb. simpl in Hb. by rewrite lookup_empty in Hb.
Defined.

(* ================================================================== *)
(** ** Booking rows along runs *)
(* ================================================================== *)

Lemma set_status_same b : set_status b (status b) = b.
Proof. by destruct b. Qed.

Lemma step_row_forward env db c k b :
  bookings db !! k = Some b →
  ∃ s, bookings (out_db (step env db c)) !! k = Some (set_status b s) ∧
       (s = status b ∨ transition (status b) s).
Proof.
  intros Hb.
  assert (rows_follow db (out_db (step env db c)) →
          ∃ s, bookings (out_db (step env db c)) !! k = Some (set_status b s) ∧
               (s = status b ∨ transition (status b) s)) as Hrows.
  { intros Hr. specialize (Hr k). rewrite Hb in Hr.
    inversion Hr as [? b' [->|(s & -> & Htr)] Hx Hy|].
    - exists (status b). rewrite set_status_same. auto.
    - exists s. auto. }
  destruct c as [t n u| | | | | |];
    try (apply Hrows, step_rows_follow; by intros []).
  simpl. exists (status b). rewrite set_status_same. split; [|by left].
  destruct (handle_callback_cases env db t n u)
    as [(-> & _) | (trip & _ & _ & _ & _ & _ & _ & -> & _)]; [done|].
  simpl. rewrite lookup_insert_ne; [done|].
  intros <-. by rewrite next_id_fresh in Hb.
Qed.

(** X4.  Along every run a booking row is never removed and never changes
    its trip, passenger, seat count or creation time; its status only
    moves along the steps pending to confirmed, rejected, expired or
    cancelled, and confirmed to cancelled. *)
Theorem booking_rows_along_runs db cs k b :
  bookings db !! k = Some b →
  ∃ s, bookings (run db cs) !! k = Some (set_status b s) ∧
       rtc transition (status b) s.
Proof.
  intros Hb. induction cs as [|[env c] cs IH] using rev_ind.
  - exists (status b). by rewrite set_status_same.
  - destruct IH as (s & Hs & Hpath). rewrite run_snoc.
    destruct (step_row_forward env (run db cs) c k _ Hs) as (s' & Hs' & Hstep).
    exists s'. split; [exact Hs'|]. simpl in Hstep.
    destruct Hstep as [->|Htr]; [done|].
    eapply rtc_r; eauto.
Qed.

(** The sample booking after a confirmation and a passenger's
    cancellation. *)
Lemma booking_rows_along_runs_witness :
  ∃ s,
    bookings
      (run Sample.db_pending
           [(Sample.env_at (Sample.t_noon + Sample.minutes 1),
             ConfirmBooking 1 Sample.driver);
            (Sample.env_at (Sample.t_noon + Sample.minutes 2),
             ConfirmCancel 1 Sample.alice)]) !! 1
    = Some (mkBooking 1 Sample.alice 2 (DtDatetime Sample.t_noon) s) ∧
    rtc transition PENDING s.
Proof.
  apply (booking_rows_along_runs Sample.db_pending _ 1
           (mkBooking 1 Sample.alice 2 (DtDatetime Sample.t_noon) PENDING)).
  reflexivity.
Defined.

(* ================================================================== *)
(** ** Cancelling twice, and cancelling as a stranger *)
(* ================================================================== *)

(** X5.  A trip cancellation that went through leaves the trip inactive,
    so that any later cancellation of the same trip, by whomever and
    whether or not every passenger could be messaged the first time, shows
    the "trip deleted" card and changes nothing. *)
Theorem cancel_trip_twice env env' db tid u u' :
  out_reply (cancel_trip env db tid u) = ReplyTripCancelled →
  cancel_trip env' (out_db (cancel_trip env db tid u)) tid u'
  = unchanged (out_db (cancel_trip env db tid u)) ReplyTripDeleted.
Proof.
  intros Hreply.
  destruct (trips db !! tid) as [trip|] eqn:Ht;
    [|by (unfold cancel_trip in Hreply; rewrite Ht in Hreply)].
  destruct (is_active trip) eqn:Hact;
    [|by (unfold cancel_trip in Hreply; rewrite Ht, Hact in Hreply)].
  destruct (decide (driver_id trip = u)) as [Hu|Hu];
    [|by (unfold cancel_trip in Hreply; rewrite Ht, Hact in Hreply;
          simpl in Hreply; rewrite bool_decide_eq_true_2 in Hreply by done)].
  destruct (cancel_trip_spec env db tid u trip Ht Hact Hu) as (Htrips & _).
  unfold cancel_trip at 1. rewrite Htrips, lookup_insert_eq. done.
Qed.

(** The driver cancels the sample trip twice, the passenger being
    unreachable. *)
Lemma cancel_trip_twice_witness :
  let env := Sample.env_failing (Sample.t_noon + Sample.minutes 5)
                                Sample.alice in
  let db' := out_db (cancel_trip env Sample.db_confirmed 1 Sample.driver) in
  cancel_trip env db' 1 Sample.driver = unchanged db' ReplyTripDeleted.
Proof.
  intros env db'.
  apply (cancel_trip_twice env env Sample.db_confirmed 1 Sample.driver).
  reflexivity.
Defined.

(** X6.  A user who drives no trip and is the passenger of no booking
    cannot cancel anything: whatever booking or trip the passenger's
    cancel confirmation, the driver's cancel confirmation and the trip
    cancellation are aimed at, they commit nothing and notify nobody. *)
Theorem stranger_cannot_cancel env db c u :
  stranger db u →
  cancels_as c u →
  out_db (step env db c) = db ∧ out_notes (step env db c) = [].
Proof.
  intros [Hdrv Hpas] Hc.
  destruct c as [| | |id v|id v|tid v|]; simpl in Hc; try done; subst v; simpl.
  - unfold confirm_cancel.
    destruct (bookings db !! id) as [b|] eqn:Hb; [|done].
    destruct (in_cancelled_rejected_expired (status b)); [done|].
    rewrite bool_decide_eq_false_2; [done|]. by apply (Hpas id).
  - unfold confirm_driver_cancel.
    destruct (bookings db !! id) as [b|] eqn:Hb; [|done].
    destruct (in_cancelled_rejected_expired (status b)); [done|].
    destruct (booking_trip db b) as [trip|] eqn:Htrip; [|done].
    rewrite bool_decide_eq_true_2; [done|]. by apply (Hdrv (trip_id b)).
  - unfold cancel_trip.
    destruct (trips db !! tid) as [trip|] eqn:Ht; [|done].
    destruct (is_active trip); [simpl|done].
    rewrite bool_decide_eq_true_2; [done|]. by apply (Hdrv tid).
Qed.

Lemma stranger_mallory : stranger Sample.db_pending Sample.mallory.
Proof.
  split.
  - intros tid t Ht.
    assert (trips Sample.db_pending
            = {[1 := mkTrip Sample.driver
                            (Sample.t_noon + Sample.minutes 120) None 1 true]})
      as Heq by (vm_compute; reflexivity).
    rewrite Heq in Ht. apply lookup_singleton_Some in Ht as [_ <-].
    vm_compute. discriminate.
  - intros k b Hb.
    assert (bookings Sample.db_pending
            = {[1 := mkBooking 1 Sample.alice 2 (DtDatetime Sample.t_noon)
                               PENDING]}) as Heq by (vm_compute; reflexivity).
    rewrite Heq in Hb. apply lookup_singleton_Some in Hb as [_ <-].
    vm_compute. discriminate.
Qed.

(** The stranger of the sample data tries to cancel the sample trip. *)
Lemma stranger_cannot_cancel_witness :
  out_db (step (Sample.env_at Sample.t_noon) Sample.db_pending
               (ConfirmTripCancel 1 Sample.mallory))
  = Sample.db_pending.
Proof.
  apply (stranger_cannot_cancel (Sample.env_at Sample.t_noon)
           Sample.db_pending (ConfirmTripCancel 1 Sample.mallory)
           Sample.mallory stranger_mallory eq_refl).
Defined.

(* ================================================================== *)
(** ** The expiry job run again, and compared with confirm *)
(* ================================================================== *)

Lemma expire_fold_none env l : ∀ st,
  (∀ kb, kb ∈ l → overdue env kb.2 = false) →
  foldl (expire_one env) st l = st.
Proof.
  induction l as [|[id b] l IH]; intros [[d notes] n] Hl; [done|].
  pose proof (Hl (id, b) ltac:(left)) as Ho. simpl in Ho.
  simpl. rewrite Ho.
  apply IH. intros kb Hin. apply Hl. by right.
Qed.

(** X7.  A second run of the expiry job at the same instant finds nothing
    to do: it leaves the database of the first run as it is, notifies
    nobody and does not commit. *)
Theorem expire_job_idempotent env db :
  expire_pending_bookings_job env (expire_pending_bookings_job env db).1
  = ((expire_pending_bookings_job env db).1, []) ∧
  expire_job_commits env (expire_pending_bookings_job env db).1 = 0%nat.
Proof.
  destruct (expire_job_spec env db) as (_ & Hrows & _).
  set (db1 := (expire_pending_bookings_job env db).1) in *.
  assert (expire_loop env db1 = (db1, [], 0)) as Hloop.
  { unfold expire_loop. apply expire_fold_none. intros [k b1] Hin.
    apply elem_of_query_all in Hin as [Hk Hp]. simpl.
    apply bool_decide_eq_true_1 in Hp.
    rewrite Hrows, lookup_fmap in Hk.
    destruct (bookings db !! k) as [b|]; [|done].
    injection Hk as <-. unfold expire_row in *.
    destruct (overdue env b) eqn:Ho; [done|exact Ho]. }
  unfold expire_pending_bookings_job at 1, expire_job_commits.
  rewrite Hloop. done.
Qed.

(** On what the column hands over, the TTL test of the confirm branch
    and that of the job are the same test. *)
Lemma is_expired_overdue env b :
  orm_value (booking_time b) →
  status b = PENDING →
  is_expired env b = overdue env b.
Proof.
  intros Hval Hs. unfold is_expired, overdue.
  destruct (booking_time b) as [|t|v]; simpl in *; [done| |done].
  rewrite Hs. repeat case_bool_decide; simpl; try done; lia.
Qed.

(** X8.  The confirm branch and the expiry job read the TTL alike.  On a
    table whose [PENDING] rows hold [None] or a [datetime] in
    [booking_time] (what the [DateTime] column hands over), a confirm of
    a [PENDING] booking commits [EXPIRED] exactly when a run of the job
    at the same instant would expire the booking. *)
Theorem confirm_and_job_agree env db id u b :
  pending_rows_load db →
  bookings db !! id = Some b →
  status b = PENDING →
  (status <$> bookings (out_db (step env db (ConfirmBooking id u))) !! id
   = Some EXPIRED ↔
   status <$> bookings (out_db (step env db ExpireJob)) !! id = Some EXPIRED).
Proof.
  intros Hload Hb Hs.
  pose proof (is_expired_overdue env b (Hload id b Hb Hs) Hs) as Hagree.
  simpl.
  destruct (expire_job_spec env db) as (_ & Hrows & _).
  destruct (expire_pending_bookings_job env db) as [db' notes]. simpl in *.
  rewrite Hrows, lookup_fmap, Hb. simpl.
  unfold confirm_booking, expire_row. rewrite Hb, Hs, Hagree.
  destruct (overdue env b); simpl; rewrite lookup_insert_eq; simpl;
    [done|]. rewrite Hs. split; discriminate.
Qed.

(** The sample booking sixteen minutes after the request. *)
Lemma confirm_and_job_agree_witness :
  let env := Sample.env_at (Sample.t_noon + Sample.minutes 16) in
  status <$> bookings (out_db (step env Sample.db_pending
                                    (ConfirmBooking 1 Sample.driver))) !! 1
  = Some EXPIRED ↔
  status <$> bookings (out_db (step env Sample.db_pending ExpireJob)) !! 1
  = Some EXPIRED.
Proof.
  intros env.
  apply (confirm_and_job_agree env Sample.db_pending 1 Sample.driver
           (mkBooking 1 Sample.alice 2 (DtDatetime Sample.t_noon) PENDING)).
  - exact pending_rows_load_db_pending.
  - reflexivity.
  - reflexivity.
Defined.

(* ================================================================== *)
(** ** From the seat keyboard to the booking *)
(* ================================================================== *)

(** X9.  On an existing trip the first booking step offers the
    quantity keyboard exactly when its guards pass: trip active with a
    free seat, not the caller's own, not ended, no [PENDING] or
    [CONFIRMED] booking of the caller.  Every seat count it then offers
    is accepted by [handle_callback] on the same database when the trip
    has not started yet.  For a trip that has started but not ended the
    keyboard is offered all the same, and each of its choices is answered
    with the past-trip refusal. *)
Theorem offered_quantity_is_bookable env db tid u trip :
  trips db !! tid = Some trip →
  (out_reply (book_step env db tid u) = ReplySeatKeyboard (seat_buttons trip)
   ↔ book_guards env db tid u trip) ∧
  (book_guards env db tid u trip →
   ∀ n, n ∈ seat_buttons trip →
     (now env ≤ date trip →
      out_reply (handle_callback env db tid n u)
      = ReplyRequestSent (next_id (bookings db))) ∧
     (date trip < now env →
      handle_callback env db tid n u = unchanged db ReplyPastTrip)).
Proof.
  intros Ht. split; [split|].
  - unfold book_step. rewrite Ht. intros Hreply.
    case_bool_decide as Hfree; simpl in Hreply; [done|].
    destruct (is_active trip) eqn:Hact; simpl in Hreply; [|done].
    case_bool_decide as Hown; [done|].
    case_bool_decide as Hend; [done|].
    destruct (existing_booking db tid u) eqn:Hex; [done|].
    repeat split; try done; lia.
  - intros (Hact & Hfree & Hown & Hend & Hex).
    unfold book_step. rewrite Ht, Hact, Hex. simpl.
    rewrite (bool_decide_eq_false_2 (seats_available trip ≤ 0)) by lia.
    rewrite (bool_decide_eq_false_2 _ Hown).
    by rewrite (bool_decide_eq_false_2 (trip_end_dt trip < now env)) by lia.
  - intros (Hact & Hfree & Hown & Hend & Hex) n Hn.
    apply elem_of_seat_buttons in Hn as [Hn1 Hn2].
    unfold handle_callback. rewrite Ht, Hact, Hex. simpl.
    rewrite (bool_decide_eq_false_2 (seats_available trip ≤ 0)) by lia.
    rewrite (bool_decide_eq_false_2 _ Hown).
    split; intros Hdate.
    + rewrite (bool_decide_eq_false_2 (date trip < now env)) by lia.
      rewrite (bool_decide_eq_false_2 (n < 1)) by lia.
      rewrite (bool_decide_eq_false_2 (n > seats_available trip)) by lia.
      done.
    + by rewrite (bool_decide_eq_true_2 (date trip < now env)) by done.
Qed.

(** Before the departure of the three-seat trip the keyboard is offered
    and three seats are accepted; on the trip under way the keyboard is
    offered as well and two seats are refused as a past trip. *)
Lemma offered_quantity_is_bookable_witness :
  let env := Sample.env_at Sample.t_noon in
  (out_reply (book_step env Sample.db_empty 1 Sample.alice)
   = ReplySeatKeyboard [1; 2; 3] ∧
   out_reply (handle_callback env Sample.db_empty 1 3 Sample.alice)
   = ReplyRequestSent 1) ∧
  (out_reply (book_step env db_under_way 1 Sample.alice)
   = ReplySeatKeyboard [1; 2; 3] ∧
   handle_callback env db_under_way 1 2 Sample.alice
   = unchanged db_under_way ReplyPastTrip).
Proof.
  intros env. split.
  - destruct (offered_quantity_is_bookable env Sample.db_empty 1 Sample.alice
                Sample.trip3 eq_refl) as [Hkb Hqty].
    assert (book_guards env Sample.db_empty 1 Sample.alice Sample.trip3)
      as Hguards by (repeat split; vm_compute; done).
    split; [by apply Hkb|].
    apply (Hqty Hguards 3).
    + apply elem_of_seat_buttons. vm_compute. repeat split; discriminate.
    + vm_compute. discriminate.
  - destruct (offered_quantity_is_bookable env db_under_way 1 Sample.alice
                trip_under_way eq_refl) as [Hkb Hqty].
    assert (book_guards env db_under_way 1 Sample.alice trip_under_way)
      as Hguards by (repeat split; vm_compute; done).
    split; [by apply Hkb|].
    apply (Hqty Hguards 2).
    + apply elem_of_seat_buttons. vm_compute. repeat split; discriminate.
    + vm_compute. reflexivity.
Defined.

(* ================================================================== *)
(** ** Leaving a trip *)
(* ================================================================== *)

(** X10.  When the passenger of a [PENDING] or [CONFIRMED] booking on an
    active trip leaves the trip, the booking ends [CANCELLED].  Before
    the departure time its seats go back to the trip, so the sum of free
    and held seats is kept, and the driver is notified; from the
    departure time on the seats are not given back, the sum drops by the
    booked seats and nobody is notified. *)
Theorem exit_trip_seat_accounting env db id b trip :
  bookings db !! id = Some b →
  booking_trip db b = Some trip →
  is_active trip = true →
  in_pending_confirmed (status b) = true →
  let o := exit_trip env db id (passenger_id b) in
  status <$> bookings (out_db o) !! id = Some CANCELLED ∧
  (now env < date trip →
   total_seats (out_db o) (trip_id b) = total_seats db (trip_id b) ∧
   out_notes o = [NotifyDriverBookingCancelled id]) ∧
  (date trip ≤ now env →
   total_seats (out_db o) (trip_id b)
   = (λ n, n - seats_booked b) <$> total_seats db (trip_id b) ∧
   out_notes o = []).
Proof.
  intros Hb Ht Hact Hs o. subst o. unfold exit_trip.
  rewrite Hb, Ht, Hact.
  rewrite (bool_decide_eq_false_2 (passenger_id b ≠ passenger_id b))
    by (intros H; by apply H).
  simpl. split; [|split]; intros.
  - case_bool_decide; simpl; by rewrite lookup_insert_eq.
  - rewrite (bool_decide_eq_true_2 (date trip > now env)) by lia.
    simpl. split; [|done].
    apply seats_follow_total_seats.
    pose proof (seats_follow_release db id b CANCELLED Hb Hs eq_refl) as Hf.
    by rewrite Ht in Hf.
  - rewrite (bool_decide_eq_false_2 (date trip > now env)) by lia.
    simpl. split; [|done].
    unfold total_seats. simpl. unfold booking_trip in Ht. rewrite Ht. simpl.
    f_equal. rewrite (total_booked_update _ _ _ _ _ Hb).
    unfold held. simpl. rewrite Hs.
    rewrite (bool_decide_eq_true_2 (trip_id b = trip_id b)) by done.
    simpl. lia.
Qed.

(** Alice leaves the confirmed sample booking five minutes after noon. *)
Lemma exit_trip_seat_accounting_witness :
  let env := Sample.env_at (Sample.t_noon + Sample.minutes 5) in
  total_seats (out_db (exit_trip env Sample.db_confirmed 1 Sample.alice)) 1
  = total_seats Sample.db_confirmed 1.
Proof.
  intros env.
  destruct (exit_trip_seat_accounting env Sample.db_confirmed 1
              (mkBooking 1 Sample.alice 2 (DtDatetime Sample.t_noon) CONFIRMED)
              (mkTrip Sample.driver (Sample.t_noon + Sample.minutes 120)
                      None 1 true))
    as (_ & Hbefore & _);
    [reflexivity | reflexivity | reflexivity | reflexivity |].
  apply Hbefore. vm_compute. reflexivity.
Defined.

(* ================================================================== *)
(** ** The two seat editors *)
(* ================================================================== *)

Lemma _trip_has_confirmed_bookings_spec db tid :
  _trip_has_confirmed_bookings db tid = true ↔
  ∃ k b, bookings db !! k = Some b ∧ trip_id b = tid ∧ status b = CONFIRMED.
Proof.
  unfold _trip_has_confirmed_bookings. rewrite bool_decide_eq_true.
  remember (query_all (λ b, bool_decide (trip_id b = tid)
                            && bool_decide (status b = CONFIRMED))
                      (bookings db)) as l eqn:Hl.
  assert (∀ k b, (k, b) ∈ l ↔
                 bookings db !! k = Some b ∧ trip_id b = tid
                 ∧ status b = CONFIRMED) as Hin.
  { intros k b. rewrite Hl, elem_of_query_all.
    rewrite andb_true_iff, !bool_decide_eq_true. tauto. }
  clear Hl. split.
  - destruct l as [|[k b] l]; simpl; [lia|]. intros _.
    exists k, b. apply Hin. left.
  - intros (k & b & Hkb). apply Hin in Hkb.
    destruct l; simpl; [|lia]. by apply elem_of_nil in Hkb.
Qed.

Lemma total_seats_set db tid trip m :
  total_seats (mkDB (<[tid := set_seats_available trip m]> (trips db))
                    (bookings db)) tid
  = Some (m + total_booked (bookings db) tid).
Proof. unfold total_seats. simpl. by rewrite lookup_insert_eq. Qed.

(** X11.  When [handle_edit_input] accepts a typed number of seats, that
    number is at least 1 and becomes the trip's capacity: the free seats
    are set to the typed number less the seats held by [PENDING] and
    [CONFIRMED] bookings, which is not negative; no booking changes, and
    free plus held seats stay at the typed number along every later run
    of the reservation callbacks without a trip cancellation. *)
Theorem typed_seats_become_capacity env db tid v u db' :
  handle_edit_input_seats env db (Some tid) v u = (db', EditMenu) →
  ∃ seats t',
    v = Some seats ∧ 1 ≤ seats ∧
    bookings db' = bookings db ∧
    trips db' !! tid = Some t' ∧ 0 ≤ seats_available t' ∧
    total_seats db' tid = Some seats ∧
    ∀ cs, no_trip_cancel cs → total_seats (run db' cs) tid = Some seats.
Proof.
  unfold handle_edit_input_seats. intros Hrun.
  case_bool_decide as Hz; [done|].
  destruct (trips db !! tid) as [trip|] eqn:Ht; [|done].
  case_bool_decide as Hdrv; [done|].
  case_bool_decide as Hpast; [done|].
  destruct (_trip_has_confirmed_bookings db tid); [done|].
  destruct v as [seats|]; [|done].
  case_bool_decide as Hpos; [done|].
  case_bool_decide as Hless; [done|].
  injection Hrun as <-.
  exists seats, (set_seats_available trip
                   (seats - total_booked (bookings db) tid)).
  assert (total_seats
            (mkDB (<[tid := set_seats_available trip
                              (seats - total_booked (bookings db) tid)]>
                     (trips db)) (bookings db)) tid = Some seats) as Htot.
  { rewrite total_seats_set. f_equal. lia. }
  repeat split; simpl; try done; try lia.
  - by rewrite lookup_insert_eq.
  - intros cs Hcs. by rewrite run_total_seats.
Qed.

(** The driver types 4 for the sample trip, on which two seats are held. *)
Lemma typed_seats_become_capacity_witness :
  ∃ db', total_seats db' 1 = Some 4 ∧ bookings db' = bookings Sample.db_pending.
Proof.
  destruct (typed_seats_become_capacity (Sample.env_at Sample.t_noon)
              Sample.db_pending 1 (Some 4) Sample.driver
              (handle_edit_input_seats (Sample.env_at Sample.t_noon)
                 Sample.db_pending (Some 1) (Some 4) Sample.driver).1)
    as (seats & t' & Hv & _ & Hb & _ & _ & Htot & _); [reflexivity|].
  injection Hv as <-. eexists. split; [exact Htot | exact Hb].
Defined.

(** X12.  When the [edit_seats_pick_] button is accepted, the picked
    number (between 1 and 5) becomes the trip's free seats as it is: no
    booking changes, every booking that holds seats on the trip is
    [PENDING], and free plus held seats become the picked number plus the
    seats those bookings hold. *)
Theorem picked_seats_are_free_seats env db tid n u db' :
  edit_seats_pick env db tid n u = (db', EditMenu) →
  1 ≤ n ≤ 5 ∧
  bookings db' = bookings db ∧
  (∃ trip, trips db !! tid = Some trip ∧ driver_id trip = u ∧
           is_active trip = true ∧
           trips db' = <[tid := set_seats_available trip n]> (trips db)) ∧
  total_seats db' tid = Some (n + total_booked (bookings db) tid) ∧
  ∀ k b, bookings db !! k = Some b → held tid b ≠ 0 → status b = PENDING.
Proof.
  unfold edit_seats_pick. intros Hrun.
  destruct (bool_decide (n < 1) || bool_decide (n > 5)) eqn:Hn; [done|].
  apply orb_false_iff in Hn as [Hn1 Hn5].
  apply bool_decide_eq_false in Hn1, Hn5.
  destruct (trips db !! tid) as [trip|] eqn:Ht; [|done].
  destruct (is_active trip) eqn:Hact; simpl in Hrun; [|done].
  case_bool_decide as Hdrv; [done|].
  case_bool_decide as Hpast; [done|].
  destruct (_trip_has_confirmed_bookings db tid) eqn:Hconf; [done|].
  injection Hrun as <-.
  split; [lia|]. split; [done|]. split; [|split].
  - exists trip. by repeat split.
  - apply total_seats_set.
  - intros k b Hb Hheld. unfold held in Hheld.
    case_bool_decide as Htid; simpl in Hheld; [|done].
    destruct (status b) eqn:Hs; simpl in Hheld; try done.
    assert (_trip_has_confirmed_bookings db tid = true) as Hyes;
      [|congruence].
    apply _trip_has_confirmed_bookings_spec. by exists k, b.
Qed.

(** The driver picks 3 for the sample trip, on which two seats are held. *)
Lemma picked_seats_are_free_seats_witness :
  ∃ db', total_seats db' 1 = Some 5 ∧ bookings db' = bookings Sample.db_pending.
Proof.
  destruct (picked_seats_are_free_seats (Sample.env_at Sample.t_noon)
              Sample.db_pending 1 3 Sample.driver
              (edit_seats_pick (Sample.env_at Sample.t_noon)
                 Sample.db_pending 1 3 Sample.driver).1)
    as (_ & Hb & _ & Htot & _); [reflexivity|].
  eexists. split; [exact Htot | exact Hb].
Defined.

Lemma edit_seats_pick_seats_set env db tid n u :
  seats_set db (edit_seats_pick env db tid n u).1.
Proof.
  unfold edit_seats_pick.
  destruct (bool_decide (n < 1) || bool_decide (n > 5)) eqn:Hn; [by left|].
  apply orb_false_iff in Hn as [Hn1 _]. apply bool_decide_eq_false in Hn1.
  destruct (trips db !! tid) as [trip|] eqn:Ht; [|by left].
  repeat (case_match; try (by left)).
  right. exists tid, trip, n. repeat split; [done | lia].
Qed.

Lemma handle_edit_input_seats_seats_set env db etid v u :
  seats_set db (handle_edit_input_seats env db etid v u).1.
Proof.
  unfold handle_edit_input_seats.
  destruct etid as [tid|]; [|by left].
  case_bool_decide; [by left|].
  destruct (trips db !! tid) as [trip|] eqn:Ht; [|by left].
  case_bool_decide; [by left|]. case_bool_decide; [by left|].
  destruct (_trip_has_confirmed_bookings db tid); [by left|].
  destruct v as [seats|]; [|by left].
  case_bool_decide; [by left|]. case_bool_decide as Hless; [by left|].
  right. exists tid, trip, (seats - total_booked (bookings db) tid).
  repeat split; [done | lia].
Qed.

Lemma seats_set_invariants db db' :
  seats_set db db' →
  (seats_sane db → seats_sane db') ∧
  (no_dangling db → no_dangling db') ∧
  (one_active_per_pair db → one_active_per_pair db').
Proof.
  intros [->|(tid & trip & m & Ht & Hm & ->)]; [done|].
  split; [|split].
  - intros [Hts Hbs]. split; [|exact Hbs]. simpl. intros tid' t.
    destruct (decide (tid' = tid)) as [->|Hne].
    + rewrite lookup_insert_eq. intros [= <-]. done.
    + rewrite lookup_insert_ne by done. apply Hts.
  - intros Hd k b Hb. simpl in *.
    destruct (decide (trip_id b = tid)) as [->|Hne].
    + rewrite lookup_insert_eq. by eexists.
    + rewrite lookup_insert_ne by done. exact (Hd k b Hb).
  - done.
Qed.

(** X13.  The two seat editors keep the invariants of the reservation
    engine, whatever they are given: free seats stay non-negative and
    booked seats positive, every booking still points to a trip, and
    there is still at most one [PENDING] or [CONFIRMED] booking per trip
    and passenger. *)
Theorem seat_editors_keep_invariants env db tid n etid v u :
  seats_sane db → no_dangling db → one_active_per_pair db →
  let db1 := (edit_seats_pick env db tid n u).1 in
  let db2 := (handle_edit_input_seats env db etid v u).1 in
  (seats_sane db1 ∧ no_dangling db1 ∧ one_active_per_pair db1) ∧
  (seats_sane db2 ∧ no_dangling db2 ∧ one_active_per_pair db2).
Proof.
  intros Hs Hd Ho db1 db2.
  destruct (seats_set_invariants db db1
              (edit_seats_pick_seats_set env db tid n u)) as (?&?&?).
  destruct (seats_set_invariants db db2
              (handle_edit_input_seats_seats_set env db etid v u)) as (?&?&?).
  split; (split; [|split]); auto.
Qed.

(** Both editors on the fresh three-seat trip. *)
Lemma seat_editors_keep_invariants_witness :
  let env := Sample.env_at Sample.t_noon in
  seats_sane (edit_seats_pick env Sample.db_empty 1 3 Sample.driver).1 ∧
  seats_sane (handle_edit_input_seats env Sample.db_empty (Some 1) (Some 4)
                                      Sample.driver).1.
Proof.
  intros env.
  destruct (seat_editors_keep_invariants env Sample.db_empty 1 3 (Some 1)
              (Some 4) Sample.driver) as [(H1 & _) (H2 & _)].
  - apply seats_sane_db_empty.
  - intros k b Hb. simpl in Hb. by rewrite lookup_empty in Hb.
  - intros k1 k2 b1 b2 Hb. simpl in Hb. by rewrite lookup_empty in Hb.
  - by split.
Defined.

(* ================================================================== *)
(** ** Removing old trips *)
(* ================================================================== *)

Lemma cleanup_fold l : ∀ db,
  trips (foldl cleanup_one db l)
  = filter (λ kt, kt.1 ∉ l.*1) (trips db) ∧
  bookings (foldl cleanup_one db l)
  = filter (λ kb, trip_id kb.2 ∉ l.*1) (bookings db).
Proof.
  induction l as [|[id t] l IH]; intros db; simpl.
  - split; symmetry; apply map_filter_id; intros; apply not_elem_of_nil.
  - destruct (IH (cleanup_one db (id, t))) as [-> ->]. simpl. split.
    + apply map_eq. intros i. apply option_eq. intros x.
      rewrite !map_lookup_filter_Some, lookup_delete_Some.
      simpl. rewrite not_elem_of_cons. intuition congruence.
    + apply map_eq. intros i. apply option_eq. intros x.
      rewrite !map_lookup_filter_Some. simpl.
      rewrite not_elem_of_cons. intuition congruence.
Qed.

Lemma elem_of_old_trips env ts id :
  id ∈ (old_trips env ts).*1 ↔ ∃ t, ts !! id = Some t ∧ is_old env t = true.
Proof.
  unfold old_trips. rewrite list_elem_of_fmap. split.
  - intros ([i t] & -> & Hin). apply list_elem_of_filter in Hin as [Ho Hin].
    apply elem_of_map_to_list in Hin. by exists t.
  - intros (t & Ht & Ho). exists (id, t). split; [done|].
    apply list_elem_of_filter. split; [done|]. by apply elem_of_map_to_list.
Qed.

(** The tables that [cleanup_old_trips] leaves, as filters of the old
    ones. *)
Lemma cleanup_old_trips_tables env db :
  trips (cleanup_old_trips env db)
  = filter (λ kt, is_old env kt.2 = false) (trips db) ∧
  bookings (cleanup_old_trips env db)
  = filter (λ kb, survives env db kb.2 = true) (bookings db).
Proof.
  unfold cleanup_old_trips.
  destruct (cleanup_fold (old_trips env (trips db)) db) as [-> ->]. split.
  - apply map_eq. intros i. apply option_eq. intros x.
    rewrite !map_lookup_filter_Some. simpl.
    rewrite elem_of_old_trips. split.
    + intros [Hx Hno]. split; [done|].
      destruct (is_old env x) eqn:Ho; [|done]. destruct Hno. by exists x.
    + intros [Hx Ho]. split; [done|]. intros (t & Ht & Hot). congruence.
  - apply map_eq. intros i. apply option_eq. intros x.
    rewrite !map_lookup_filter_Some. simpl.
    rewrite elem_of_old_trips. unfold survives. split.
    + intros [Hx Hno]. split; [done|].
      destruct (trips db !! trip_id x) as [t|]; [|done].
      destruct (is_old env t) eqn:Ho; [|done]. destruct Hno. by exists t.
    + intros [Hx Hs]. split; [done|]. intros (t & Ht & Hot).
      rewrite Ht, Hot in Hs. done.
Qed.

(** X14.  [cleanup_old_trips] removes exactly the trips whose end (or
    start, when there is no end) lies more than seven days before now,
    together with all their bookings, whatever their status; every other
    trip and every booking of another trip is kept as it is. *)
Theorem cleanup_old_trips_spec env db :
  (∀ tid,
     trips (cleanup_old_trips env db) !! tid
     = match trips db !! tid with
       | Some t => if is_old env t then None else Some t
       | None => None
       end) ∧
  (∀ k,
     bookings (cleanup_old_trips env db) !! k
     = match bookings db !! k with
       | Some b =>
           match trips db !! trip_id b with
           | Some t => if is_old env t then None else Some b
           | None => Some b
           end
       | None => None
       end).
Proof.
  destruct (cleanup_old_trips_tables env db) as [-> ->]. split.
  - intros tid. rewrite map_lookup_filter.
    destruct (trips db !! tid) as [t|]; simpl; [|done].
    by destruct (is_old env t).
  - intros k. rewrite map_lookup_filter.
    destruct (bookings db !! k) as [b|]; simpl; [|done].
    unfold survives.
    destruct (trips db !! trip_id b) as [t|]; simpl; [|done].
    by destruct (is_old env t).
Qed.

Lemma total_booked_filter (P : Z * Booking → Prop)
    `{!∀ kb, Decision (P kb)} (bs : gmap Z Booking) tid :
  (∀ k b, bs !! k = Some b → ¬ P (k, b) → held tid b = 0) →
  total_booked (filter P bs) tid = total_booked bs tid.
Proof.
  induction bs as [|i x m Hi IH] using map_ind; intros Hall.
  - by rewrite map_filter_empty.
  - assert (total_booked (filter P m) tid = total_booked m tid) as IH'.
    { apply IH. intros k b Hk. apply Hall.
      rewrite lookup_insert_ne; [done|]. intros ->. congruence. }
    rewrite (total_booked_insert_new m) by done.
    destruct (decide (P (i, x))) as [Hp|Hp].
    + rewrite map_filter_insert_True by done.
      rewrite total_booked_insert_new; [by rewrite IH'|].
      rewrite map_lookup_filter_None. by left.
    + rewrite map_filter_insert_False, delete_id by done.
      rewrite IH', (Hall i x); [lia | apply lookup_insert_eq | done].
Qed.

(** X15.  [cleanup_old_trips] keeps the invariants of the reservation
    engine: free seats stay non-negative and booked seats positive, every
    remaining booking points to a remaining trip, and there is at most
    one [PENDING] or [CONFIRMED] booking per trip and passenger. *)
Theorem cleanup_old_trips_keeps_invariants env db :
  seats_sane db → no_dangling db → one_active_per_pair db →
  seats_sane (cleanup_old_trips env db) ∧
  no_dangling (cleanup_old_trips env db) ∧
  one_active_per_pair (cleanup_old_trips env db).
Proof.
  intros [Hts Hbs] Hd Ho.
  destruct (cleanup_old_trips_tables env db) as [Ht Hb].
  split; [split|split].
  - intros tid t. rewrite Ht, map_lookup_filter_Some. intros [Hx _].
    by apply (Hts tid).
  - intros k b. rewrite Hb, map_lookup_filter_Some. intros [Hx _].
    by apply (Hbs k).
  - intros k b. rewrite Hb, map_lookup_filter_Some. simpl.
    intros [Hx Hs]. unfold survives in Hs.
    destruct (Hd k b Hx) as [t Htrip]. rewrite Htrip in Hs.
    exists t. rewrite Ht, map_lookup_filter_Some. simpl. split; [done|].
    by destruct (is_old env t).
  - intros k1 k2 b1 b2. rewrite Hb, !map_lookup_filter_Some.
    intros [H1 _] [H2 _]. by apply Ho.
Qed.

Lemma db_pending_trips :
  trips Sample.db_pending
  = {[ 1 := mkTrip Sample.driver (Sample.t_noon + Sample.minutes 120)
                   None 1 true ]}.
Proof. vm_compute. reflexivity. Qed.

Lemma db_pending_invariants :
  seats_sane Sample.db_pending ∧
  no_dangling Sample.db_pending ∧
  one_active_per_pair Sample.db_pending.
Proof.
  split; [split|split].
  - intros tid t. rewrite db_pending_trips.
    intros [_ <-]%lookup_singleton_Some. simpl. lia.
  - intros k b. rewrite db_pending_bookings.
    intros [_ <-]%lookup_singleton_Some. simpl. lia.
  - intros k b. rewrite db_pending_bookings, db_pending_trips.
    intros [_ <-]%lookup_singleton_Some. simpl.
    rewrite lookup_singleton_eq. by eexists.
  - intros k1 k2 b1 b2. rewrite db_pending_bookings.
    intros [<- _]%lookup_singleton_Some [<- _]%lookup_singleton_Some. done.
Qed.

(** The sample trip with its pending booking, looked at three days after
    noon: the trip and the booking are kept, and the booking points to
    the trip. *)
Lemma cleanup_old_trips_keeps_invariants_witness :
  let db' := cleanup_old_trips
               (Sample.env_at (Sample.t_noon + timedelta_days 3))
               Sample.db_pending in
  is_Some (bookings db' !! 1) ∧
  seats_sane db' ∧ no_dangling db' ∧ one_active_per_pair db'.
Proof.
  intros db'. split.
  - eexists. vm_compute. reflexivity.
  - destruct db_pending_invariants as (Hs & Hd & Ho).
    exact (cleanup_old_trips_keeps_invariants
             (Sample.env_at (Sample.t_noon + timedelta_days 3))
             Sample.db_pending Hs Hd Ho).
Defined.

(** X16.  For a trip that [cleanup_old_trips] keeps, the sum of its free
    and held seats is what it was; for a trip it removes there is no such
    sum any more, and no booking of that trip is left. *)
Theorem cleanup_old_trips_total_seats env db tid t :
  trips db !! tid = Some t →
  (is_old env t = false →
   total_seats (cleanup_old_trips env db) tid = total_seats db tid) ∧
  (is_old env t = true →
   total_seats (cleanup_old_trips env db) tid = None ∧
   ∀ k b, bookings (cleanup_old_trips env db) !! k = Some b →
          trip_id b ≠ tid).
Proof.
  intros Htid. destruct (cleanup_old_trips_tables env db) as [Ht Hb].
  split; intros Hold.
  - unfold total_seats. rewrite Ht, Hb.
    rewrite (map_lookup_filter_Some_2 _ _ tid t) by done.
    rewrite Htid. simpl. f_equal. f_equal.
    apply total_booked_filter. intros k b Hk Hs. simpl in Hs.
    unfold held. case_bool_decide as Hsame; [|done].
    destruct Hs. unfold survives. by rewrite Hsame, Htid, Hold.
  - split.
    + unfold total_seats. rewrite Ht.
      rewrite (proj2 (map_lookup_filter_None _ _ tid)); [done|].
      right. intros x Hx. simpl. congruence.
    + intros k b. rewrite Hb, map_lookup_filter_Some. simpl.
      intros [_ Hs] Hsame. unfold survives in Hs.
      by rewrite Hsame, Htid, Hold in Hs.
Qed.

(** The pending sample booking, three days and ten days after noon. *)
Lemma cleanup_old_trips_total_seats_witness :
  total_seats (cleanup_old_trips
                 (Sample.env_at (Sample.t_noon + timedelta_days 3))
                 Sample.db_pending) 1 = Some 3 ∧
  total_seats (cleanup_old_trips
                 (Sample.env_at (Sample.t_noon + timedelta_days 10))
                 Sample.db_pending) 1 = None.
Proof.
  split.
  - destruct (cleanup_old_trips_total_seats
                (Sample.env_at (Sample.t_noon + timedelta_days 3))
                Sample.db_pending 1
                (mkTrip Sample.driver (Sample.t_noon + Sample.minutes 120)
                        None 1 true) eq_refl) as [H _].
    rewrite H; reflexivity.
  - destruct (cleanup_old_trips_total_seats
                (Sample.env_at (Sample.t_noon + timedelta_days 10))
                Sample.db_pending 1
                (mkTrip Sample.driver (Sample.t_noon + Sample.minutes 120)
                        None 1 true) eq_refl) as [_ H].
    apply H. reflexivity.
Defined.

(* ================================================================== *)
(** ** From the keyboards to the branches of [button_callback] *)
(* ================================================================== *)

Lemma str_split_uint d :
  str_split (DecimalString.NilEmpty.string_of_uint d)
  = [DecimalString.NilEmpty.string_of_uint d].
Proof. induction d; simpl; [done | by rewrite IHd ..]. Qed.

(** A number written by [str] has no underscore in it. *)
Lemma str_split_str n : str_split (str n) = [str n].
Proof.
  unfold str, DecimalString.NilZero.string_of_int.
  assert (∀ d, str_split (DecimalString.NilZero.string_of_uint d)
               = [DecimalString.NilZero.string_of_uint d]) as Hd.
  { intros d. unfold DecimalString.NilZero.string_of_uint.
    destruct d; try apply str_split_uint. done. }
  destruct (Z.to_int n) as [d|d]; [apply Hd|].
  simpl. by rewrite Hd.
Qed.

Lemma str_split_nonempty s : str_split s ≠ [].
Proof.
  destruct s as [|c r]; simpl; [done|].
  destruct (Ascii.eqb c "_"); [done|]. by destruct (str_split r).
Qed.

(** Splitting at an underscore between two texts. *)
Lemma str_split_app a b :
  str_split (a +:+ String "_" b) = str_split a ++ str_split b.
Proof.
  induction a as [|c r IH]; simpl; [done|].
  rewrite IH. destruct (Ascii.eqb c "_"); [done|].
  pose proof (str_split_nonempty r). by destruct (str_split r).
Qed.

(** A number written by [str] starts with a digit or a minus sign. *)
Lemma str_head n :
  ∃ c r, str n = String c r ∧
         c ∈ ["0"; "1"; "2"; "3"; "4"; "5"; "6"; "7"; "8"; "9"; "-"]%char.
Proof.
  unfold str, DecimalString.NilZero.string_of_int,
    DecimalString.NilZero.string_of_uint.
  destruct (Z.to_int n) as [d|d]; [|eexists _, _; split; [done|set_solver]].
  destruct d; simpl; eexists _, _; (split; [done|set_solver]).
Qed.

Section dispatch_lemmas.

Context (int : string → option Z) (isdigit : string → bool).
Hypothesis int_str : ∀ n, int (str n) = Some n.

Ltac first_match_is b :=
  match goal with
  | |- context [first_match isdigit ?d] =>
      assert (first_match isdigit d = Some b) as ->
        by (vm_compute; reflexivity)
  end.

Ltac split_literal :=
  cbv beta iota fix delta [String.append]; simpl.

Ltac one_number id :=
  unfold route, int_part;
  pose proof (str_split_str id) as Hs; pose proof (int_str id) as Hi;
  generalize dependent (str id); intros s Hs Hi.

Lemma route_confirm_booking id u :
  route int isdigit ("confirm_booking_" +:+ str id) u
  = RunCommand (ConfirmBooking id u).
Proof.
  one_number id. first_match_is BrConfirmBooking.
  split_literal. rewrite Hs. simpl. by rewrite Hi.
Qed.

Lemma route_reject_booking id u :
  route int isdigit ("reject_booking_" +:+ str id) u
  = RunCommand (RejectBooking id u).
Proof.
  one_number id. first_match_is BrRejectBooking.
  split_literal. rewrite Hs. simpl. by rewrite Hi.
Qed.

Lemma route_confirm_cancel id u :
  route int isdigit ("confirm_cancel_" +:+ str id) u
  = RunCommand (ConfirmCancel id u).
Proof.
  one_number id. first_match_is BrConfirmCancel.
  split_literal. rewrite Hs. simpl. by rewrite Hi.
Qed.

Lemma route_confirm_driver_cancel id u :
  route int isdigit ("confirm_driver_cancel_" +:+ str id) u
  = RunCommand (ConfirmDriverCancel id u).
Proof.
  one_number id. first_match_is BrConfirmDriverCancel.
  split_literal. rewrite Hs. simpl. by rewrite Hi.
Qed.

Lemma route_exit_trip id u :
  route int isdigit ("exit_trip_" +:+ str id) u = RunExitTrip id u.
Proof.
  one_number id. first_match_is BrExitTrip.
  split_literal. rewrite Hs. simpl. by rewrite Hi.
Qed.

Ltac two_numbers a b :=
  unfold route, int_part, trigger_part;
  pose proof (str_split_str a) as Hsa; pose proof (int_str a) as Hia;
  pose proof (str_split_str b) as Hsb; pose proof (int_str b) as Hib;
  change ("_" +:+ str b) with (String "_" (str b));
  generalize dependent (str b); intros sb Hsb Hib;
  generalize dependent (str a); intros sa Hsa Hia.

Ltac split_two sa sb :=
  let rest := fresh "rest" in
  remember (sa +:+ String "_" sb) as rest eqn:Hrest;
  split_literal; subst rest;
  rewrite str_split_app;
  repeat match goal with H : str_split _ = _ |- _ => rewrite H end;
  simpl.

Lemma route_book_qty tid n u :
  route int isdigit ("book_qty_" +:+ str tid +:+ "_" +:+ str n) u
  = RunCommand (BookQty tid n u).
Proof.
  two_numbers tid n. first_match_is BrBookingModule.
  split_two sa sb. by rewrite Hia, Hib.
Qed.

Lemma route_confirm_trip_cancel tid trigger_id u :
  route int isdigit
        ("confirm_trip_cancel_" +:+ str tid +:+ "_" +:+ str trigger_id) u
  = RunCommand (ConfirmTripCancel tid u).
Proof.
  two_numbers tid trigger_id. first_match_is BrConfirmTripCancel.
  split_two sa sb. rewrite Hia, Hib. by destruct (isdigit sb).
Qed.

Lemma route_edit_seats_pick tid n u :
  route int isdigit ("edit_seats_pick_" +:+ str tid +:+ "_" +:+ str n) u
  = RunEditSeatsPick tid n u.
Proof.
  two_numbers tid n. first_match_is BrEditSeatsPick.
  split_two sa sb. by rewrite Hia, Hib.
Qed.

Lemma route_book tid u :
  route int isdigit ("book_" +:+ str tid) u = RunBookStep tid u.
Proof.
  unfold route, int_part.
  pose proof (str_split_str tid) as Hs. pose proof (int_str tid) as Hi.
  destruct (str_head tid) as (c & r & Hhead & Hc).
  generalize dependent (str tid). intros s Hs Hi ->.
  assert (first_match isdigit ("book_" +:+ String c r) = Some BrBook) as ->.
  { repeat (apply elem_of_cons in Hc as [->|Hc]);
      [vm_compute; reflexivity .. | by apply elem_of_nil in Hc]. }
  remember (String c r) as s eqn:Heqs.
  split_literal. rewrite Hs. simpl. by rewrite Hi.
Qed.

End dispatch_lemmas.

Lemma int_decimal_str n : int_decimal (str n) = Some n.
Proof.
  unfold int_decimal, str. rewrite DecimalString.NilZero.isi.
  - simpl. f_equal. apply DecimalZ.of_to.
  - destruct n as [|p|p]; simpl; try done.
    intros [= H]. by apply DecimalPos.Unsigned.to_uint_nonnil in H.
  - destruct n as [|p|p]; simpl; try done.
    intros [= H]. by apply DecimalPos.Unsigned.to_uint_nonnil in H.
Qed.

(** X17.  The callback data that the keyboards attach to the buttons of
    the six reservation callbacks reaches the branch of its callback: no
    earlier test of [button_callback] takes it, and the branch reads back
    the ids the data was built from ([int] reading what [str] writes). *)
Theorem callback_data_reaches_its_branch int isdigit c trigger_id data :
  (∀ n, int (str n) = Some n) →
  callback_data c trigger_id = Some data →
  route int isdigit data (from_user_of c) = RunCommand c.
Proof.
  intros Hint Hdata. destruct c; simpl in Hdata; try done;
    injection Hdata as <-; simpl.
  - by apply route_book_qty.
  - by apply route_confirm_booking.
  - by apply route_reject_booking.
  - by apply route_confirm_cancel.
  - by apply route_confirm_driver_cancel.
  - by apply route_confirm_trip_cancel.
Qed.

(** The confirm button of booking 12. *)
Lemma callback_data_reaches_its_branch_witness :
  route int_decimal (λ _, true) "confirm_booking_12" Sample.driver
  = RunCommand (ConfirmBooking 12 Sample.driver).
Proof.
  apply (callback_data_reaches_its_branch int_decimal (λ _, true)
           (ConfirmBooking 12 Sample.driver) 0 "confirm_booking_12").
  - exact int_decimal_str.
  - reflexivity.
Defined.

(** X18.  The callback data of the three other modelled buttons reaches
    its branch as well: [exit_trip_{id}] the leave-trip branch,
    [book_{trip_id}] the first booking step (and not the branch of
    [booking_module], whose tests it fails), and
    [edit_seats_pick_{trip_id}_{n}] the seat picker (and not the
    [edit_seats_] branch, which is tested after it). *)
Theorem other_callback_data_reach_their_branches int isdigit id tid n u :
  (∀ n, int (str n) = Some n) →
  route int isdigit ("exit_trip_" +:+ str id) u = RunExitTrip id u ∧
  route int isdigit ("book_" +:+ str tid) u = RunBookStep tid u ∧
  route int isdigit ("edit_seats_pick_" +:+ str tid +:+ "_" +:+ str n) u
  = RunEditSeatsPick tid n u.
Proof.
  intros Hint. split; [|split].
  - by apply route_exit_trip.
  - by apply route_book.
  - by apply route_edit_seats_pick.
Qed.

(** The three buttons for booking 12, trip 3 and four seats. *)
Lemma other_callback_data_reach_their_branches_witness :
  route int_decimal (λ _, true) "exit_trip_12" Sample.alice
  = RunExitTrip 12 Sample.alice ∧
  route int_decimal (λ _, true) "book_3" Sample.alice
  = RunBookStep 3 Sample.alice ∧
  route int_decimal (λ _, true) "edit_seats_pick_3_4" Sample.driver
  = RunEditSeatsPick 3 4 Sample.driver.
Proof.
  destruct (other_callback_data_reach_their_branches int_decimal (λ _, true)
              12 3 4 Sample.alice int_decimal_str) as (H1 & H2 & _).
  destruct (other_callback_data_reach_their_branches int_decimal (λ _, true)
              12 3 4 Sample.driver int_decimal_str) as (_ & _ & H3).
  split; [exact H1 | split; [exact H2 | exact H3]].
Defined.

(* ================================================================== *)
(** ** The cancellation dialogue of the passenger *)
(* ================================================================== *)

Lemma total_seats_cancelled db id b trip :
  bookings db !! id = Some b →
  booking_trip db b = Some trip →
  total_seats
    (mkDB (add_seats (trips db) (trip_id b) trip (seats_booked b))
          (<[id := set_status b CANCELLED]> (bookings db))) (trip_id b)
  = (λ n, n + (seats_booked b - held (trip_id b) b))
      <$> total_seats db (trip_id b).
Proof.
  intros Hb Ht. unfold total_seats, add_seats. simpl.
  unfold booking_trip in Ht. rewrite lookup_insert_eq, Ht. simpl. f_equal.
  rewrite (total_booked_update _ _ _ _ _ Hb).
  assert (held (trip_id b) (set_status b CANCELLED) = 0) as ->.
  { unfold held. simpl. by rewrite andb_false_r. }
  lia.
Qed.

Lemma typed_yes_twice_helper env db id text b trip :
  text ∈ yes_words →
  bookings db !! id = Some b →
  booking_trip db b = Some trip →
  in_pending_confirmed (status b) = false →
  total_seats
    (said_db (handle_message_cancelling env db (Some id) text
                                        (passenger_id b))) (trip_id b)
  = (λ n, n + seats_booked b) <$> total_seats db (trip_id b) ∧
  said_notes (handle_message_cancelling env db (Some id) text
                                        (passenger_id b))
  = [NotifyDriverBookingCancelled id].
Proof.
  intros Hyes Hb Ht Hs. unfold handle_message_cancelling.
  rewrite (bool_decide_eq_true_2 _ Hyes), Hb, Ht.
  rewrite (bool_decide_eq_true_2 (passenger_id b = passenger_id b)) by done.
  simpl. split; [|done].
  rewrite (total_seats_cancelled db id b trip Hb Ht).
  unfold held. rewrite Hs, andb_false_r.
  destruct (total_seats db (trip_id b)); simpl; f_equal. lia.
Qed.

(** X19.  A typed "yes" in the cancellation dialogue cancels the
    caller's booking without looking at its status: the booking ends
    [CANCELLED], its seats are added to the trip and the driver is
    notified.  For a [PENDING] or [CONFIRMED] booking the sum of free and
    held seats is kept; for a booking that was already [CANCELLED],
    [REJECTED] or [EXPIRED] the sum grows by the booked seats. *)
Theorem typed_yes_cancels_whatever_the_status env db id text b trip :
  text ∈ yes_words →
  bookings db !! id = Some b →
  booking_trip db b = Some trip →
  let s := handle_message_cancelling env db (Some id) text
                                     (passenger_id b) in
  said_reply s = TextCancelled ∧
  said_user_data s = None ∧
  said_notes s = [NotifyDriverBookingCancelled id] ∧
  bookings (said_db s) = <[id := set_status b CANCELLED]> (bookings db) ∧
  (in_pending_confirmed (status b) = true →
   total_seats (said_db s) (trip_id b) = total_seats db (trip_id b)) ∧
  (in_pending_confirmed (status b) = false →
   total_seats (said_db s) (trip_id b)
   = (λ n, n + seats_booked b) <$> total_seats db (trip_id b)).
Proof.
  intros Hyes Hb Ht s. subst s. unfold handle_message_cancelling.
  rewrite (bool_decide_eq_true_2 _ Hyes), Hb, Ht.
  rewrite (bool_decide_eq_true_2 (passenger_id b = passenger_id b)) by done.
  simpl. repeat split; intros Hs;
    rewrite (total_seats_cancelled db id b trip Hb Ht);
    unfold held; rewrite Hs, (bool_decide_eq_true_2 _ eq_refl); simpl.
  - destruct (total_seats db (trip_id b)); simpl; f_equal. lia.
  - destruct (total_seats db (trip_id b)); simpl; f_equal. lia.
Qed.

(** Alice types "yes" for her pending sample booking. *)
Lemma typed_yes_cancels_whatever_the_status_witness :
  total_seats
    (said_db (handle_message_cancelling (Sample.env_at Sample.t_noon)
                Sample.db_pending (Some 1) "yes" Sample.alice)) 1
  = Some 3.
Proof.
  destruct (typed_yes_cancels_whatever_the_status
              (Sample.env_at Sample.t_noon) Sample.db_pending 1 "yes"
              (mkBooking 1 Sample.alice 2 (DtDatetime Sample.t_noon) PENDING)
              (mkTrip Sample.driver (Sample.t_noon + Sample.minutes 120)
                      None 1 true))
    as (_ & _ & _ & _ & H & _);
    [set_solver | reflexivity | reflexivity |].
  apply H. reflexivity.
Defined.

(** X20.  The confirm button of the cancellation dialogue leaves
    [cancelling_booking_id] in [user_data], so a "yes" typed after the
    button has cancelled the booking cancels it a second time: the seats
    of the booking are added to the trip again, the sum of free and held
    seats ends above what it was by the booked seats, and the driver is
    notified once more. *)
Theorem button_then_typed_yes_returns_seats_twice
    env0 env1 env2 db ud id u text b yes_data no_data :
  bookings db !! id = Some b →
  (cancel_booking env0 db ud id u).2 = AskConfirmation yes_data no_data →
  out_reply (step env1 db (ConfirmCancel id u)) = ReplyCancelled →
  text ∈ yes_words →
  let db1 := out_db (step env1 db (ConfirmCancel id u)) in
  let s := handle_message_cancelling env2 db1
             (cancel_booking env0 db ud id u).1 text u in
  total_seats db1 (trip_id b) = total_seats db (trip_id b) ∧
  total_seats (said_db s) (trip_id b)
  = (λ n, n + seats_booked b) <$> total_seats db (trip_id b) ∧
  said_notes s = [NotifyDriverBookingCancelled id].
Proof.
  intros Hb Hfirst Hbutton Hyes db1 s.
  assert ((cancel_booking env0 db ud id u).1 = Some id) as Hud.
  { unfold cancel_booking in *. rewrite Hb in *.
    repeat (case_match; simpl in *; try done). }
  subst s. rewrite Hud. clear Hfirst Hud.
  subst db1. simpl in *. unfold confirm_cancel in *. rewrite Hb in *.
  destruct (in_cancelled_rejected_expired (status b)) eqn:Hfinal;
    simpl in *; [done|].
  case_bool_decide as Hown; simpl in *; [|done]. subst u.
  destruct (booking_trip db b) as [trip|] eqn:Ht; simpl in *; [|done].
  assert (in_pending_confirmed (status b) = true) as Hact.
  { by destruct (status b). }
  set (db1 := mkDB (add_seats (trips db) (trip_id b) trip (seats_booked b))
                   (<[id := set_status b CANCELLED]> (bookings db))).
  assert (total_seats db1 (trip_id b) = total_seats db (trip_id b)) as Hsame.
  { unfold db1. rewrite (total_seats_cancelled db id b trip Hb Ht).
    unfold held. rewrite Hact, (bool_decide_eq_true_2 _ eq_refl). simpl.
    destruct (total_seats db (trip_id b)); simpl; f_equal. lia. }
  split; [done|].
  destruct (typed_yes_twice_helper env2 db1 id text (set_status b CANCELLED)
              (set_seats_available trip (seats_available trip + seats_booked b)))
    as (Hseats & Hnotes); try done.
  - unfold db1. simpl. by rewrite lookup_insert_eq.
  - unfold db1, booking_trip, add_seats. simpl. by rewrite lookup_insert_eq.
  - simpl in *. by rewrite Hseats, Hsame.
Qed.

(** Alice presses the confirm button for her pending sample booking and
    then types "yes": the three-seat trip ends with five seats. *)
Lemma button_then_typed_yes_returns_seats_twice_witness :
  let env := Sample.env_at (Sample.t_noon + Sample.minutes 1) in
  let db1 := out_db (step env Sample.db_pending
                          (ConfirmCancel 1 Sample.alice)) in
  total_seats Sample.db_pending 1 = Some 3 ∧
  total_seats
    (said_db (handle_message_cancelling env db1 (Some 1) "yes"
                                        Sample.alice)) 1
  = Some 5.
Proof.
  intros env db1. split; [reflexivity|].
  destruct (button_then_typed_yes_returns_seats_twice env env env
              Sample.db_pending None 1 Sample.alice "yes"
              (mkBooking 1 Sample.alice 2 (DtDatetime Sample.t_noon) PENDING)
              "confirm_cancel_1" "keep_booking_1")
    as (_ & H & _); [reflexivity | reflexivity | reflexivity | set_solver |].
  exact H.
Defined.

(** X21.  The two steps of each cancellation fit together.  When the
    first step of the driver's booking cancellation, or of the trip
    cancellation, shows its confirmation keyboard, the data of the "yes"
    button is taken by the confirming branch with the same id and caller,
    and that branch accepts it on the same database, at whatever time
    it is pressed.  For the passenger's cancellation the data reaches
    the confirming branch as well, which accepts it when the booking is
    [PENDING] or [CONFIRMED] and answers "already cancelled" otherwise,
    the first step not having looked at the status. *)
Theorem asked_then_confirmed int isdigit env env' db u :
  (∀ n, int (str n) = Some n) →
  (∀ id yes_data no_data,
     cancel_driver_booking env db id u = AskConfirmation yes_data no_data →
     route int isdigit yes_data u = RunCommand (ConfirmDriverCancel id u) ∧
     out_reply (step env' db (ConfirmDriverCancel id u))
     = ReplyDriverCancelled) ∧
  (∀ tid trigger_id yes_data no_data,
     cancel_trip_ask env db tid trigger_id u
     = AskConfirmation yes_data no_data →
     route int isdigit yes_data u = RunCommand (ConfirmTripCancel tid u) ∧
     out_reply (step env' db (ConfirmTripCancel tid u))
     = ReplyTripCancelled) ∧
  (∀ ud id yes_data no_data,
     (cancel_booking env db ud id u).2 = AskConfirmation yes_data no_data →
     route int isdigit yes_data u = RunCommand (ConfirmCancel id u) ∧
     ∃ b, bookings db !! id = Some b ∧
          out_reply (step env' db (ConfirmCancel id u))
          = if in_pending_confirmed (status b) then ReplyCancelled
            else ReplyAlreadyCancelled).
Proof.
  intros Hint. split; [|split].
  - intros id yes_data no_data. unfold cancel_driver_booking.
    destruct (bookings db !! id) as [b|] eqn:Hb; [|done].
    destruct (in_cancelled_rejected_expired (status b)) eqn:Hfinal; [done|].
    destruct (booking_trip db b) as [trip|] eqn:Ht; [|done].
    case_bool_decide as Hdrv; [done|]. case_bool_decide as Hpast; [done|].
    intros [= <- <-]. split; [by apply route_confirm_driver_cancel|].
    simpl. unfold confirm_driver_cancel. rewrite Hb, Hfinal, Ht.
    by rewrite (bool_decide_eq_false_2 (driver_id trip ≠ u))
      by (intros Hne; by apply Hne).
  - intros tid trigger_id yes_data no_data. unfold cancel_trip_ask.
    destruct (trips db !! tid) as [trip|] eqn:Ht; [|done].
    destruct (is_active trip) eqn:Hact; simpl; [|done].
    case_bool_decide as Hdrv; [done|]. case_bool_decide as Hpast; [done|].
    intros [= <- <-]. split; [by apply route_confirm_trip_cancel|].
    unfold cancel_trip. rewrite Ht, Hact. simpl.
    rewrite (bool_decide_eq_false_2 (driver_id trip ≠ u))
      by (intros Hne; by apply Hne).
    by destruct (notify_passengers_trip_cancelled env' _ tid).
  - intros ud id yes_data no_data. unfold cancel_booking.
    destruct (bookings db !! id) as [b|] eqn:Hb; [|done].
    case_bool_decide as Hown; [done|].
    destruct (booking_trip db b) as [trip|] eqn:Ht; [|done].
    case_bool_decide as Hpast; [done|].
    simpl. intros [= <- <-]. split; [by apply route_confirm_cancel|].
    exists b. split; [done|]. unfold confirm_cancel. rewrite Hb, Ht.
    rewrite (bool_decide_eq_true_2 _ Hown).
    by destruct (status b).
Qed.

(** The driver of the sample trip asks to cancel Alice's booking. *)
Lemma asked_then_confirmed_witness :
  let env := Sample.env_at (Sample.t_noon + Sample.minutes 1) in
  route int_decimal (λ _, true) "confirm_driver_cancel_1" Sample.driver
  = RunCommand (ConfirmDriverCancel 1 Sample.driver) ∧
  out_reply (step env Sample.db_pending (ConfirmDriverCancel 1 Sample.driver))
  = ReplyDriverCancelled.
Proof.
  intros env.
  destruct (asked_then_confirmed int_decimal (λ _, true) env env
              Sample.db_pending Sample.driver int_decimal_str) as (H & _).
  apply (H 1 "confirm_driver_cancel_1" "keep_driver_booking_1").
  reflexivity.
Defined.

(* ================================================================== *)
(** ** The word after a seat count *)
(* ================================================================== *)

(** X22.  [_seats_word_ru] gives the singular form exactly for the
    counts that end in 1 but not in 11, and the paucal form exactly for
    the counts that end in 2, 3 or 4 but not in 12, 13 or 14; the sign of
    the count does not matter, and two counts with the same last two
    digits get the same word. *)
Theorem seats_word_ru_spec n :
  (_seats_word_ru n = "место" ↔
   Z.abs n `mod` 10 = 1 ∧ Z.abs n `mod` 100 ≠ 11) ∧
  (_seats_word_ru n = "места" ↔
   2 ≤ Z.abs n `mod` 10 ≤ 4 ∧ ¬ 12 ≤ Z.abs n `mod` 100 ≤ 14) ∧
  _seats_word_ru (- n) = _seats_word_ru n ∧
  ∀ m, Z.abs m `mod` 100 = Z.abs n `mod` 100 →
       _seats_word_ru m = _seats_word_ru n.
Proof.
  assert (∀ a, 0 ≤ a → a `mod` 10 = (a `mod` 100) `mod` 10) as Hmod.
  { intros a Ha. Z.div_mod_to_equations. lia. }
  pose proof (Z.abs_nonneg n) as Hn. pose proof (Hmod _ Hn) as Hn10.
  unfold _seats_word_ru. split; [|split; [|split]].
  - simpl. rewrite Hn10. generalize (Z.abs n `mod` 100). intros x.
    repeat case_bool_decide; split; try done;
      intros; Z.div_mod_to_equations; lia.
  - simpl. rewrite Hn10. generalize (Z.abs n `mod` 100). intros x.
    repeat case_bool_decide; split; try done;
      intros; Z.div_mod_to_equations; lia.
  - by rewrite Z.abs_opp.
  - intros m Hm. simpl.
    rewrite (Hmod _ (Z.abs_nonneg m)), Hm, <- Hn10. done.
Qed.
